(** * structs: conversion between Go struct values and [map[string]any]

    A shallow embedding of [structs.go] and [field.go] of the package
    [github.com/tochemey/structs], together with the part of Go's [reflect]
    package these files rely on, and the properties of the forward converter
    ([Map], [FillMap], [nested]), of the reverse converter ([FillStruct],
    [toStruct], [fromValue] and its helpers), of [IsZero] / [HasZero], of
    [Values], [Names], [Fields] and [FieldOk], and of the methods of a
    [Field] ([Set], [Zero], [IsZero], [Fields], [FieldOk]).

    Go values are modelled as trees that carry their dynamic type: booleans,
    integers, strings, pointers, slices, arrays, maps and structs
    (floating-point, complex, channel and function values are left out).
    A function that mutates its target answers the new content of the
    target.  Recursive functions take a recursion budget [fuel].  The
    forward converter is given a second time over a store of references
    (module [Store]), to state what it writes. *)

From Stdlib Require Import List String Ascii ZArith Bool Arith Lia.
Import ListNotations.
Local Open Scope string_scope.
Local Open Scope bool_scope.

Set Implicit Arguments.
Set Warnings "-register-all".

(** ** Outcomes of a call

    A Go call either returns, or panics; the embedding of a recursive
    function takes a recursion budget and reports when it is used up. *)

Inductive outcome (A : Type) : Type :=
| Ret (a : A)
| Panic (msg : string)
| Timeout.

Arguments Ret {A} a.
Arguments Panic {A} msg.
Arguments Timeout {A}.

Definition bind {A B} (c : outcome A) (k : A -> outcome B) : outcome B :=
  match c with
  | Ret a => k a
  | Panic msg => Panic msg
  | Timeout => Timeout
  end.

Notation "x <- c ;; k" := (bind c (fun x => k))
  (at level 61, c at next level, right associativity).
Notation "' pat <- c ;; k" := (bind c (fun x => match x with pat => k end))
  (at level 61, pat pattern, c at next level, right associativity).

(** [for _, x := range l { acc = f acc x }] where the body may panic. *)
Fixpoint foldM {A B} (f : B -> A -> outcome B) (l : list A) (b : B) : outcome B :=
  match l with
  | [] => Ret b
  | x :: l' => b' <- f b x ;; foldM f l' b'
  end.

(** ** reflect.Kind, reflect.Type *)

Inductive intkind := I | I8 | I16 | I32 | I64 | U | U8 | U16 | U32 | U64.

Module Kind.
Inductive t :=
| Invalid | Bool | Int (k : intkind) | String | Interface
| Ptr | Slice | Array | Map | Struct.
End Kind.

(** A struct tag, as [reflect.StructTag.Get] sees it: key to value. *)
Definition StructTag := list (string * string).

Fixpoint Get (tag : StructTag) (key : string) : string :=
  match tag with
  | [] => ""
  | (k, v) :: tag' => if String.eqb k key then v else Get tag' key
  end.

(** What [reflect.StructField] holds besides the field's type. *)
Record FieldHead := mkHead {
  Name : string;
  PkgPath : string;      (* empty for exported fields *)
  Tag : StructTag;
  Anonymous : bool
}.

Inductive type :=
| TBool
| TInt (k : intkind)
| TString
| TInterface
| TPtr (elem : type)
| TSlice (elem : type)
| TArray (len : nat) (elem : type)
| TMap (key elem : type)
| TStruct (fields : list (FieldHead * type))
| TNamed (name : string) (underlying : type).

Definition StructField := (FieldHead * type)%type.
Definition FieldType (f : StructField) : type := snd f.

Fixpoint Underlying (t : type) : type :=
  match t with
  | TNamed _ u => Underlying u
  | _ => t
  end.

Definition TypeKind (t : type) : Kind.t :=
  match Underlying t with
  | TBool => Kind.Bool
  | TInt k => Kind.Int k
  | TString => Kind.String
  | TInterface => Kind.Interface
  | TPtr _ => Kind.Ptr
  | TSlice _ => Kind.Slice
  | TArray _ _ => Kind.Array
  | TMap _ _ => Kind.Map
  | TStruct _ => Kind.Struct
  | TNamed _ _ => Kind.Invalid
  end.

(** [t.Elem()]: panics unless [t] is an array, map, pointer or slice type. *)
Definition TypeElem (t : type) : outcome type :=
  match Underlying t with
  | TPtr e | TSlice e | TArray _ e | TMap _ e => Ret e
  | _ => Panic "reflect: Elem of invalid type"
  end.

Definition TypeFields (t : type) : list StructField :=
  match Underlying t with
  | TStruct fs => fs
  | _ => []
  end.

Definition intkind_eqb (a b : intkind) : bool :=
  match a, b with
  | I, I | I8, I8 | I16, I16 | I32, I32 | I64, I64
  | U, U | U8, U8 | U16, U16 | U32, U32 | U64, U64 => true
  | _, _ => false
  end.

Definition Kind_eqb (a b : Kind.t) : bool :=
  match a, b with
  | Kind.Invalid, Kind.Invalid | Kind.Bool, Kind.Bool
  | Kind.String, Kind.String | Kind.Interface, Kind.Interface
  | Kind.Ptr, Kind.Ptr | Kind.Slice, Kind.Slice | Kind.Array, Kind.Array
  | Kind.Map, Kind.Map | Kind.Struct, Kind.Struct => true
  | Kind.Int k, Kind.Int k' => intkind_eqb k k'
  | _, _ => false
  end.

Fixpoint tag_eqb (a b : StructTag) : bool :=
  match a, b with
  | [], [] => true
  | (k, v) :: a', (k', v') :: b' =>
      String.eqb k k' && String.eqb v v' && tag_eqb a' b'
  | _, _ => false
  end.

Definition head_eqb (a b : FieldHead) : bool :=
  String.eqb (Name a) (Name b) && String.eqb (PkgPath a) (PkgPath b)
  && tag_eqb (Tag a) (Tag b) && Bool.eqb (Anonymous a) (Anonymous b).

(** Type identity, [t1 == t2] on [reflect.Type]. *)
Fixpoint type_eqb (a b : type) {struct a} : bool :=
  match a, b with
  | TBool, TBool => true
  | TInt k, TInt k' => intkind_eqb k k'
  | TString, TString => true
  | TInterface, TInterface => true
  | TPtr e, TPtr e' => type_eqb e e'
  | TSlice e, TSlice e' => type_eqb e e'
  | TArray n e, TArray n' e' => Nat.eqb n n' && type_eqb e e'
  | TMap k e, TMap k' e' => type_eqb k k' && type_eqb e e'
  | TStruct fs, TStruct gs =>
      (fix fields_eqb (fs gs : list (FieldHead * type)) : bool :=
         match fs, gs with
         | [], [] => true
         | (h, t) :: fs', (h', t') :: gs' =>
             head_eqb h h' && type_eqb t t' && fields_eqb fs' gs'
         | _, _ => false
         end) fs gs
  | TNamed n u, TNamed n' u' => String.eqb n n' && type_eqb u u'
  | _, _ => false
  end.

(** ** Go values ([any])

    Every value carries its dynamic type; [VNil] is the nil interface value,
    which has none.  A slot of interface type stores the dynamic value
    itself.  Pointers, slices and maps are nil ([None]) or hold their
    content; a map is a list of bindings with pairwise different keys. *)

Inductive any :=
| VNil
| VBool (t : type) (b : bool)
| VInt (t : type) (z : Z)
| VString (t : type) (s : string)
| VPtr (t : type) (p : option any)
| VSlice (t : type) (els : option (list any))
| VArray (t : type) (els : list any)
| VMap (t : type) (m : option (list (any * any)))
| VStruct (t : type) (fs : list any).

Definition mapdata := list (any * any).

Definition typeOf (x : any) : option type :=
  match x with
  | VNil => None
  | VBool t _ | VInt t _ | VString t _ | VPtr t _ | VSlice t _
  | VArray t _ | VMap t _ | VStruct t _ => Some t
  end.

(** Structural equality: [==] on comparable values, as map lookup uses it. *)
Fixpoint value_eqb (x y : any) {struct x} : bool :=
  let list_eqb :=
    fix list_eqb (l l' : list any) : bool :=
      match l, l' with
      | [], [] => true
      | a :: l, b :: l' => value_eqb a b && list_eqb l l'
      | _, _ => false
      end in
  match x, y with
  | VNil, VNil => true
  | VBool t b, VBool t' b' => type_eqb t t' && Bool.eqb b b'
  | VInt t z, VInt t' z' => type_eqb t t' && Z.eqb z z'
  | VString t s, VString t' s' => type_eqb t t' && String.eqb s s'
  | VPtr t None, VPtr t' None => type_eqb t t'
  | VPtr t (Some a), VPtr t' (Some b) => type_eqb t t' && value_eqb a b
  | VSlice t None, VSlice t' None => type_eqb t t'
  | VSlice t (Some l), VSlice t' (Some l') => type_eqb t t' && list_eqb l l'
  | VArray t l, VArray t' l' => type_eqb t t' && list_eqb l l'
  | VMap t None, VMap t' None => type_eqb t t'
  | VMap t (Some m), VMap t' (Some m') =>
      type_eqb t t' &&
      (fix map_eqb (m m' : list (any * any)) : bool :=
         match m, m' with
         | [], [] => true
         | (k, a) :: m, (k', b) :: m' =>
             value_eqb k k' && value_eqb a b && map_eqb m m'
         | _, _ => false
         end) m m'
  | VStruct t l, VStruct t' l' => type_eqb t t' && list_eqb l l'
  | _, _ => false
  end.

(** [m[k]]: the value bound to [k], if any. *)
Fixpoint MapIndex (m : mapdata) (k : any) : option any :=
  match m with
  | [] => None
  | (k', v) :: m' => if value_eqb k' k then Some v else MapIndex m' k
  end.

(** [m[k] = v]: replaces the binding of [k] or adds one. *)
Fixpoint SetMapIndex (m : mapdata) (k v : any) : mapdata :=
  match m with
  | [] => [(k, v)]
  | (k', v') :: m' =>
      if value_eqb k' k then (k', v) :: m' else (k', v') :: SetMapIndex m' k v
  end.

(** [reflect.Zero(t).Interface()] *)
Fixpoint Zero_at (full t : type) {struct t} : any :=
  match t with
  | TBool => VBool full false
  | TInt _ => VInt full 0
  | TString => VString full ""
  | TInterface => VNil
  | TPtr _ => VPtr full None
  | TSlice _ => VSlice full None
  | TArray n e => VArray full (repeat (Zero_at e e) n)
  | TMap _ _ => VMap full None
  | TStruct fs =>
      VStruct full
        ((fix zeros (fs : list (FieldHead * type)) : list any :=
            match fs with
            | [] => []
            | (_, ft) :: fs' => Zero_at ft ft :: zeros fs'
            end) fs)
  | TNamed _ u => Zero_at full u
  end.

Definition Zero (t : type) : any := Zero_at t t.

(** [reflect.DeepEqual]: like [==], except that maps are compared binding
    by binding, whatever their order, and that a nil slice or map differs
    from an empty one. *)
Fixpoint DeepEqual (x y : any) {struct x} : bool :=
  let all2 :=
    fix all2 (l l' : list any) : bool :=
      match l, l' with
      | [] , [] => true
      | a :: l, b :: l' => DeepEqual a b && all2 l l'
      | _, _ => false
      end in
  match x, y with
  | VNil, VNil => true
  | VBool t b, VBool t' b' => type_eqb t t' && Bool.eqb b b'
  | VInt t z, VInt t' z' => type_eqb t t' && Z.eqb z z'
  | VString t s, VString t' s' => type_eqb t t' && String.eqb s s'
  | VPtr t None, VPtr t' None => type_eqb t t'
  | VPtr t (Some a), VPtr t' (Some b) => type_eqb t t' && DeepEqual a b
  | VSlice t None, VSlice t' None => type_eqb t t'
  | VSlice t (Some l), VSlice t' (Some l') => type_eqb t t' && all2 l l'
  | VArray t l, VArray t' l' => type_eqb t t' && all2 l l'
  | VMap t None, VMap t' None => type_eqb t t'
  | VMap t (Some m), VMap t' (Some m') =>
      type_eqb t t' && Nat.eqb (List.length m) (List.length m') &&
      (fix all_keys (m : list (any * any)) : bool :=
         match m with
         | [] => true
         | (k, a) :: m =>
             match MapIndex m' k with
             | Some b => DeepEqual a b && all_keys m
             | None => false
             end
         end) m
  | VStruct t l, VStruct t' l' => type_eqb t t' && all2 l l'
  | _, _ => false
  end.

(** ** reflect.Value

    A [Value] is a typed view of a storage slot: the slot's static type, the
    flags that decide whether [Set] is allowed, and what the slot holds.
    The zero [Value] (invalid) is [None] of [option Value].

    [reflect] has two read-only bits, [flagStickyRO] (obtained through an
    unexported field that is not embedded) and [flagEmbedRO] (obtained
    through an unexported embedded field); [flagRO] is their union, and
    what [Set], [CanSet] and [Interface] test.  [Field] keeps the sticky
    bit of the struct and drops the other one, so the exported fields of an
    unexported embedded struct can be set.  A [Value] records whether a bit
    of [flagRO] is set and whether [flagStickyRO] is. *)

Record Value := MkValue {
  Type_ : type;        (* v.Type() *)
  flagRO : bool;       (* v.flag&flagRO != 0 *)
  flagAddr : bool;     (* addressable *)
  data : any;
  flagStickyRO : bool  (* v.flag&flagStickyRO != 0 *)
}.

(** A [Value] that, when it is read-only, is so by [flagStickyRO]. *)
Abbreviation mkValue t ro addr x := (MkValue t ro addr x ro).

Definition ValueKind (v : Value) : Kind.t := TypeKind (Type_ v).

Definition KindOf (v : option Value) : Kind.t :=
  match v with
  | Some v => ValueKind v
  | None => Kind.Invalid
  end.

(** [reflect.ValueOf(x)] *)
Definition ValueOf (x : any) : option Value :=
  match typeOf x with
  | Some t => Some (mkValue t false false x)
  | None => None
  end.

(** [v.Interface()] *)
Definition Interface (v : Value) : outcome any :=
  if flagRO v
  then Panic "reflect.Value.Interface: cannot return value obtained from unexported field or method"
  else Ret (data v).

Definition InterfaceOf (v : option Value) : outcome any :=
  match v with
  | Some v => Interface v
  | None => Panic "reflect: call of reflect.Value.Interface on zero Value"
  end.

(** [v.Type()] *)
Definition TypeOfValue (v : option Value) : outcome type :=
  match v with
  | Some v => Ret (Type_ v)
  | None => Panic "reflect: call of reflect.Value.Type on zero Value"
  end.

(** [v.Elem()] for [v] of kind [Ptr]: the pointee, invalid for a nil pointer. *)
Definition Elem (v : Value) : option Value :=
  match Underlying (Type_ v), data v with
  | TPtr e, VPtr _ (Some y) =>
      Some (MkValue e (flagRO v) true y (flagStickyRO v))
  | _, _ => None
  end.

(** [if v.Kind() == reflect.Ptr { v = v.Elem() }] *)
Definition derefOnce (v : option Value) : option Value :=
  match v with
  | Some v' =>
      match ValueKind v' with
      | Kind.Ptr => Elem v'
      | _ => v
      end
  | None => None
  end.

(** Position of the first field called [name]. *)
Fixpoint fieldIndex (fs : list StructField) (name : string) : option nat :=
  match fs with
  | [] => None
  | f :: fs' =>
      if String.eqb (Name (fst f)) name then Some 0
      else option_map S (fieldIndex fs' name)
  end.

(** [v.Field(i)] for [v] of kind [Struct].  Of the read-only bits of [v]
    the field inherits [flagStickyRO] only; an unexported field sets
    [flagEmbedRO] when it is embedded and [flagStickyRO] when it is not. *)
Definition Value_Field (v : Value) (i : nat) : option Value :=
  match data v with
  | VStruct _ xs =>
      match nth_error (TypeFields (Type_ v)) i, nth_error xs i with
      | Some f, Some x =>
          Some (MkValue (FieldType f)
                        (flagStickyRO v
                         || negb (String.eqb (PkgPath (fst f)) ""))
                        (flagAddr v) x
                        (flagStickyRO v
                         || (negb (String.eqb (PkgPath (fst f)) "")
                             && negb (Anonymous (fst f)))))
      | _, _ => None
      end
  | _ => None
  end.

(** [v.FieldByName(name)]; the fields of one struct type have pairwise
    different names. *)
Definition FieldByName (v : Value) (name : string) : option Value :=
  match fieldIndex (TypeFields (Type_ v)) name with
  | Some i => Value_Field v i
  | None => None
  end.

(** [v.Index(i)] for a slice or an array; a read-only bit of [v] comes out
    as [flagStickyRO]. *)
Definition Index (v : Value) (i : nat) : option Value :=
  match Underlying (Type_ v), data v with
  | TSlice e, VSlice _ (Some xs) =>
      option_map (fun x => mkValue e (flagRO v) true x) (nth_error xs i)
  | TArray _ e, VArray _ xs =>
      option_map (fun x => mkValue e (flagRO v) (flagAddr v) x)
                 (nth_error xs i)
  | _, _ => None
  end.

(** [v.Len()] for a slice, an array or a map. *)
Definition Len (v : Value) : nat :=
  match data v with
  | VSlice _ (Some xs) | VArray _ xs => List.length xs
  | VMap _ (Some m) => List.length m
  | _ => 0
  end.

(** The bindings of a map value ([nil] has none), each key and each element
    as a [Value] of the map type's key and element type. *)
Definition MapEntries (v : Value) : list (Value * Value) :=
  match Underlying (Type_ v), data v with
  | TMap kt et, VMap _ (Some m) =>
      map (fun kv => (mkValue kt (flagRO v) false (fst kv),
                      mkValue et (flagRO v) false (snd kv))) m
  | _, _ => []
  end.

(** ** Errors

    [errors.New] and [fmt.Errorf] (without [%w]) give an error that is its
    message; [errors.Join] keeps the errors it joins. *)

Inductive error :=
| errorString (msg : string)
| joinError (errs : list error).

Definition newline : string := String (ascii_of_nat 10) "".

Fixpoint Error (e : error) : string :=
  match e with
  | errorString msg => msg
  | joinError errs =>
      (fix join (errs : list error) : string :=
         match errs with
         | [] => ""
         | [e] => Error e
         | e :: errs' => Error e ++ newline ++ join errs'
         end) errs
  end.

(** [errors.Join(a, b)]: nil when both are, else the non-nil ones. *)
Definition Join (a b : option error) : option error :=
  match a, b with
  | None, None => None
  | Some x, None => Some (joinError [x])
  | None, Some y => Some (joinError [y])
  | Some x, Some y => Some (joinError [x; y])
  end.

Definition errNotSlice := errorString "not a slice".
Definition errNotMap := errorString "not a map".
Definition errNotStruct := errorString "not a struct".
Definition errNotArrayOrSlice := errorString "not an array or slice".

Definition DefaultTagName : string := "structs".

(** ** Tags *)

Definition tagOptions := list string.

(** Modelled from the spec: [tagOptions.Has] of tags.go, which is not among
    the sources: exact string membership. *)
Fixpoint Has (t : tagOptions) (opt : string) : bool :=
  match t with
  | [] => false
  | tagOpt :: t' => if String.eqb tagOpt opt then true else Has t' opt
  end.

(** [strings.Split(s, ",")]: never empty. *)
Fixpoint splitComma (s : string) : list string :=
  match s with
  | EmptyString => [""]
  | String c s' =>
      if Ascii.eqb c ","%char then "" :: splitComma s'
      else
        match splitComma s' with
        | tok :: toks => String c tok :: toks
        | [] => [String c ""]
        end
  end.

(** Modelled from the spec: [parseTag] of tags.go, which is not among the
    sources: the text before the first comma is the name, the
    comma-separated tokens after it are the options, nothing is trimmed. *)
Definition parseTag (tag : string) : string * tagOptions :=
  match splitComma tag with
  | name :: opts => (name, opts)
  | [] => ("", [])
  end.

(** ** Go's rules for the types above

    [t.String()], assignability and conversion as the Go specification and
    [reflect] define them on booleans, integers, strings and the composite
    types above.  The converters below do not depend on them: they take these
    functions as parameters; this instance serves to run them. *)

Definition quote : string := String (ascii_of_nat 34) "".
Definition backslash : string := String (ascii_of_nat 92) "".

Definition intkind_name (k : intkind) : string :=
  match k with
  | I => "int" | I8 => "int8" | I16 => "int16" | I32 => "int32" | I64 => "int64"
  | U => "uint" | U8 => "uint8" | U16 => "uint16" | U32 => "uint32"
  | U64 => "uint64"
  end.

(** [strconv.Itoa] on a natural number. *)
Definition digit (n : nat) : string :=
  String (ascii_of_nat (48 + n)) "".

Fixpoint itoa_fuel (fuel n : nat) : string :=
  match fuel with
  | 0 => ""
  | S fuel =>
      if Nat.ltb n 10 then digit n
      else itoa_fuel fuel (n / 10) ++ digit (n mod 10)
  end.

Definition itoa (n : nat) : string := itoa_fuel (S n) n.

Fixpoint tag_string (tag : StructTag) : string :=
  match tag with
  | [] => ""
  | [(k, v)] => k ++ ":" ++ backslash ++ quote ++ v ++ backslash ++ quote
  | (k, v) :: tag' =>
      k ++ ":" ++ backslash ++ quote ++ v ++ backslash ++ quote ++ " "
      ++ tag_string tag'
  end.

Fixpoint go_TypeString (t : type) : string :=
  match t with
  | TBool => "bool"
  | TInt k => intkind_name k
  | TString => "string"
  | TInterface => "interface {}"
  | TPtr e => "*" ++ go_TypeString e
  | TSlice e => "[]" ++ go_TypeString e
  | TArray n e => "[" ++ itoa n ++ "]" ++ go_TypeString e
  | TMap k e => "map[" ++ go_TypeString k ++ "]" ++ go_TypeString e
  | TStruct [] => "struct {}"
  | TStruct fs =>
      "struct { " ++
      (fix fields (fs : list (FieldHead * type)) : string :=
         match fs with
         | [] => ""
         | (h, ft) :: fs' =>
             (if Anonymous h then "" else Name h ++ " ") ++ go_TypeString ft
             ++ (match Tag h with
                 | [] => ""
                 | tag => " " ++ quote ++ tag_string tag ++ quote
                 end)
             ++ (match fs' with [] => "" | _ => "; " end) ++ fields fs'
         end) fs
      ++ " }"
  | TNamed name _ => name
  end.

Definition isNamed (t : type) : bool :=
  match t with
  | TNamed _ _ | TBool | TInt _ | TString => true
  | _ => false
  end.

(** [V.AssignableTo(T)]: identical types, identical underlying types when one
    of the two is not a named type, or [T] the empty interface. *)
Definition go_AssignableTo (V T : type) : bool :=
  type_eqb V T
  || (type_eqb (Underlying V) (Underlying T) && negb (isNamed V && isNamed T))
  || Kind_eqb (TypeKind T) Kind.Interface.

Definition isIntKind (k : Kind.t) : bool :=
  match k with Kind.Int _ => true | _ => false end.

Definition isBytesOrRunes (t : type) : bool :=
  match Underlying t with
  | TSlice e =>
      match e with
      | TInt U8 | TInt I32 => true
      | _ => false
      end
  | _ => false
  end.

(** [V.ConvertibleTo(T)]: assignable, identical underlying types, integer
    to integer, integer to string, byte or rune slice to string, pointers
    to types with identical underlying types. *)
Definition go_ConvertibleTo (V T : type) : bool :=
  go_AssignableTo V T
  || type_eqb (Underlying V) (Underlying T)
  || (isIntKind (TypeKind V) && isIntKind (TypeKind T))
  || (isIntKind (TypeKind V) && Kind_eqb (TypeKind T) Kind.String)
  || (isBytesOrRunes V && Kind_eqb (TypeKind T) Kind.String)
  || match V, T with
     | TPtr a, TPtr b => type_eqb (Underlying a) (Underlying b)
     | _, _ => false
     end.

Definition intkind_bits (k : intkind) : Z :=
  match k with
  | I8 | U8 => 8
  | I16 | U16 => 16
  | I32 | U32 => 32
  | I | I64 | U | U64 => 64
  end.

Definition intkind_signed (k : intkind) : bool :=
  match k with
  | I | I8 | I16 | I32 | I64 => true
  | _ => false
  end.

(** The value of an integer conversion: wrap-around to the width of [k]. *)
Definition wrap (k : intkind) (z : Z) : Z :=
  let m := Z.pow 2 (intkind_bits k) in
  if intkind_signed k
  then Z.modulo (z + m / 2) m - m / 2
  else Z.modulo z m.

Definition byte_string (z : Z) : string :=
  String (ascii_of_N (Z.to_N z)) "".

(** [string(rune(r))]: the UTF-8 encoding of [r], U+FFFD when [r] is not a
    valid code point. *)
Definition rune_string (r : Z) : string :=
  if (r <? 0)%Z || (1114111 <? r)%Z || ((55296 <=? r)%Z && (r <=? 57343)%Z)
  then byte_string 239 ++ byte_string 191 ++ byte_string 189
  else if (r <? 128)%Z then byte_string r
  else if (r <? 2048)%Z then
    byte_string (Z.lor 192 (Z.shiftr r 6))
    ++ byte_string (Z.lor 128 (Z.land r 63))
  else if (r <? 65536)%Z then
    byte_string (Z.lor 224 (Z.shiftr r 12))
    ++ byte_string (Z.lor 128 (Z.land (Z.shiftr r 6) 63))
    ++ byte_string (Z.lor 128 (Z.land r 63))
  else
    byte_string (Z.lor 240 (Z.shiftr r 18))
    ++ byte_string (Z.lor 128 (Z.land (Z.shiftr r 12) 63))
    ++ byte_string (Z.lor 128 (Z.land (Z.shiftr r 6) 63))
    ++ byte_string (Z.lor 128 (Z.land r 63)).

Definition retype (x : any) (T : type) : any :=
  match x with
  | VNil => VNil
  | VBool _ b => VBool T b
  | VInt _ z => VInt T z
  | VString _ s => VString T s
  | VPtr _ p => VPtr T p
  | VSlice _ l => VSlice T l
  | VArray _ l => VArray T l
  | VMap _ m => VMap T m
  | VStruct _ l => VStruct T l
  end.

(** [reflect.ValueOf(x).Convert(T).Interface()] *)
Definition go_Convert (x : any) (T : type) : any :=
  match x, Underlying T with
  | VInt _ z, TInt k => VInt T (wrap k z)
  | VInt _ z, TString => VString T (rune_string z)
  | VSlice _ l, TString =>
      VString T
        (fold_right
           (fun b acc =>
              match b with
              | VInt (TInt U8) z => byte_string z ++ acc
              | VInt _ z => rune_string z ++ acc
              | _ => acc
              end)
           "" (match l with Some l => l | None => [] end))
  | _, _ => retype x T
  end.

(** No type of the examples implements [fmt.Stringer]. *)
Definition go_Stringer (x : any) : option string := None.

(** ** The converters *)

Section Converters.

(** What the converters take from the Go run time and from the types of the
    program: [t.String()], the [fmt.Stringer] implementation of a value's
    dynamic type when there is one, and reflect's assignability and
    conversion. *)
Variable TypeString : type -> string.
Variable Stringer : any -> option string.
Variable AssignableTo : type -> type -> bool.
Variable ConvertibleTo : type -> type -> bool.
Variable Convert : any -> type -> any.

(** [k.String()] on a [reflect.Value] *)
Definition ValueString (k : Value) : string :=
  match ValueKind k, data k with
  | Kind.String, VString _ str => str
  | _, _ => "<" ++ TypeString (Type_ k) ++ " Value>"
  end.

Record Struct := mkStruct {
  raw : any;
  value : Value;
  TagName : string
}.

(** [for v.Kind() == reflect.Ptr { v = v.Elem() }], then the kind check.
    The loop starts from [reflect.ValueOf(s)], which has no read-only
    bit. *)
Fixpoint structVal_loop (t : type) (ro addr : bool) (x : any) {struct x}
  : outcome Value :=
  match TypeKind t with
  | Kind.Ptr =>
      match Underlying t, x with
      | TPtr e, VPtr _ (Some y) => structVal_loop e ro true y
      | _, _ => Panic "not struct"
      end
  | Kind.Struct => Ret (mkValue t ro addr x)
  | _ => Panic "not struct"
  end.

Definition structVal (s : any) : outcome Value :=
  match ValueOf s with
  | Some v => structVal_loop (Type_ v) (flagRO v) (flagAddr v) (data v)
  | None => Panic "not struct"
  end.

Definition New (s : any) : outcome Struct :=
  v <- structVal s ;;
  Ret (mkStruct s v DefaultTagName).

(** [n.TagName = name] *)
Definition withTagName (n : Struct) (name : string) : Struct :=
  mkStruct (raw n) (value n) name.

Definition structFields (s : Struct) : list StructField :=
  filter (fun field =>
            String.eqb (PkgPath (fst field)) ""
            && negb (String.eqb (Get (Tag (fst field)) (TagName s)) "-"))
         (TypeFields (Type_ (value s))).

Definition IsStruct (s : any) : bool :=
  match derefOnce (ValueOf s) with
  | None => false
  | Some v => Kind_eqb (ValueKind v) Kind.Struct
  end.

Definition tMapStringAny : type := TMap TString TInterface.
Definition tSliceAny : type := TSlice TInterface.

(** [finalVal.(map[string]any)] *)
Definition assertMapStringAny (x : any) : outcome mapdata :=
  match x with
  | VMap t m =>
      if type_eqb t tMapStringAny
      then Ret (match m with Some m => m | None => [] end)
      else Panic "interface conversion: interface {} is not map[string]interface {}"
  | _ => Panic "interface conversion: interface {} is not map[string]interface {}"
  end.

Definition key (name : string) : any := VString TString name.

(** The body of the loop of [FillMap] for one field. *)
Definition fillField (nested : option Value -> outcome any) (s : Struct)
  (out : mapdata) (field : StructField) : outcome mapdata :=
  let name := Name (fst field) in
  let val := FieldByName (value s) name in
  let '(tagName, tagOpts) := parseTag (Get (Tag (fst field)) (TagName s)) in
  let name := if String.eqb tagName "" then name else tagName in
  skip <- (if Has tagOpts "omitempty"
           then vt <- TypeOfValue val ;;
                current <- InterfaceOf val ;;
                Ret (DeepEqual current (Zero vt))
           else Ret false) ;;
  if (skip : bool) then Ret out else
  '(finalVal, isSubStruct) <-
     (if negb (Has tagOpts "omitnested")
      then finalVal <- nested val ;;
           x <- InterfaceOf val ;;
           Ret (finalVal,
                match KindOf (derefOnce (ValueOf x)) with
                | Kind.Map | Kind.Struct => true
                | _ => false
                end)
      else x <- InterfaceOf val ;; Ret (x, false)) ;;
  if Has tagOpts "string" then
    x <- InterfaceOf val ;;
    match Stringer x with
    | Some str => Ret (SetMapIndex out (key name) (VString TString str))
    | None => Ret out
    end
  else if isSubStruct && Has tagOpts "flatten" then
    m <- assertMapStringAny finalVal ;;
    Ret (fold_left (fun out kv => SetMapIndex out (fst kv) (snd kv)) m out)
  else Ret (SetMapIndex out (key name) finalVal).

(** The bodies of [FillMap] and [nested], which call each other; the
    functions they call are parameters, and the recursion is closed below. *)
Definition FillMap_body
  (nested : Struct -> option Value -> outcome any)
  (s : Struct) (out : option mapdata) : outcome (option mapdata) :=
  match out with
  | None => Ret None
  | Some out =>
      out <- foldM (fillField (nested s) s) (structFields s) out ;;
      Ret (Some out)
  end.

Definition nested_body
  (FillMap : Struct -> option mapdata -> outcome (option mapdata))
  (nested : Struct -> option Value -> outcome any)
  (s : Struct) (val : option Value) : outcome any :=
  x <- InterfaceOf val ;;
  match KindOf (derefOnce (ValueOf x)) with
  | Kind.Struct =>
      n <- New x ;;
      let n := withTagName n (TagName s) in
      (* m := n.Map() *)
      m <- FillMap n (Some []) ;;
      match m with
      | Some ((_ :: _) as m) => Ret (VMap tMapStringAny (Some m))
      | _ => Ret x
      end
  | Kind.Map =>
      vt <- TypeOfValue val ;;
      mapElem <-
        match TypeKind vt with
        | Kind.Ptr | Kind.Array | Kind.Map | Kind.Slice =>
            e <- TypeElem vt ;;
            match TypeKind e with
            | Kind.Ptr => TypeElem e
            | _ => Ret e
            end
        | _ => Ret vt
        end ;;
      iterate <-
        match TypeKind mapElem with
        | Kind.Struct => Ret true
        | Kind.Slice =>
            e <- TypeElem mapElem ;;
            Ret (Kind_eqb (TypeKind e) Kind.Struct)
        | _ => Ret false
        end ;;
      if (iterate : bool) then
        m <- foldM (fun m kv =>
                      x <- nested s (Some (snd kv)) ;;
                      Ret (SetMapIndex m (key (ValueString (fst kv))) x))
                   (match val with Some v => MapEntries v | None => [] end)
                   [] ;;
        Ret (VMap tMapStringAny (Some m))
      else Ret x
  | Kind.Slice | Kind.Array =>
      vt <- TypeOfValue val ;;
      match TypeKind vt with
      | Kind.Interface => Ret x
      | _ =>
          e <- TypeElem vt ;;
          ofStructs <-
            match TypeKind e with
            | Kind.Struct => Ret true
            | Kind.Ptr =>
                e' <- TypeElem e ;;
                Ret (Kind_eqb (TypeKind e') Kind.Struct)
            | _ => Ret false
            end ;;
          if (ofStructs : bool) then
            match val with
            | Some v =>
                slices <- foldM (fun slices i =>
                                   x <- nested s (Index v i) ;;
                                   Ret ((slices ++ [x])%list))
                                (seq 0 (Len v)) [] ;;
                Ret (VSlice tSliceAny (Some slices))
            | None => Ret x
            end
          else Ret x
      end
  | _ => Ret x
  end.

Fixpoint FillMap (fuel : nat) (s : Struct) (out : option mapdata) {struct fuel}
  : outcome (option mapdata) :=
  match fuel with
  | 0 => Timeout
  | S fuel => FillMap_body (nested fuel) s out
  end

with nested (fuel : nat) (s : Struct) (val : option Value) {struct fuel}
  : outcome any :=
  match fuel with
  | 0 => Timeout
  | S fuel => nested_body (FillMap fuel) (nested fuel) s val
  end.

(** [s.Map()] *)
Definition Map (fuel : nat) (s : Struct) : outcome (option mapdata) :=
  FillMap fuel s (Some []).

(** [for _, x := range l { ... return r ... }; return dflt]: the body
    answers [Some r] to return [r] and [None] to go on. *)
Fixpoint rangeUntil {A R} (body : A -> outcome (option R)) (l : list A)
  (dflt : R) : outcome R :=
  match l with
  | [] => Ret dflt
  | x :: l' =>
      r <- body x ;;
      match r with
      | Some r => Ret r
      | None => rangeUntil body l' dflt
      end
  end.

(** The method [IsZero]; the function [IsZero(s any)] it calls on a nested
    struct is [New(s).IsZero()], hence under [DefaultTagName]. *)
Fixpoint IsZero (fuel : nat) (s : Struct) {struct fuel} : outcome bool :=
  match fuel with
  | 0 => Timeout
  | S fuel =>
      rangeUntil
        (fun field : StructField =>
           let val := FieldByName (value s) (Name (fst field)) in
           let '(_, tagOpts) := parseTag (Get (Tag (fst field)) (TagName s)) in
           x <- InterfaceOf val ;;
           if IsStruct x && negb (Has tagOpts "omitnested") then
             n <- New x ;;
             ok <- IsZero fuel n ;;
             if (ok : bool) then Ret None else Ret (Some false)
           else
             vt <- TypeOfValue val ;;
             if negb (DeepEqual x (Zero vt)) then Ret (Some false)
             else Ret None)
        (structFields s) true
  end.

(** The method [HasZero], likewise. *)
Fixpoint HasZero (fuel : nat) (s : Struct) {struct fuel} : outcome bool :=
  match fuel with
  | 0 => Timeout
  | S fuel =>
      rangeUntil
        (fun field : StructField =>
           let val := FieldByName (value s) (Name (fst field)) in
           let '(_, tagOpts) := parseTag (Get (Tag (fst field)) (TagName s)) in
           x <- InterfaceOf val ;;
           if IsStruct x && negb (Has tagOpts "omitnested") then
             n <- New x ;;
             ok <- HasZero fuel n ;;
             if (ok : bool) then Ret (Some true) else Ret None
           else
             vt <- TypeOfValue val ;;
             if DeepEqual x (Zero vt) then Ret (Some true)
             else Ret None)
        (structFields s) false
  end.

(** The package-level functions. *)
Definition pkg_Map (fuel : nat) (s : any) : outcome (option mapdata) :=
  n <- New s ;; Map fuel n.

Definition pkg_FillMap (fuel : nat) (s : any) (out : option mapdata)
  : outcome (option mapdata) :=
  n <- New s ;; FillMap fuel n out.

Definition pkg_IsZero (fuel : nat) (s : any) : outcome bool :=
  n <- New s ;; IsZero fuel n.

Definition pkg_HasZero (fuel : nat) (s : any) : outcome bool :=
  n <- New s ;; HasZero fuel n.

(** *** field.go *)

Record Field := mkField {
  fvalue : option Value;
  field : StructField
}.

Definition Field_Name (f : Field) : string := Name (fst (field f)).
Definition Field_Kind (f : Field) : Kind.t := KindOf (fvalue f).
Definition IsEmbedded (f : Field) : bool := Anonymous (fst (field f)).
Definition IsExported (f : Field) : bool := String.eqb (PkgPath (fst (field f))) "".

Definition getFields (v : Value) (tagName : string) : outcome (list Field) :=
  t <- TypeOfValue (derefOnce (Some v)) ;;
  match derefOnce (Some v), TypeKind t with
  | Some v, Kind.Struct =>
      Ret (map (fun field => mkField (FieldByName v (Name (fst field))) field)
             (filter (fun field =>
                        negb (String.eqb (Get (Tag (fst field)) tagName) "-"))
                     (TypeFields t)))
  | _, _ => Panic "reflect: NumField of non-struct type"
  end.

(** *** Writing through a [reflect.Value] *)

(** What a slot of type [target] holds once a value [x] of type [xt] has
    been assigned to it; the assignment panics when [xt] is not assignable
    to [target]. *)
Definition assignTo (x : any) (xt target : type) : outcome any :=
  if type_eqb xt target then Ret x
  else if AssignableTo xt target then
    match TypeKind target with
    | Kind.Interface => Ret x
    | _ => Ret (Convert x target)
    end
  else Panic "reflect.Set: value is not assignable to type".

(** [v.Set(x)] for [x] of type [xt]: the new content of the slot. *)
Definition Set_ (v : Value) (x : any) (xt : type) : outcome any :=
  if flagRO v then
    Panic "reflect: reflect.Value.Set using value obtained using unexported field"
  else if negb (flagAddr v) then
    Panic "reflect: reflect.Value.Set using unaddressable value"
  else assignTo x xt (Type_ v).

(** [reflect.New(t).Elem()] *)
Definition NewElem (t : type) : Value := mkValue t false true (Zero t).

(** The struct [x] with its [i]-th field replaced. *)
Fixpoint replaceNth {A} (l : list A) (i : nat) (a : A) : list A :=
  match l, i with
  | [], _ => []
  | _ :: l', 0 => a :: l'
  | b :: l', S i' => b :: replaceNth l' i' a
  end.

Definition setField (x : any) (i : nat) (a : any) : any :=
  match x with
  | VStruct t xs => VStruct t (replaceNth xs i a)
  | _ => x
  end.

Definition withData (v : Value) (x : any) : Value :=
  MkValue (Type_ v) (flagRO v) (flagAddr v) x (flagStickyRO v).

(** [fmt.Errorf("%v:(%s)", e, ctx)] *)
Definition Errorf_ctx (e : error) (ctx : string) : error :=
  errorString (Error e ++ ":(" ++ ctx ++ ")").

(** The state of the loop of [toStruct]: the target as it is now, the error
    so far, and the staged values by position in the list of fields. *)
Record fillState := mkState {
  target : any;
  err : option error;
  modifiedFields : list (nat * any * type)
}.

(** *** The reverse converter

    Each function answers the new content of the slot it was given and the
    error it returns. *)

(** [reflect.ValueOf(in).MapIndex(reflect.ValueOf(name))]: [None] when the
    result is not valid. *)
Definition lookupName (in_ : any) (name : string) : outcome (option any) :=
  match in_ with
  | VMap mt m =>
      match Underlying mt with
      | TMap kt _ =>
          k <- assignTo (key name) TString kt ;;
          Ret (MapIndex (match m with Some m => m | None => [] end) k)
      | _ => Ret None
      end
  | _ => Ret None
  end.

(** The body of the first loop of [toStruct] for the [i]-th of [fields];
    [toStruct] and [fromValue] are the two functions it calls. *)
Definition toStruct_field
  (toStruct : any -> Value -> outcome (any * option error))
  (fromValue : any -> Value -> type -> outcome (any * option error))
  (in_ : any) (s : Value) (st : fillState) (ifield : nat * Field)
  : outcome fillState :=
  let '(i, field) := ifield in
  let name := Field_Name field in
  let val := FieldByName (withData s (target st)) name in
  let recurse :=
    match val with
    | Some val =>
        '(x, e) <- toStruct in_ val ;;
        let target' :=
          match fieldIndex (TypeFields (Type_ s)) name with
          | Some j => setField (target st) j x
          | None => target st
          end in
        Ret (mkState target'
               (match e with
                | Some _ => Join (err st) e
                | None => err st
                end)
               (modifiedFields st))
    | None =>
        Ret (mkState (target st) (Join (err st) (Some errNotStruct))
               (modifiedFields st))
    end in
  if IsEmbedded field then recurse
  else if negb (IsExported field) then Ret st    (* ignore unexported field *)
  else
    match Field_Kind field with
    | Kind.Struct => recurse                     (* handle value struct *)
    | Kind.Interface =>                          (* interfaces are not supported *)
        Ret (mkState (target st)
               (Join (err st)
                  (Some (errorString ("interface not supported:(" ++ name ++ ")"))))
               (modifiedFields st))
    | _ =>
        (* look up value of "fieldName" in map *)
        mapVal <- lookupName in_ name ;;
        match mapVal with
        | None => Ret st                         (* value not in map, ignore it *)
        | Some value =>
            fieldType <- TypeOfValue val ;;
            let elem := NewElem fieldType in
            '(x, e) <- fromValue value elem fieldType ;;
            match e with
            | Some e =>
                Ret (mkState (target st)
                       (Join (err st) (Some (Errorf_ctx e name)))
                       (modifiedFields st))
            | None =>
                Ret (mkState (target st) (err st)
                       ((i, x, fieldType) :: modifiedFields st))
            end
        end
    end.

(** The body of the second loop: [s.Field(index).Set(value)]. *)
Definition toStruct_apply (s : Value) (x : any) (m : nat * any * type)
  : outcome any :=
  let '(index, value, vt) := m in
  match Value_Field (withData s x) index with
  | Some slot =>
      y <- Set_ slot value vt ;;
      Ret (setField x index y)
  | None => Panic "reflect: Field index out of range"
  end.

(** The bodies of the six functions, which call each other; the functions
    they call are parameters, and the recursion is closed below. *)
Definition fromPtr_body
  (fromValue : any -> Value -> type -> outcome (any * option error))
  (in_ : any) (t : type) (out : Value)
  : outcome (any * option error) :=
  e <- TypeElem t ;;
  let child := NewElem e in
  '(x, er) <- fromValue in_ child (Type_ child) ;;
  match er with
  | Some er => Ret (data out, Some er)
  | None =>
      y <- Set_ out (VPtr (TPtr e) (Some x)) (TPtr e) ;;
      Ret (y, None)
  end.

Definition fromSlice_body
  (fromValue : any -> Value -> type -> outcome (any * option error))
  (in_ : any) (out : Value) (t : type)
  : outcome (any * option error) :=
  match ValueOf in_, KindOf (ValueOf in_) with
  | Some input, Kind.Slice =>
      e <- match Underlying t with
           | TSlice e => Ret e
           | _ => Panic "reflect.MakeSlice of non-slice type"
           end ;;
      '(output, er) <-
        foldM
          (fun (acc : list any * option error) (i : nat) =>
             let '(output, er) := acc in
             x <- InterfaceOf (Index input i) ;;
             x <- InterfaceOf (ValueOf x) ;;
             let elem := NewElem e in
             '(y, e') <- fromValue x elem (Type_ elem) ;;
             match e' with
             | Some _ => Ret (output, Join er e')
             | None => Ret (replaceNth output i y, er)
             end)
          (seq 0 (Len input))
          (repeat (Zero e) (Len input), None) ;;
      match er with
      | None =>
          y <- Set_ out (VSlice t (Some output)) t ;; Ret (y, None)
      | Some _ => Ret (data out, er)
      end
  | _, _ => Ret (data out, Some errNotSlice)
  end.

Definition fromMap_body
  (fromValue : any -> Value -> type -> outcome (any * option error))
  (in_ : any) (out : Value) (t : type)
  : outcome (any * option error) :=
  match ValueOf in_, KindOf (ValueOf in_) with
  | Some input, Kind.Map =>
      match Underlying t with
      | TMap okt oet =>
          '(output, er) <-
            foldM
              (fun (acc : mapdata * option error) (kv : Value * Value) =>
                 let '(output, er) := acc in
                 k <- Interface (fst kv) ;;
                 iface <- InterfaceOf (ValueOf k) ;;
                 kt <- TypeOfValue (ValueOf k) ;;
                 let outKey := NewElem kt in
                 '(k', e') <- fromValue iface outKey (Type_ outKey) ;;
                 match e' with
                 | Some _ => Ret (output, Join er e')
                 | None =>
                     x <- Interface (snd kv) ;;
                     inputValue <- InterfaceOf (ValueOf x) ;;
                     let outputValue := NewElem oet in
                     '(y, e') <- fromValue inputValue outputValue
                                   (Type_ outputValue) ;;
                     match e' with
                     | Some _ => Ret (output, Join er e')
                     | None =>
                         k'' <- assignTo k' kt okt ;;
                         Ret (SetMapIndex output k'' y, er)
                     end
                 end)
              (MapEntries input) ([], None) ;;
          match er with
          | None =>
              y <- Set_ out (VMap t (Some output)) t ;; Ret (y, None)
          | Some _ => Ret (data out, er)
          end
      | _ => Panic "reflect.MakeMap of non-map type"
      end
  | _, _ => Ret (data out, Some errNotMap)
  end.

Definition fromArray_body
  (fromValue : any -> Value -> type -> outcome (any * option error))
  (in_ : any) (out : Value) (t : type)
  : outcome (any * option error) :=
  match ValueOf in_, KindOf (ValueOf in_) with
  | Some input, (Kind.Array | Kind.Slice) =>
      let output := NewElem t in
      '(xs, er) <-
        foldM
          (fun (acc : any * option error) (i : nat) =>
             let '(xs, er) := acc in
             match Index (withData output xs) i with
             | Some outputValue =>
                 x <- InterfaceOf (Index input i) ;;
                 '(y, e') <- fromValue x outputValue (Type_ outputValue) ;;
                 let xs' :=
                   match xs with
                   | VArray at_ l => VArray at_ (replaceNth l i y)
                   | _ => xs
                   end in
                 match e' with
                 | Some e' =>
                     Ret (xs', Join er (Some (Errorf_ctx e' ("@" ++ itoa i))))
                 | None => Ret (xs', er)
                 end
             | None => Panic "reflect: array index out of range"
             end)
          (seq 0 (Len input)) (data output, None) ;;
      match er with
      | None => y <- Set_ out xs t ;; Ret (y, None)
      | Some _ => Ret (data out, er)
      end
  | _, _ => Ret (data out, Some errNotArrayOrSlice)
  end.

Definition fromValue_body
  (fromPtr : any -> type -> Value -> outcome (any * option error))
  (toStruct : any -> Value -> outcome (any * option error))
  (fromSlice : any -> Value -> type -> outcome (any * option error))
  (fromMap : any -> Value -> type -> outcome (any * option error))
  (fromArray : any -> Value -> type -> outcome (any * option error))
  (in_ : any) (out : Value) (t : type)
  : outcome (any * option error) :=
  match ValueKind out with
  | Kind.Ptr => fromPtr in_ t out
  | Kind.Struct => toStruct in_ out
  | Kind.Slice => fromSlice in_ out t
  | Kind.Map => fromMap in_ out t
  | Kind.Array => fromArray in_ out t
  | _ =>
      inputType <- TypeOfValue (ValueOf in_) ;;
      o <- Interface out ;;
      outputType <- TypeOfValue (ValueOf o) ;;
      if type_eqb inputType outputType then
        (* default case: copy the value over *)
        x <- Set_ out in_ inputType ;; Ret (x, None)
      else if AssignableTo inputType outputType then
        (* types are assignable *)
        x <- Set_ out in_ inputType ;; Ret (x, None)
      else if ConvertibleTo inputType outputType then
        (* types are convertible *)
        x <- Set_ out (Convert in_ outputType) outputType ;; Ret (x, None)
      else
        Ret (data out,
             Some (errorString
                     ("type mismatch: " ++ TypeString outputType ++ " and "
                      ++ TypeString inputType ++ " are incompatible")))
  end.

Definition toStruct_body
  (toStruct : any -> Value -> outcome (any * option error))
  (fromValue : any -> Value -> type -> outcome (any * option error))
  (in_ : any) (s : Value)
  : outcome (any * option error) :=
  match in_ with
  | VNil => Ret (data s, Some (errorString "input data is nil"))
  | _ =>
    (* make sure input is a map *)
    match KindOf (ValueOf in_) with
    | Kind.Map =>
        (* if target is a pointer to a struct: create a new instance *)
        '(s, wrap) <-
           match ValueKind s with
           | Kind.Ptr =>
               e <- TypeElem (Type_ s) ;;
               p <- Set_ s (VPtr (TPtr e) (Some (Zero e))) (TPtr e) ;;
               Ret (MkValue e (flagRO s) true (Zero e) (flagStickyRO s),
                    fun x : any =>
                      match p with
                      | VPtr pt _ => VPtr pt (Some x)
                      | _ => p
                      end)
           | _ => Ret (s, fun x : any => x)
           end ;;
        match ValueKind s with
        | Kind.Struct =>
            fields <- getFields s DefaultTagName ;;
            st <- foldM (toStruct_field toStruct fromValue in_ s)
                    (combine (seq 0 (List.length fields)) fields)
                    (mkState (data s) None []) ;;
            (* Apply changes to all modified fields in case no error
               happened during processing. *)
            match err st with
            | None =>
                x <- foldM (toStruct_apply s) (rev (modifiedFields st))
                       (target st) ;;
                Ret (wrap x, None)
            | Some e => Ret (wrap (target st), Some e)
            end
        | _ => Ret (wrap (data s), Some errNotStruct)
        end
    | _ => Ret (data s, Some errNotMap)
    end
  end.

Fixpoint toStruct (fuel : nat) (in_ : any) (s : Value) {struct fuel}
  : outcome (any * option error) :=
  match fuel with
  | 0 => Timeout
  | S fuel => toStruct_body (toStruct fuel) (fromValue fuel) in_ s
  end

with fromValue (fuel : nat) (in_ : any) (out : Value) (t : type) {struct fuel}
  : outcome (any * option error) :=
  match fuel with
  | 0 => Timeout
  | S fuel => fromValue_body (fromPtr fuel) (toStruct fuel) (fromSlice fuel) (fromMap fuel) (fromArray fuel) in_ out t
  end

with fromPtr (fuel : nat) (in_ : any) (t : type) (out : Value) {struct fuel}
  : outcome (any * option error) :=
  match fuel with
  | 0 => Timeout
  | S fuel => fromPtr_body (fromValue fuel) in_ t out
  end

with fromSlice (fuel : nat) (in_ : any) (out : Value) (t : type) {struct fuel}
  : outcome (any * option error) :=
  match fuel with
  | 0 => Timeout
  | S fuel => fromSlice_body (fromValue fuel) in_ out t
  end

with fromMap (fuel : nat) (in_ : any) (out : Value) (t : type) {struct fuel}
  : outcome (any * option error) :=
  match fuel with
  | 0 => Timeout
  | S fuel => fromMap_body (fromValue fuel) in_ out t
  end

with fromArray (fuel : nat) (in_ : any) (out : Value) (t : type) {struct fuel}
  : outcome (any * option error) :=
  match fuel with
  | 0 => Timeout
  | S fuel => fromArray_body (fromValue fuel) in_ out t
  end.

(** [FillStruct]: panics in case of error. *)
Definition FillStruct (fuel : nat) (m : any) (s : any) : outcome any :=
  v <- structVal s ;;
  '(x, e) <- toStruct fuel m v ;;
  match e with
  | Some e => Panic (Error e)
  | None => Ret x
  end.

End Converters.

(** ** Records used as examples

    [exportedField] is a named, exported field with the given value of the
    [structs] tag (none when empty); [embeddedField] an embedded one. *)

Definition exportedField (name tag : string) (t : type) : StructField :=
  (mkHead name "" (if String.eqb tag "" then [] else [(DefaultTagName, tag)])
          false, t).

Definition embeddedField (name : string) (t : type) : StructField :=
  (mkHead name "" [] true, t).

Definition tInt : type := TInt I.
Definition int (z : Z) : any := VInt tInt z.
Definition str (s : string) : any := VString TString s.

(** [map[string]any{...}] *)
Definition mapStringAny (m : list (string * any)) : any :=
  VMap tMapStringAny (Some (map (fun kv => (key (fst kv), snd kv)) m)).

(** The target of [FillStruct(m, &x)]: addressable, not read-only. *)
Definition addressable (t : type) (x : any) : Value := mkValue t false true x.

Definition go_toStruct :=
  toStruct go_TypeString go_AssignableTo go_ConvertibleTo go_Convert.

Definition go_Map := pkg_Map go_TypeString go_Stringer.

(** [type Inner struct { N int }; type Outer struct { Sub Inner; B int }] *)
Definition tInner : type :=
  TNamed "main.Inner" (TStruct [exportedField "N" "" tInt]).
Definition tOuter : type :=
  TNamed "main.Outer"
    (TStruct [exportedField "Sub" "" tInner; exportedField "B" "" tInt]).

(** [type MyInt int; type Holder struct { *MyInt }] *)
Definition tMyInt : type := TNamed "main.MyInt" (TInt I).
Definition tHolder : type :=
  TNamed "main.Holder" (TStruct [embeddedField "MyInt" (TPtr tMyInt)]).

(** [type Shifted struct { A int `structs:"-"`; B int; C int }] *)
Definition tShifted : type :=
  TNamed "main.Shifted"
    (TStruct [exportedField "A" "-" tInt; exportedField "B" "" tInt;
              exportedField "C" "" tInt]).




(** [type Renamed struct { Name string `structs:"name"` }] *)
Definition tRenamed : type :=
  TNamed "main.Renamed" (TStruct [exportedField "Name" "name" TString]).


(** The kinds [fromValue] treats in its default branch, the interface kind
    apart. *)
Definition isLeafKind (k : Kind.t) : bool :=
  match k with
  | Kind.Bool | Kind.Int _ | Kind.String => true
  | _ => false
  end.

(** ** Vocabulary of the statements *)

(** The value of the tag of [field] under the tag name of the handle [s]. *)
Definition tagOf (s : Struct) (field : StructField) : string :=
  Get (Tag (fst field)) (TagName s).

Definition hasOption (s : Struct) (field : StructField) (opt : string) : bool :=
  Has (snd (parseTag (tagOf s field))) opt.

(** The key under which [FillMap] stores [field]: the name of the tag when
    it is not empty, else the name of the field. *)
Definition outputName (s : Struct) (field : StructField) : string :=
  let tagName := fst (parseTag (tagOf s field)) in
  if String.eqb tagName "" then Name (fst field) else tagName.

(** [k] is a key of [m]. *)
Definition hasKey (m : mapdata) (k : any) : Prop := MapIndex m k <> None.

(** [type Server struct { Name string `structs:"name,omitempty"`; ID int;
    Enabled bool }], and the handle [New(Server{})]. *)
Definition fName : StructField := exportedField "Name" "name,omitempty" TString.
Definition fID : StructField := exportedField "ID" "" tInt.
Definition fEnabled : StructField := exportedField "Enabled" "" TBool.
Definition tServer : type := TNamed "main.Server" (TStruct [fName; fID; fEnabled]).

(** [type Hidden struct { a int; B int `structs:"-"` }], declared in package
    [main]. *)
Definition tHidden : type :=
  TNamed "main.Hidden"
    (TStruct [(mkHead "a" "main" [] false, tInt); exportedField "B" "-" tInt]).

(** ** Plain records

    A field is plain when it is exported, not embedded, of a scalar kind,
    and its tag under [DefaultTagName] has an empty name and neither the
    [string] nor the [flatten] option. *)

Definition names (fs : list StructField) : list string :=
  map (fun f => Name (fst f)) fs.

Definition plainField (f : StructField) : bool :=
  String.eqb (PkgPath (fst f)) ""
  && negb (Anonymous (fst f))
  && isLeafKind (TypeKind (FieldType f))
  && String.eqb (fst (parseTag (Get (Tag (fst f)) DefaultTagName))) ""
  && negb (Has (snd (parseTag (Get (Tag (fst f)) DefaultTagName))) "string")
  && negb (Has (snd (parseTag (Get (Tag (fst f)) DefaultTagName))) "flatten").

(** [x] is a record of type [t] whose fields are plain, each holding a
    value of the type of the field. *)
Definition plainRecord (t : type) (x : any) : Prop :=
  exists fs vals,
    Underlying t = TStruct fs /\ x = VStruct t vals
    /\ forallb plainField fs = true
    /\ NoDup (names fs)
    /\ Forall2 (fun f v => typeOf v = Some (FieldType f)) fs vals.

(** Whether [FillMap] gives a key to the plain field [f] holding [v]. *)
Definition kept (f : StructField) (v : any) : bool :=
  negb (Has (snd (parseTag (Get (Tag (fst f)) DefaultTagName))) "omitempty"
        && DeepEqual v (Zero (FieldType f))).

(** What [FillMap] adds to [out] for plain fields holding the given values. *)
Definition project (l : list (StructField * any)) (out : mapdata) : mapdata :=
  fold_left
    (fun out fv =>
       if kept (fst fv) (snd fv)
       then SetMapIndex out (key (Name (fst (fst fv)))) (snd fv)
       else out)
    l out.

(** What [toStruct] stages for them, from position [k] on. *)
Fixpoint staged (k : nat) (l : list (StructField * any))
  : list (nat * any * type) :=
  match l with
  | [] => []
  | (f, v) :: l' =>
      if kept f v then (k, v, FieldType f) :: staged (S k) l'
      else staged (S k) l'
  end.

(** The zero values of the fields [fs], and the list of fields [getFields]
    makes of them for the struct [s]. *)
Definition zeros (fs : list StructField) : list any :=
  map (fun f => Zero (FieldType f)) fs.

Definition fieldsOf (s : Value) (fs : list StructField) : list Field :=
  map (fun f => mkField (FieldByName s (Name (fst f))) f) fs.

(** [type Renamed struct { Name string `structs:"name"` }] holding "gopher",
    and the plain record [Server{Name: "", ID: 7, Enabled: true}]. *)
Definition gopher : any := VStruct tRenamed [str "gopher"].
Definition server7 : any :=
  VStruct tServer [str ""; int 7; VBool TBool true].

(** [type Plain struct { Name string `structs:",omitempty"`; ID int;
    Enabled bool `structs:",omitnested"` }] *)
Definition tPlain : type :=
  TNamed "main.Plain"
    (TStruct [exportedField "Name" ",omitempty" TString;
              exportedField "ID" "" tInt;
              exportedField "Enabled" ",omitnested" TBool]).
Definition plain7 : any := VStruct tPlain [str ""; int 7; VBool TBool true].

Definition go_FillStruct :=
  FillStruct go_TypeString go_AssignableTo go_ConvertibleTo go_Convert.

(** ** The forward converter over a store

    To state what the forward converter writes, the same functions once
    more, over values in which a pointer, a slice and a map are references
    into a store, as in Go: two values may share a map, and an assignment
    [m[k] = v] is seen through every reference to [m].  A [reflect.Value]
    still carries the content it views; the functions below never assign to
    a variable, only to entries of maps and elements of slices. *)

Module Store.

Definition loc := nat.

Inductive any :=
| VNil
| VBool (t : type) (b : bool)
| VInt (t : type) (z : Z)
| VString (t : type) (s : string)
| VPtr (t : type) (p : option loc)
| VSlice (t : type) (p : option loc)
| VArray (t : type) (els : list any)
| VMap (t : type) (p : option loc)
| VStruct (t : type) (fs : list any).

(** What a location holds: the variable a pointer points to, the elements
    of a slice, or the bindings of a map. *)
Inductive object :=
| Var (x : any)
| Elems (xs : list any)
| Bindings (m : list (any * any)).

Definition store := list object.

Definition mapdata := list (any * any).

Definition typeOf (x : any) : option type :=
  match x with
  | VNil => None
  | VBool t _ | VInt t _ | VString t _ | VPtr t _ | VSlice t _
  | VArray t _ | VMap t _ | VStruct t _ => Some t
  end.

Definition loc_eqb (p q : option loc) : bool :=
  match p, q with
  | None, None => true
  | Some l, Some l' => Nat.eqb l l'
  | _, _ => false
  end.

(** [==] on comparable values; two pointers are equal when they point to
    the same variable. *)
Fixpoint value_eqb (x y : any) {struct x} : bool :=
  let list_eqb :=
    fix list_eqb (l l' : list any) : bool :=
      match l, l' with
      | [], [] => true
      | a :: l, b :: l' => value_eqb a b && list_eqb l l'
      | _, _ => false
      end in
  match x, y with
  | VNil, VNil => true
  | VBool t b, VBool t' b' => type_eqb t t' && Bool.eqb b b'
  | VInt t z, VInt t' z' => type_eqb t t' && Z.eqb z z'
  | VString t s, VString t' s' => type_eqb t t' && String.eqb s s'
  | VPtr t p, VPtr t' p' => type_eqb t t' && loc_eqb p p'
  | VSlice t p, VSlice t' p' => type_eqb t t' && loc_eqb p p'
  | VMap t p, VMap t' p' => type_eqb t t' && loc_eqb p p'
  | VArray t l, VArray t' l' => type_eqb t t' && list_eqb l l'
  | VStruct t l, VStruct t' l' => type_eqb t t' && list_eqb l l'
  | _, _ => false
  end.

(** [reflect.DeepEqual(x, z)] for [z] a zero value: every pointer, slice
    and map of [z] is nil, so that no reference is followed. *)
Definition DeepEqual (x z : any) : bool := value_eqb x z.

Fixpoint MapIndex (m : mapdata) (k : any) : option any :=
  match m with
  | [] => None
  | (k', v) :: m' => if value_eqb k' k then Some v else MapIndex m' k
  end.

Fixpoint SetMapIndex (m : mapdata) (k v : any) : mapdata :=
  match m with
  | [] => [(k, v)]
  | (k', v') :: m' =>
      if value_eqb k' k then (k', v) :: m' else (k', v') :: SetMapIndex m' k v
  end.

Fixpoint Zero_at (full t : type) {struct t} : any :=
  match t with
  | TBool => VBool full false
  | TInt _ => VInt full 0
  | TString => VString full ""
  | TInterface => VNil
  | TPtr _ => VPtr full None
  | TSlice _ => VSlice full None
  | TArray n e => VArray full (repeat (Zero_at e e) n)
  | TMap _ _ => VMap full None
  | TStruct fs =>
      VStruct full
        ((fix zeros (fs : list (FieldHead * type)) : list any :=
            match fs with
            | [] => []
            | (_, ft) :: fs' => Zero_at ft ft :: zeros fs'
            end) fs)
  | TNamed _ u => Zero_at full u
  end.

Definition Zero (t : type) : any := Zero_at t t.

(** A [reflect.Value], with the read-only bits as above: whether a bit of
    [flagRO] is set, and whether [flagStickyRO] is. *)
Record Value := MkValue {
  Type_ : type;
  flagRO : bool;
  flagAddr : bool;
  data : any;
  flagStickyRO : bool
}.

Abbreviation mkValue t ro addr x := (MkValue t ro addr x ro).

Definition ValueKind (v : Value) : Kind.t := TypeKind (Type_ v).

Definition KindOf (v : option Value) : Kind.t :=
  match v with
  | Some v => ValueKind v
  | None => Kind.Invalid
  end.

Definition ValueOf (x : any) : option Value :=
  match typeOf x with
  | Some t => Some (mkValue t false false x)
  | None => None
  end.

Definition Interface (v : Value) : outcome any :=
  if flagRO v
  then Panic "reflect.Value.Interface: cannot return value obtained from unexported field or method"
  else Ret (data v).

Definition InterfaceOf (v : option Value) : outcome any :=
  match v with
  | Some v => Interface v
  | None => Panic "reflect: call of reflect.Value.Interface on zero Value"
  end.

Definition TypeOfValue (v : option Value) : outcome type :=
  match v with
  | Some v => Ret (Type_ v)
  | None => Panic "reflect: call of reflect.Value.Type on zero Value"
  end.

(** [v.Elem()] for a pointer: the variable it points to, read in the store. *)
Definition Elem (h : store) (v : Value) : option Value :=
  match Underlying (Type_ v), data v with
  | TPtr e, VPtr _ (Some l) =>
      match nth_error h l with
      | Some (Var y) => Some (MkValue e (flagRO v) true y (flagStickyRO v))
      | _ => None
      end
  | _, _ => None
  end.

Definition derefOnce (h : store) (v : option Value) : option Value :=
  match v with
  | Some v' =>
      match ValueKind v' with
      | Kind.Ptr => Elem h v'
      | _ => v
      end
  | None => None
  end.

Definition Value_Field (v : Value) (i : nat) : option Value :=
  match data v with
  | VStruct _ xs =>
      match nth_error (TypeFields (Type_ v)) i, nth_error xs i with
      | Some f, Some x =>
          Some (MkValue (FieldType f)
                        (flagStickyRO v
                         || negb (String.eqb (PkgPath (fst f)) ""))
                        (flagAddr v) x
                        (flagStickyRO v
                         || (negb (String.eqb (PkgPath (fst f)) "")
                             && negb (Anonymous (fst f)))))
      | _, _ => None
      end
  | _ => None
  end.

Definition FieldByName (v : Value) (name : string) : option Value :=
  match fieldIndex (TypeFields (Type_ v)) name with
  | Some i => Value_Field v i
  | None => None
  end.

(** [v.Index(i)] and [v.Len()] for a slice (read in the store) or an
    array. *)
Definition Index (h : store) (v : Value) (i : nat) : option Value :=
  match Underlying (Type_ v), data v with
  | TSlice e, VSlice _ (Some l) =>
      match nth_error h l with
      | Some (Elems xs) =>
          option_map (fun x => mkValue e (flagRO v) true x) (nth_error xs i)
      | _ => None
      end
  | TArray _ e, VArray _ xs =>
      option_map (fun x => mkValue e (flagRO v) (flagAddr v) x)
                 (nth_error xs i)
  | _, _ => None
  end.

Definition Len (h : store) (v : Value) : nat :=
  match data v with
  | VSlice _ (Some l) =>
      match nth_error h l with
      | Some (Elems xs) => List.length xs
      | _ => 0
      end
  | VArray _ xs => List.length xs
  | VMap _ (Some l) =>
      match nth_error h l with
      | Some (Bindings m) => List.length m
      | _ => 0
      end
  | _ => 0
  end.

(** [v.MapKeys()] and [v.MapIndex(k)] for a map, read in the store. *)
Definition MapKeys (h : store) (v : Value) : list Value :=
  match Underlying (Type_ v), data v with
  | TMap kt _, VMap _ (Some l) =>
      match nth_error h l with
      | Some (Bindings m) =>
          map (fun kv => mkValue kt (flagRO v) false (fst kv)) m
      | _ => []
      end
  | _, _ => []
  end.

Definition MapIndexValue (h : store) (v k : Value) : option Value :=
  match Underlying (Type_ v), data v with
  | TMap _ et, VMap _ (Some l) =>
      match nth_error h l with
      | Some (Bindings m) =>
          option_map (fun x => mkValue et (flagRO v) false x)
                     (MapIndex m (data k))
      | _ => None
      end
  | _, _ => None
  end.

Definition key (name : string) : any := VString TString name.

(** *** Computations that read and write the store *)

(** A computation answers an outcome and the store it leaves, also when it
    panics. *)
Definition M (A : Type) : Type := store -> outcome A * store.

Definition ret {A} (a : A) : M A := fun h => (Ret a, h).

Definition bindM {A B} (c : M A) (k : A -> M B) : M B :=
  fun h =>
    match c h with
    | (Ret a, h') => k a h'
    | (Panic msg, h') => (Panic msg, h')
    | (Timeout, h') => (Timeout, h')
    end.

Definition lift {A} (c : outcome A) : M A := fun h => (c, h).

(** Reading the store. *)
Definition read {A} (f : store -> A) : M A := fun h => (Ret (f h), h).

(** [make(...)]: a new location, past every location in use. *)
Definition make (o : object) : M loc :=
  fun h => (Ret (List.length h), (h ++ [o])%list).

(** [m[k] = v] for the map at [l]. *)
Definition assignEntry (l : loc) (k v : any) : M unit :=
  fun h =>
    match nth_error h l with
    | Some (Bindings m) =>
        (Ret tt, replaceNth h l (Bindings (SetMapIndex m k v)))
    | _ => (Panic "assignment to entry in nil map", h)
    end.

(** [s[i] = v] for the slice at [l]. *)
Definition assignElem (l : loc) (i : nat) (v : any) : M unit :=
  fun h =>
    match nth_error h l with
    | Some (Elems xs) =>
        if Nat.ltb i (List.length xs)
        then (Ret tt, replaceNth h l (Elems (replaceNth xs i v)))
        else (Panic "index out of range", h)
    | _ => (Panic "index out of range", h)
    end.

Declare Scope store_scope.
Delimit Scope store_scope with store.
Notation "x <- c ;; k" := (bindM c (fun x => k))
  (at level 61, c at next level, right associativity) : store_scope.
Notation "' pat <- c ;; k" := (bindM c (fun x => match x with pat => k end))
  (at level 61, pat pattern, c at next level, right associativity) : store_scope.
Local Open Scope store_scope.

(** [for _, x := range l { body }] *)
Fixpoint forEach {A} (body : A -> M unit) (l : list A) : M unit :=
  match l with
  | [] => ret tt
  | x :: l' => _ <- body x ;; forEach body l'
  end.

Section Converters.

Variable TypeString : type -> string.
(** The [String] method of a value, when its type has one; it reads the
    store and does not write it. *)
Variable Stringer : store -> any -> option string.

Definition ValueString (k : Value) : string :=
  match ValueKind k, data k with
  | Kind.String, VString _ str => str
  | _, _ => "<" ++ TypeString (Type_ k) ++ " Value>"
  end.

Record Struct := mkStruct {
  raw : any;
  value : Value;
  TagName : string
}.

(** [for v.Kind() == reflect.Ptr { v = v.Elem() }], then the kind check; a
    chain of pointers may be endless. *)
Fixpoint structVal_loop (fuel : nat) (h : store) (v : option Value)
  : outcome Value :=
  match fuel with
  | 0 => Timeout
  | S fuel =>
      match v with
      | Some v' =>
          match ValueKind v' with
          | Kind.Ptr => structVal_loop fuel h (Elem h v')
          | Kind.Struct => Ret v'
          | _ => Panic "not struct"
          end
      | None => Panic "not struct"
      end
  end.

Definition structVal (fuel : nat) (s : any) : M Value :=
  fun h => (structVal_loop fuel h (ValueOf s), h).

Definition New (fuel : nat) (s : any) : M Struct :=
  v <- structVal fuel s ;;
  ret (mkStruct s v DefaultTagName).

Definition withTagName (n : Struct) (name : string) : Struct :=
  mkStruct (raw n) (value n) name.

Definition structFields (s : Struct) : list StructField :=
  filter (fun field =>
            String.eqb (PkgPath (fst field)) ""
            && negb (String.eqb (Get (Tag (fst field)) (TagName s)) "-"))
         (TypeFields (Type_ (value s))).

Definition tMapStringAny : type := TMap TString TInterface.
Definition tSliceAny : type := TSlice TInterface.

(** [finalVal.(map[string]any)], and the bindings to range over. *)
Definition assertMapStringAny (x : any) : M mapdata :=
  match x with
  | VMap t p =>
      if type_eqb t tMapStringAny
      then match p with
           | Some l =>
               read (fun h => match nth_error h l with
                              | Some (Bindings m) => m
                              | _ => []
                              end)
           | None => ret []
           end
      else lift (Panic "interface conversion: interface {} is not map[string]interface {}")
  | _ => lift (Panic "interface conversion: interface {} is not map[string]interface {}")
  end.

(** The body of the loop of [FillMap] for one field; [out] is the location
    of the output mapping. *)
Definition fillField (nested : option Value -> M any) (s : Struct)
  (out : loc) (field : StructField) : M unit :=
  let name := Name (fst field) in
  let val := FieldByName (value s) name in
  let '(tagName, tagOpts) := parseTag (Get (Tag (fst field)) (TagName s)) in
  let name := if String.eqb tagName "" then name else tagName in
  skip <- (if Has tagOpts "omitempty"
           then vt <- lift (TypeOfValue val) ;;
                current <- lift (InterfaceOf val) ;;
                ret (DeepEqual current (Zero vt))
           else ret false) ;;
  if (skip : bool) then ret tt else
  '(finalVal, isSubStruct) <-
     (if negb (Has tagOpts "omitnested")
      then finalVal <- nested val ;;
           x <- lift (InterfaceOf val) ;;
           k <- read (fun h => KindOf (derefOnce h (ValueOf x))) ;;
           ret (finalVal,
                match k with
                | Kind.Map | Kind.Struct => true
                | _ => false
                end)
      else x <- lift (InterfaceOf val) ;; ret (x, false)) ;;
  if Has tagOpts "string" then
    x <- lift (InterfaceOf val) ;;
    str <- read (fun h => Stringer h x) ;;
    match str with
    | Some str => assignEntry out (key name) (VString TString str)
    | None => ret tt
    end
  else if isSubStruct && Has tagOpts "flatten" then
    m <- assertMapStringAny finalVal ;;
    forEach (fun kv => assignEntry out (fst kv) (snd kv)) m
  else assignEntry out (key name) finalVal.

Definition FillMap_body
  (nested : Struct -> option Value -> M any)
  (s : Struct) (out : option loc) : M unit :=
  match out with
  | None => ret tt
  | Some out => forEach (fillField (nested s) s out) (structFields s)
  end.

Definition nested_body
  (structVal_fuel : nat)
  (FillMap : Struct -> option loc -> M unit)
  (nested : Struct -> option Value -> M any)
  (s : Struct) (val : option Value) : M any :=
  x <- lift (InterfaceOf val) ;;
  k <- read (fun h => KindOf (derefOnce h (ValueOf x))) ;;
  match k with
  | Kind.Struct =>
      n <- New structVal_fuel x ;;
      let n := withTagName n (TagName s) in
      (* m := n.Map() *)
      m <- make (Bindings []) ;;
      _ <- FillMap n (Some m) ;;
      len <- read (fun h => match nth_error h m with
                            | Some (Bindings b) => List.length b
                            | _ => 0
                            end) ;;
      match len with
      | 0 => ret x
      | _ => ret (VMap tMapStringAny (Some m))
      end
  | Kind.Map =>
      vt <- lift (TypeOfValue val) ;;
      mapElem <-
        lift (match TypeKind vt with
              | Kind.Ptr | Kind.Array | Kind.Map | Kind.Slice =>
                  bind (TypeElem vt) (fun e =>
                  match TypeKind e with
                  | Kind.Ptr => TypeElem e
                  | _ => Ret e
                  end)
              | _ => Ret vt
              end) ;;
      iterate <-
        lift (match TypeKind mapElem with
              | Kind.Struct => Ret true
              | Kind.Slice =>
                  bind (TypeElem mapElem) (fun e =>
                  Ret (Kind_eqb (TypeKind e) Kind.Struct))
              | _ => Ret false
              end) ;;
      if (iterate : bool) then
        keys <- read (fun h => match val with
                               | Some v => MapKeys h v
                               | None => []
                               end) ;;
        m <- make (Bindings []) ;;
        _ <- forEach (fun k : Value =>
                        e <- read (fun h => match val with
                                            | Some v => MapIndexValue h v k
                                            | None => None
                                            end) ;;
                        x <- nested s e ;;
                        assignEntry m (key (ValueString k)) x)
                     keys ;;
        ret (VMap tMapStringAny (Some m))
      else ret x
  | Kind.Slice | Kind.Array =>
      vt <- lift (TypeOfValue val) ;;
      match TypeKind vt with
      | Kind.Interface => ret x
      | _ =>
          e <- lift (TypeElem vt) ;;
          ofStructs <-
            lift (match TypeKind e with
                  | Kind.Struct => Ret true
                  | Kind.Ptr =>
                      bind (TypeElem e) (fun e' =>
                      Ret (Kind_eqb (TypeKind e') Kind.Struct))
                  | _ => Ret false
                  end) ;;
          if (ofStructs : bool) then
            len <- read (fun h => match val with
                                  | Some v => Len h v
                                  | None => 0
                                  end) ;;
            slices <- make (Elems (repeat VNil len)) ;;
            _ <- forEach (fun i : nat =>
                            e <- read (fun h => match val with
                                                | Some v => Index h v i
                                                | None => None
                                                end) ;;
                            x <- nested s e ;;
                            assignElem slices i x)
                         (seq 0 len) ;;
            ret (VSlice tSliceAny (Some slices))
          else ret x
      end
  | _ => ret x
  end.

Fixpoint FillMap (fuel : nat) (s : Struct) (out : option loc) {struct fuel}
  : M unit :=
  match fuel with
  | 0 => lift Timeout
  | S fuel => FillMap_body (nested fuel) s out
  end

with nested (fuel : nat) (s : Struct) (val : option Value) {struct fuel}
  : M any :=
  match fuel with
  | 0 => lift Timeout
  | S fuel => nested_body fuel (FillMap fuel) (nested fuel) s val
  end.

(** [s.Map()]: the location of the new mapping. *)
Definition Map (fuel : nat) (s : Struct) : M loc :=
  out <- make (Bindings []) ;;
  _ <- FillMap fuel s (Some out) ;;
  ret out.

End Converters.

End Store.

(** ** What a computation over the store leaves in place

    [keeps n o h h']: from [h] to [h'] the store only grew, and every
    location below [n] holds what it held, except that the map at the
    location [o] may have other bindings. *)
Definition keeps (n : nat) (o : option Store.loc) (h h' : Store.store) : Prop :=
  List.length h <= List.length h'
  /\ forall l, l < n ->
       nth_error h' l = nth_error h l
       \/ (o = Some l /\ exists m m',
             nth_error h l = Some (Store.Bindings m)
             /\ nth_error h' l = Some (Store.Bindings m')).

(** The computation [c] keeps the locations below [n], whatever it answers. *)
Definition safe {A} (n : nat) (o : option Store.loc) (c : Store.M A) : Prop :=
  forall h, n <= List.length h -> keeps n o h (snd (c h)).

(** A store for [d := &Deep{Sub: &Inner{N: 3}, Tags: map[string]int{"a": 1},
    List: []Inner{{3}, {3}}, ByName: map[string]Inner{"k": {3}}}] and an
    empty [out := map[string]any{}], at location 5. *)
Definition tDeep : type :=
  TNamed "main.Deep"
    (TStruct [exportedField "Sub" "" (TPtr tInner);
              exportedField "Tags" "" (TMap TString tInt);
              exportedField "List" "" (TSlice tInner);
              exportedField "ByName" "" (TMap TString tInner)]).

Definition inner3 : Store.any := Store.VStruct tInner [Store.VInt tInt 3].

Definition deep : Store.any :=
  Store.VStruct tDeep
    [Store.VPtr (TPtr tInner) (Some 0);
     Store.VMap (TMap TString tInt) (Some 1);
     Store.VSlice (TSlice tInner) (Some 2);
     Store.VMap (TMap TString tInner) (Some 3)].

Definition deepStore : Store.store :=
  [Store.Var inner3;
   Store.Bindings [(Store.key "a", Store.VInt tInt 1)];
   Store.Elems [inner3; inner3];
   Store.Bindings [(Store.key "k", inner3)];
   Store.Var deep;
   Store.Bindings []].

Definition deepHandle : Store.Struct :=
  Store.mkStruct (Store.VPtr (TPtr tDeep) (Some 4))
    (Store.mkValue tDeep false true deep) DefaultTagName.

(** The value a value over the store stands for, every reference replaced
    by what it refers to; [None] when a reference dangles or [fuel] runs
    out. *)
Fixpoint traverse {A B} (f : A -> option B) (l : list A) : option (list B) :=
  match l with
  | [] => Some []
  | a :: l' =>
      match f a, traverse f l' with
      | Some b, Some bs => Some (b :: bs)
      | _, _ => None
      end
  end.

Fixpoint reify (fuel : nat) (h : Store.store) (x : Store.any) : option any :=
  match fuel with
  | 0 => None
  | S fuel =>
      match x with
      | Store.VNil => Some VNil
      | Store.VBool t b => Some (VBool t b)
      | Store.VInt t z => Some (VInt t z)
      | Store.VString t s => Some (VString t s)
      | Store.VPtr t None => Some (VPtr t None)
      | Store.VPtr t (Some l) =>
          match nth_error h l with
          | Some (Store.Var y) =>
              option_map (fun y' => VPtr t (Some y')) (reify fuel h y)
          | _ => None
          end
      | Store.VSlice t None => Some (VSlice t None)
      | Store.VSlice t (Some l) =>
          match nth_error h l with
          | Some (Store.Elems xs) =>
              option_map (fun ys => VSlice t (Some ys))
                         (traverse (reify fuel h) xs)
          | _ => None
          end
      | Store.VArray t xs =>
          option_map (VArray t) (traverse (reify fuel h) xs)
      | Store.VMap t None => Some (VMap t None)
      | Store.VMap t (Some l) =>
          match nth_error h l with
          | Some (Store.Bindings m) =>
              option_map (fun m' => VMap t (Some m'))
                (traverse (fun kv =>
                             match reify fuel h (fst kv), reify fuel h (snd kv) with
                             | Some k, Some v => Some (k, v)
                             | _, _ => None
                             end) m)
          | _ => None
          end
      | Store.VStruct t xs =>
          option_map (VStruct t) (traverse (reify fuel h) xs)
      end
  end.

(** A field [toStruct] does not recurse into: not embedded, and unexported
    or not of kind struct. *)
Definition leafField (f : Field) : bool :=
  negb (IsEmbedded f)
  && (negb (IsExported f) || negb (Kind_eqb (Field_Kind f) Kind.Struct)).

(** ** Well-formed struct types

    In Go the fields of a struct type have pairwise different names;
    [distinctFields t] says so of [t] and of every type [t] is made of. *)

Fixpoint distinct (l : list string) : bool :=
  match l with
  | [] => true
  | a :: l' => negb (existsb (String.eqb a) l') && distinct l'
  end.

Fixpoint distinctFields (t : type) : bool :=
  match t with
  | TBool | TInt _ | TString | TInterface => true
  | TPtr e | TSlice e | TArray _ e => distinctFields e
  | TMap k e => distinctFields k && distinctFields e
  | TStruct fs =>
      distinct (names fs)
      && (fix all (fs : list (FieldHead * type)) : bool :=
            match fs with
            | [] => true
            | (_, ft) :: fs' => distinctFields ft && all fs'
            end) fs
  | TNamed _ u => distinctFields u
  end.

(** The handle [New(x)] makes of a struct value [x] of type [t]. *)
Definition handle (t : type) (x : any) : Struct :=
  mkStruct x (mkValue t false false x) DefaultTagName.

(** ** Records seen field by field

    For a record with fields [fs] holding [vals]: the fields of the field
    set of its handle under [DefaultTagName], each with its value; whether
    the value of a field is the zero value of the type of the field; and
    whether [IsZero], [HasZero] and [Values] look into it (a struct or a
    pointer to a struct, without the [omitnested] option). *)

Definition eligibleFields (fs : list StructField) (vals : list any)
  : list (StructField * any) :=
  filter (fun fv =>
            String.eqb (PkgPath (fst (fst fv))) ""
            && negb (String.eqb (Get (Tag (fst (fst fv))) DefaultTagName) "-"))
         (combine fs vals).

Definition isZeroValue (fv : StructField * any) : bool :=
  DeepEqual (snd fv) (Zero (FieldType (fst fv))).

Definition entered (fv : StructField * any) : bool :=
  IsStruct (snd fv)
  && negb (Has (snd (parseTag (Get (Tag (fst (fst fv))) DefaultTagName)))
               "omitnested").

(** [type Box struct { V any }] *)
Definition tBox : type :=
  TNamed "main.Box" (TStruct [exportedField "V" "" TInterface]).

(** ** Flat records

    A field is flat when it is exported, not embedded, of a scalar kind,
    and not left out by the tag ["-"]: [toStruct] fills it from the key of
    its name. *)

Definition flatField (f : StructField) : bool :=
  String.eqb (PkgPath (fst f)) ""
  && negb (Anonymous (fst f))
  && isLeafKind (TypeKind (FieldType f))
  && negb (String.eqb (Get (Tag (fst f)) DefaultTagName) "-").

(** What becomes of a flat field: it is left as it is, a value is stored in
    it, the value of the mapping is refused with an error, or the call
    panics. *)
Inductive filling :=
| Kept
| Stored (y : any)
| Refused (e : error)
| Panics.

Section Flat.
Variable TypeString : type -> string.
Variables AssignableTo ConvertibleTo : type -> type -> bool.
Variable Convert : any -> type -> any.

(** What the default branch of [fromValue] stores in a slot of type [ft]
    for a source [v] of type [vt]: [v] itself when the types are identical,
    [v] converted when [vt] is assignable or convertible to [ft], nothing
    otherwise. *)
Definition coerce (v : any) (vt ft : type) : option any :=
  if type_eqb vt ft then Some v
  else if AssignableTo vt ft || ConvertibleTo vt ft then Some (Convert v ft)
  else None.

Definition mismatch (vt ft : type) : error :=
  errorString ("type mismatch: " ++ TypeString ft ++ " and "
               ++ TypeString vt ++ " are incompatible").

(** What becomes of the flat field [f] when the source mapping is [m]. *)
Definition fillingOf (m : mapdata) (f : StructField) : filling :=
  match MapIndex m (key (Name (fst f))) with
  | None => Kept
  | Some v =>
      match typeOf v with
      | None => Panics
      | Some vt =>
          match coerce v vt (FieldType f) with
          | Some y => Stored y
          | None => Refused (Errorf_ctx (mismatch vt (FieldType f))
                               (Name (fst f)))
          end
      end
  end.

(** The values of the fields [fs], which held [vals], once every value to
    store is stored. *)
Definition filled (m : mapdata) (fs : list StructField) (vals : list any)
  : list any :=
  map (fun fv =>
         match fillingOf m (fst fv) with
         | Stored y => y
         | _ => snd fv
         end)
      (combine fs vals).

(** The errors of the refused fields, joined one after the other to [e]. *)
Definition errorsOf (m : mapdata) (fs : list StructField) (e : option error)
  : option error :=
  fold_left
    (fun e f =>
       match fillingOf m f with
       | Refused e' => Join e (Some e')
       | _ => e
       end)
    fs e.

(** The values staged for the fields [fs], which start at position [k]. *)
Fixpoint stagedFrom (k : nat) (m : mapdata) (fs : list StructField)
  : list (nat * any * type) :=
  match fs with
  | [] => []
  | f :: fs' =>
      match fillingOf m f with
      | Stored y => (k, y, FieldType f) :: stagedFrom (S k) m fs'
      | _ => stagedFrom (S k) m fs'
      end
  end.

End Flat.




(** [type List struct { A int; L []int }] *)
Definition tList : type :=
  TNamed "main.List"
    (TStruct [exportedField "A" "" tInt; exportedField "L" "" (TSlice tInt)]).


(** ** The other functions of structs.go and field.go *)

Section Accessors.

Variable Stringer : any -> option string.
Variable AssignableTo : type -> type -> bool.
Variable Convert : any -> type -> any.

(** What [reflect.Type.FieldByName] finds through the embedded fields of a
    struct type for a name that is the name of none of its fields: the
    promoted field and its index sequence. *)
Variable Promoted : type -> string -> option (StructField * list nat).

(** The body of the loop of [Values] for one field; the parameter is the
    function [Values(s any)], which the loop calls on a nested struct. *)
Definition valuesField (Values : any -> outcome (list any)) (s : Struct)
  (t : list any) (field : StructField) : outcome (list any) :=
  let val := FieldByName (value s) (Name (fst field)) in
  let '(_, tagOpts) := parseTag (Get (Tag (fst field)) (TagName s)) in
  skip <- (if Has tagOpts "omitempty"
           then vt <- TypeOfValue val ;;
                current <- InterfaceOf val ;;
                Ret (DeepEqual current (Zero vt))
           else Ret false) ;;
  if (skip : bool) then Ret t
  else if Has tagOpts "string" then
    x <- InterfaceOf val ;;
    match Stringer x with
    | Some str => Ret (t ++ [VString TString str])%list
    | None => Ret t
    end
  else
    x <- InterfaceOf val ;;
    if IsStruct x && negb (Has tagOpts "omitnested") then
      vs <- Values x ;; Ret (t ++ vs)%list
    else Ret (t ++ [x])%list.

(** The method [Values]: the elements of the slice it returns (a nil slice
    when there is none). *)
Fixpoint Values (fuel : nat) (s : Struct) {struct fuel} : outcome (list any) :=
  match fuel with
  | 0 => Timeout
  | S fuel =>
      foldM (valuesField (fun x => n <- New x ;; Values fuel n) s)
            (structFields s) []
  end.

Definition pkg_Values (fuel : nat) (s : any) : outcome (list any) :=
  n <- New s ;; Values fuel n.

(** A [*Field] with its member [defaultTag], which the record [Field]
    leaves out ([toStruct] does not read it): [getFields] and
    [Field.FieldOk] do not set it, [Struct.FieldOk] sets it to the tag name
    of the handle. *)
Record TaggedField := mkTagged {
  untagged : Field;
  defaultTag : string
}.

(** The fields [getFields] returns, as the callers of [Fields] see them. *)
Definition untaggedFields (fields : list Field) : list TaggedField :=
  map (fun f => mkTagged f "") fields.

(** The methods [Fields] and [Names], and the functions of these names. *)
Definition Fields (s : Struct) : outcome (list TaggedField) :=
  fields <- getFields (value s) (TagName s) ;;
  Ret (untaggedFields fields).

Definition Names (s : Struct) : outcome (list string) :=
  fields <- getFields (value s) (TagName s) ;;
  Ret (map Field_Name fields).

Definition pkg_Fields (s : any) : outcome (list TaggedField) :=
  n <- New s ;; Fields n.

Definition pkg_Names (s : any) : outcome (list string) :=
  n <- New s ;; Names n.

(** [t.FieldByName(name)]: the field and its index sequence; it panics
    unless [t] is a struct type.  A field of [t] itself is found first; a
    struct type without embedded field has no other. *)
Definition Type_FieldByName (t : type) (name : string)
  : outcome (option (StructField * list nat)) :=
  match TypeKind t with
  | Kind.Struct =>
      match (if String.eqb name "" then None
             else fieldIndex (TypeFields t) name) with
      | Some i =>
          match nth_error (TypeFields t) i with
          | Some f => Ret (Some (f, [i]))
          | None => Ret None
          end
      | None =>
          if negb (String.eqb name "")
             && existsb (fun f => Anonymous (fst f)) (TypeFields t)
          then Ret (Promoted t name)
          else Ret None
      end
  | _ => Panic "reflect: FieldByName of non-struct type"
  end.

(** [v.FieldByIndex(index)]: from the second index on, a pointer to a
    struct is followed first. *)
Fixpoint FieldByIndex_from (first : bool) (v : Value) (index : list nat)
  {struct index} : outcome Value :=
  match index with
  | [] => Ret v
  | x :: index' =>
      v <- (if first then Ret v else
              match ValueKind v with
              | Kind.Ptr =>
                  e <- TypeElem (Type_ v) ;;
                  match TypeKind e with
                  | Kind.Struct =>
                      match Elem v with
                      | Some v' => Ret v'
                      | None =>
                          Panic "reflect: indirection through nil pointer to embedded struct"
                      end
                  | _ => Ret v
                  end
              | _ => Ret v
              end) ;;
      match Value_Field v x with
      | Some v' => FieldByIndex_from false v' index'
      | None => Panic "reflect: Field index out of range"
      end
  end.

(** [v.FieldByName(name)] for any [name]: invalid ([None]) when the type
    has no such field. *)
Definition Value_FieldByName (v : Value) (name : string)
  : outcome (option Value) :=
  r <- Type_FieldByName (Type_ v) name ;;
  match r with
  | Some (_, index) => v' <- FieldByIndex_from true v index ;; Ret (Some v')
  | None => Ret None
  end.

(** The method [FieldOk] of [Struct]: [None] for [(nil, false)]. *)
Definition Struct_FieldOk (s : Struct) (name : string)
  : outcome (option TaggedField) :=
  r <- Type_FieldByName (Type_ (value s)) name ;;
  match r with
  | None => Ret None
  | Some (field, _) =>
      v <- Value_FieldByName (value s) name ;;
      Ret (Some (mkTagged (mkField v field) (TagName s)))
  end.

(** The method [Field] of [Struct]. *)
Definition Struct_Field (s : Struct) (name : string) : outcome TaggedField :=
  f <- Struct_FieldOk s name ;;
  match f with
  | Some f => Ret f
  | None => Panic "field not found"
  end.

(** *** field.go *)

Definition errNotExported := errorString "field is not exported".
Definition errNotSettable := errorString "field is not settable".

Definition Field_Tag (f : Field) (key : string) : string :=
  Get (Tag (fst (field f))) key.

Definition Field_Value (f : Field) : outcome any := InterfaceOf (fvalue f).

Definition Field_IsZero (f : Field) : outcome bool :=
  vt <- TypeOfValue (fvalue f) ;;
  current <- Field_Value f ;;
  Ret (DeepEqual current (Zero vt)).

(** [v.CanSet()] *)
Definition CanSet (v : option Value) : bool :=
  match v with
  | Some v => flagAddr v && negb (flagRO v)
  | None => false
  end.

(** [k.String()] on a [reflect.Kind] *)
Definition Kind_String (k : Kind.t) : string :=
  match k with
  | Kind.Invalid => "invalid"
  | Kind.Bool => "bool"
  | Kind.Int k => intkind_name k
  | Kind.String => "string"
  | Kind.Interface => "interface"
  | Kind.Ptr => "ptr"
  | Kind.Slice => "slice"
  | Kind.Array => "array"
  | Kind.Map => "map"
  | Kind.Struct => "struct"
  end.

(** [f.Set(val)]: the field as it is after the call, and the error
    returned. *)
Definition Field_Set (f : Field) (val : any) : outcome (Field * option error) :=
  if negb (IsExported f) then Ret (f, Some errNotExported)
  else if negb (CanSet (fvalue f)) then Ret (f, Some errNotSettable)
  else
    let given := ValueOf val in
    if negb (Kind_eqb (Field_Kind f) (KindOf given)) then
      Ret (f, Some (errorString
                      ("wrong kind. got: " ++ Kind_String (KindOf given)
                       ++ " want: " ++ Kind_String (Field_Kind f))))
    else
      match fvalue f, given with
      | Some v, Some g =>
          x <- Set_ AssignableTo Convert v val (Type_ g) ;;
          Ret (mkField (Some (withData v x)) (field f), None)
      | _, _ => Panic "reflect: call of reflect.Value.Set on zero Value"
      end.

(** [f.Zero()] *)
Definition Field_Zero (f : Field) : outcome (Field * option error) :=
  vt <- TypeOfValue (fvalue f) ;;
  Field_Set f (Zero vt).

(** [f.Fields()] *)
Definition Field_Fields (f : TaggedField) : outcome (list TaggedField) :=
  match fvalue (untagged f) with
  | Some v =>
      fields <- getFields v (defaultTag f) ;;
      Ret (untaggedFields fields)
  | None => Panic "reflect: call of reflect.Value.Type on zero Value"
  end.

(** [f.FieldOk(name)]: [None] for [(nil, false)]. *)
Definition Field_FieldOk (f : Field) (name : string)
  : outcome (option TaggedField) :=
  x <- match fvalue f with
       | Some v =>
           match ValueKind v with
           | Kind.Ptr => Interface v
           | _ =>
               (* a := f.value.Addr(); a.Interface() *)
               if negb (flagAddr v)
               then Panic "reflect.Value.Addr of unaddressable value"
               else Interface (MkValue (TPtr (Type_ v)) (flagRO v) false
                                 (VPtr (TPtr (Type_ v)) (Some (data v)))
                                 (flagStickyRO v))
           end
       | None => Panic "reflect.Value.Addr of unaddressable value"
       end ;;
  v <- structVal x ;;
  r <- Type_FieldByName (Type_ v) name ;;
  match r with
  | None => Ret None
  | Some (field, _) =>
      fv <- Value_FieldByName v name ;;
      Ret (Some (mkTagged (mkField fv field) ""))
  end.

(** [f.Field(name)] *)
Definition Field_Field (f : Field) (name : string) : outcome TaggedField :=
  r <- Field_FieldOk f name ;;
  match r with
  | Some g => Ret g
  | None => Panic "field not found"
  end.

End Accessors.

(** [type Node struct { Name string; Hidden int `structs:"-"`; secret int }]
    and [type Tree struct { Root Node; Tip *Node }], declared in package
    [main]. *)
Definition tNode : type :=
  TNamed "main.Node"
    (TStruct [exportedField "Name" "" TString;
              exportedField "Hidden" "-" tInt;
              (mkHead "secret" "main" [] false, tInt)]).

Definition tTree : type :=
  TNamed "main.Tree"
    (TStruct [exportedField "Root" "" tNode; exportedField "Tip" "" (TPtr tNode)]).

Definition node1 : any := VStruct tNode [str "a"; int 1; int 2].
Definition tree1 : any := VStruct tTree [node1; VPtr (TPtr tNode) None].

(** No name is promoted in the examples: their types embed no struct. *)
Definition go_Promoted (t : type) (name : string)
  : option (StructField * list nat) := None.

(** * Properties *)

Unset Implicit Arguments.

(** ** Type identity *)

Section type_induction.
Variable P : type -> Prop.
Hypothesis HBool : P TBool.
Hypothesis HInt : forall k, P (TInt k).
Hypothesis HString : P TString.
Hypothesis HInterface : P TInterface.
Hypothesis HPtr : forall e, P e -> P (TPtr e).
Hypothesis HSlice : forall e, P e -> P (TSlice e).
Hypothesis HArray : forall n e, P e -> P (TArray n e).
Hypothesis HMap : forall k e, P k -> P e -> P (TMap k e).
Hypothesis HStruct :
  forall fs, Forall (fun f : FieldHead * type => P (snd f)) fs -> P (TStruct fs).
Hypothesis HNamed : forall n u, P u -> P (TNamed n u).

Fixpoint type_nested_ind (t : type) : P t :=
  match t with
  | TBool => HBool
  | TInt k => HInt k
  | TString => HString
  | TInterface => HInterface
  | TPtr e => HPtr e (type_nested_ind e)
  | TSlice e => HSlice e (type_nested_ind e)
  | TArray n e => HArray n e (type_nested_ind e)
  | TMap k e => HMap k e (type_nested_ind k) (type_nested_ind e)
  | TStruct fs =>
      HStruct fs
        ((fix all (fs : list (FieldHead * type))
            : Forall (fun f : FieldHead * type => P (snd f)) fs :=
            match fs with
            | [] => Forall_nil _
            | f :: fs' => Forall_cons f (type_nested_ind (snd f)) (all fs')
            end) fs)
  | TNamed n u => HNamed n u (type_nested_ind u)
  end.
End type_induction.

Lemma intkind_eqb_eq (a b : intkind) : intkind_eqb a b = true <-> a = b.
Proof. destruct a, b; simpl; split; congruence. Qed.

Lemma tag_eqb_eq (a b : StructTag) : tag_eqb a b = true <-> a = b.
Proof.
  revert b; induction a as [|[k v] a IH]; intros [|[k' v'] b]; simpl;
    try (split; congruence).
  rewrite !andb_true_iff, !String.eqb_eq, IH.
  split; [intros [[-> ->] ->]; reflexivity | intros E; inversion E; auto].
Qed.

Lemma head_eqb_eq (a b : FieldHead) : head_eqb a b = true <-> a = b.
Proof.
  destruct a, b; unfold head_eqb; simpl.
  rewrite !andb_true_iff, !String.eqb_eq, tag_eqb_eq, Bool.eqb_true_iff.
  split; [intros [[[-> ->] ->] ->]; reflexivity | intros E; inversion E; auto].
Qed.

Lemma type_eqb_eq (a b : type) : type_eqb a b = true <-> a = b.
Proof.
  revert b; induction a using type_nested_ind; intros b; destruct b; simpl;
    try (split; congruence).
  - rewrite intkind_eqb_eq. split; congruence.
  - rewrite IHa. split; congruence.
  - rewrite IHa. split; congruence.
  - rewrite andb_true_iff, Nat.eqb_eq, IHa.
    split; [intros [-> ->]; reflexivity | intros E; inversion E; auto].
  - rewrite andb_true_iff, IHa1, IHa2.
    split; [intros [-> ->]; reflexivity | intros E; inversion E; auto].
  - revert fields. induction H as [|[h t] fs Ht Hfs IH]; intros [|[h' t'] gs];
      try (split; congruence).
    rewrite !andb_true_iff, head_eqb_eq. simpl in Ht. rewrite Ht.
    specialize (IH gs).
    split.
    + intros [[-> ->] E]. apply IH in E. congruence.
    + intros E. inversion E; subst. repeat split; auto.
      apply IH. reflexivity.
  - rewrite andb_true_iff, String.eqb_eq, IHa.
    split; [intros [-> ->]; reflexivity | intros E; inversion E; auto].
Qed.

Lemma type_eqb_refl (t : type) : type_eqb t t = true.
Proof. apply type_eqb_eq. reflexivity. Qed.

Lemma type_eqb_neq (a b : type) : type_eqb a b = false <-> a <> b.
Proof.
  rewrite <- not_true_iff_false, type_eqb_eq. reflexivity.
Qed.

Lemma key_eqb (a b : string) : value_eqb (key a) (key b) = String.eqb a b.
Proof. reflexivity. Qed.

(** ** Zero values *)

Lemma typeOf_Zero_at (full t : type) :
  TypeKind t <> Kind.Interface -> typeOf (Zero_at full t) = Some full.
Proof.
  revert full; induction t using type_nested_ind; intros full Hk; simpl;
    try reflexivity.
  - exfalso. apply Hk. reflexivity.
  - apply IHt. exact Hk.
Qed.

Lemma typeOf_Zero (t : type) :
  TypeKind t <> Kind.Interface -> typeOf (Zero t) = Some t.
Proof. apply typeOf_Zero_at. Qed.

(** ** IsZero and HasZero *)

(** C10: for a record whose computed field set is empty, [IsZero] returns
    true (vacuously, all fields are zero) and [HasZero] returns false
    (vacuously, no field is zero): on such a record "all zero" does not
    entail "has a zero field". *)
Theorem IsZero_HasZero_empty_field_set (fuel : nat) (s : Struct) :
  structFields s = [] ->
  IsZero (S fuel) s = Ret true /\ HasZero (S fuel) s = Ret false.
Proof.
  intros Hfields. simpl. rewrite Hfields. simpl. split; reflexivity.
Qed.

(** ** Leaf coercion *)



Lemma IsZero_HasZero_empty_field_set_witness :
  let t := TStruct [(mkHead "a" "main" [] false, TInt I);
                    (mkHead "B" "" [("structs", "-")] false, TInt I)] in
  let x := VStruct t [VInt (TInt I) 1; VInt (TInt I) 0] in
  let s := mkStruct x (mkValue t false false x) DefaultTagName in
  structFields s = [] /\
  (IsZero 1 s = Ret true /\ HasZero 1 s = Ret false).
Proof.
  cbv zeta. split; [reflexivity|].
  apply IsZero_HasZero_empty_field_set. reflexivity.
Defined.

(** ** The reverse converter on three inputs *)

(** C1: [toStruct] on a zero [Outer] and
    [{"N": 7, "B": "x"}]: the field [B] fails, the call returns the joined
    error, and yet the target is not what it was before the call: the nested
    record [Sub], filled by the recursive call, keeps [N = 7]. *)
Theorem toStruct_error_after_nested_commit :
  let m := mapStringAny [("N", int 7); ("B", str "x")] in
  go_toStruct 3 m (addressable tOuter (Zero tOuter))
  = Ret (VStruct tOuter [VStruct tInner [int 7]; int 0],
         Some (joinError
                 [errorString "type mismatch: int and string are incompatible:(B)"]))
  /\ VStruct tOuter [VStruct tInner [int 7]; int 0] <> Zero tOuter.
Proof. split; [vm_compute; reflexivity | discriminate]. Qed.

(** C5: [toStruct] on the embedded field [*MyInt] of a [Holder], a nil
    pointer to a type that is not a struct: the call fails with
    [errNotStruct] after it has set the pointer to a new [MyInt]; seen from
    [Holder], the call fails and the field is no longer nil. *)
Theorem toStruct_not_struct_after_write :
  let m := mapStringAny [] in
  go_toStruct 1 m (addressable (TPtr tMyInt) (VPtr (TPtr tMyInt) None))
  = Ret (VPtr (TPtr tMyInt) (Some (VInt tMyInt 0)), Some errNotStruct)
  /\ go_toStruct 2 m (addressable tHolder (Zero tHolder))
     = Ret (VStruct tHolder [VPtr (TPtr tMyInt) (Some (VInt tMyInt 0))],
            Some (joinError [errNotStruct]))
  /\ Zero tHolder = VStruct tHolder [VPtr (TPtr tMyInt) None].
Proof. repeat split; vm_compute; reflexivity. Qed.

(** C7: [toStruct] on [Shifted{A: 1, B: 2, C: 3}] and [{"C": 5}]: no error,
    and the leaf field [B], whose name is not a key of the mapping, does not
    keep its value: the value staged for [C] at position 1 of the list of
    fields (which leaves [A] out) is written to the field of index 1 of the
    struct, which is [B]. *)
Theorem toStruct_absent_field_overwritten :
  let m := mapStringAny [("C", int 5)] in
  MapIndex [(key "C", int 5)] (key "B") = None
  /\ go_toStruct 2 m (addressable tShifted (VStruct tShifted [int 1; int 2; int 3]))
     = Ret (VStruct tShifted [int 1; int 5; int 3], None).
Proof. split; vm_compute; reflexivity. Qed.

(** ** Outcomes and loops *)

Lemma bind_Ret_inv {A B} (c : outcome A) (k : A -> outcome B) (b : B) :
  bind c k = Ret b -> exists a, c = Ret a /\ k a = Ret b.
Proof. destruct c; simpl; intros E; try discriminate. eauto. Qed.

Lemma foldM_app {A B} (f : B -> A -> outcome B) (l1 l2 : list A) (b : B) :
  foldM f (l1 ++ l2)%list b = bind (foldM f l1 b) (foldM f l2).
Proof.
  revert b; induction l1 as [|x l1 IH]; intros b; simpl; [reflexivity|].
  destruct (f b x); simpl; auto.
Qed.

(** A property kept by every step of a loop holds when the loop returns. *)
Lemma foldM_invariant {A B} (P : B -> Prop) (f : B -> A -> outcome B)
  (l : list A) :
  (forall b x b', In x l -> P b -> f b x = Ret b' -> P b') ->
  forall b b', P b -> foldM f l b = Ret b' -> P b'.
Proof.
  induction l as [|x l IH]; intros Hstep b b' Hb E; simpl in E.
  - inversion E; subst; exact Hb.
  - apply bind_Ret_inv in E. destruct E as [b1 [E1 E2]].
    apply IH with (b := b1); auto.
    + intros; eapply Hstep; eauto. right; assumption.
    + eapply Hstep; eauto. left; reflexivity.
Qed.

(** ** Maps *)

Lemma hasKey_SetMapIndex_other (m : mapdata) (k v q : any) :
  hasKey m q -> hasKey (SetMapIndex m k v) q.
Proof.
  unfold hasKey. induction m as [|[k0 v0] m IH]; simpl; intros H.
  - congruence.
  - destruct (value_eqb k0 k) eqn:E; simpl;
      destruct (value_eqb k0 q); auto; discriminate.
Qed.


Lemma hasKey_merge (m out : mapdata) (q : any) :
  hasKey out q ->
  hasKey (fold_left (fun out kv => SetMapIndex out (fst kv) (snd kv)) m out) q.
Proof.
  revert out; induction m as [|[k v] m IH]; simpl; intros out H; auto.
  apply IH. apply hasKey_SetMapIndex_other. exact H.
Qed.

(** ** The forward converter: which fields give a key *)

Ltac inv_bind H :=
  let a := fresh "a" in
  let E := fresh "E" in
  apply bind_Ret_inv in H; destruct H as [a [E H]].

(** No step of the loop of [FillMap] removes a key. *)
Lemma fillField_keeps_keys Stringer nested s out field out' q :
  fillField Stringer nested s out field = Ret out' ->
  hasKey out q -> hasKey out' q.
Proof.
  unfold fillField. intros H Hq.
  destruct (parseTag _) as [tagName tagOpts].
  inv_bind H. destruct a; [inversion H; subst; exact Hq|].
  inv_bind H. destruct a as [finalVal isSubStruct].
  destruct (Has tagOpts "string").
  - inv_bind H. destruct (Stringer a); inversion H; subst; auto.
    apply hasKey_SetMapIndex_other; exact Hq.
  - destruct (isSubStruct && Has tagOpts "flatten").
    + inv_bind H. inversion H; subst. apply hasKey_merge; exact Hq.
    + inversion H; subst. apply hasKey_SetMapIndex_other; exact Hq.
Qed.



Lemma FillMap_Ret_inv TypeString Stringer fuel s out r :
  FillMap TypeString Stringer fuel s (Some out) = Ret r ->
  exists fuel' out',
    fuel = S fuel' /\ r = Some out' /\
    foldM (fillField Stringer (nested TypeString Stringer fuel' s) s)
      (structFields s) out = Ret out'.
Proof.
  destruct fuel as [|fuel']; cbn [FillMap]; intros H; [discriminate|].
  unfold FillMap_body in H. inv_bind H. inversion H; subst. eauto.
Qed.




(** ** The field sets *)

Lemma value_eqb_key (name : string) (q : any) :
  value_eqb (key name) q = true -> q = key name.
Proof.
  destruct q; simpl; try discriminate.
  destruct t; simpl; try discriminate.
  rewrite String.eqb_eq. intros ->. reflexivity.
Qed.

Lemma hasKey_SetMapIndex_inv (m : mapdata) (name : string) (v q : any) :
  hasKey (SetMapIndex m (key name) v) q -> q = key name \/ hasKey m q.
Proof.
  unfold hasKey. induction m as [|[k0 v0] m IH]; cbn [SetMapIndex MapIndex].
  - destruct (value_eqb (key name) q) eqn:E.
    + intros _. left. apply value_eqb_key. exact E.
    + intros H. exfalso. apply H. reflexivity.
  - destruct (value_eqb k0 (key name)) eqn:E; cbn [MapIndex];
      destruct (value_eqb k0 q); auto; right; discriminate.
Qed.





(** ** Round trip on plain records *)

Lemma Zero_at_struct (full t : type) (fs : list StructField) :
  Underlying t = TStruct fs ->
  Zero_at full t = VStruct full (map (fun f => Zero (FieldType f)) fs).
Proof.
  revert full; induction t; intros full Hu; simpl in Hu; try discriminate.
  - inversion Hu; subst. clear Hu. simpl. f_equal.
    induction fs as [|[h ft] fs IH]; simpl; [reflexivity|].
    rewrite IH. reflexivity.
  - simpl. apply IHt. exact Hu.
Qed.

Lemma Zero_at_leaf (full t : type) :
  isLeafKind (TypeKind t) = true ->
  Zero_at full t = VBool full false \/ Zero_at full t = VInt full 0
  \/ Zero_at full t = VString full "".
Proof.
  revert full; induction t; intros full Hk; try discriminate; simpl; auto.
Qed.

Lemma DeepEqual_Zero_leaf (t : type) (v : any) :
  isLeafKind (TypeKind t) = true ->
  DeepEqual v (Zero t) = true -> v = Zero t.
Proof.
  intros Hk. unfold Zero.
  destruct (Zero_at_leaf t t Hk) as [E|[E|E]]; rewrite E; clear E;
    destruct v as [|t0 b|t0 z|t0 s0|t0 [p|]|t0 [l|]|t0 l|t0 [m|]|t0 l];
    simpl; try discriminate;
    rewrite andb_true_iff, type_eqb_eq.
  - rewrite Bool.eqb_true_iff. intros [-> ->]. reflexivity.
  - rewrite Z.eqb_eq. intros [-> ->]. reflexivity.
  - rewrite String.eqb_eq. intros [-> ->]. reflexivity.
Qed.

Lemma fieldIndex_app (l1 l2 : list StructField) (f : StructField) :
  ~ In (Name (fst f)) (names l1) ->
  fieldIndex (l1 ++ f :: l2) (Name (fst f)) = Some (List.length l1).
Proof.
  induction l1 as [|g l1 IH]; simpl; intros Hn.
  - rewrite String.eqb_refl. reflexivity.
  - destruct (String.eqb (Name (fst g)) (Name (fst f))) eqn:E.
    + apply String.eqb_eq in E. exfalso. apply Hn. left. exact E.
    + rewrite IH; [reflexivity|]. intros H. apply Hn. right. exact H.
Qed.

Lemma NoDup_names_app (l1 l2 : list StructField) (f : StructField) :
  NoDup (names (l1 ++ f :: l2)) -> ~ In (Name (fst f)) (names l1).
Proof.
  unfold names. rewrite map_app. simpl. intros H Hin.
  apply NoDup_remove_2 in H. apply H. apply in_or_app. left. exact Hin.
Qed.

(** The field at position [length l1] of a struct, looked up by name. *)
Lemma FieldByName_at (t : type) (ro addr : bool) (l1 l2 : list StructField)
  (f : StructField) (v1 v2 : list any) (v : any) :
  Underlying t = TStruct (l1 ++ f :: l2) ->
  NoDup (names (l1 ++ f :: l2)) ->
  List.length l1 = List.length v1 ->
  FieldByName (mkValue t ro addr (VStruct t (v1 ++ v :: v2))) (Name (fst f))
  = Some (MkValue (FieldType f)
                  (ro || negb (String.eqb (PkgPath (fst f)) "")) addr v
                  (ro || (negb (String.eqb (PkgPath (fst f)) "")
                          && negb (Anonymous (fst f))))).
Proof.
  intros Ht Hnd Hlen. unfold FieldByName, Value_Field, TypeFields.
  cbn [Type_ data flagRO flagStickyRO flagAddr]. rewrite Ht.
  rewrite fieldIndex_app by (eapply NoDup_names_app; eauto).
  rewrite nth_error_app2 by lia. rewrite Nat.sub_diag.
  rewrite Hlen, nth_error_app2 by lia. rewrite Nat.sub_diag.
  reflexivity.
Qed.

Lemma value_eqb_key_l (name : string) (q : any) :
  value_eqb q (key name) = true -> q = key name.
Proof.
  destruct q as [|t0 b|t0 z|t0 s0|t0 [p|]|t0 [l|]|t0 l|t0 [m|]|t0 l];
    simpl; try discriminate.
  rewrite andb_true_iff, type_eqb_eq, String.eqb_eq.
  intros [-> ->]. reflexivity.
Qed.

Lemma MapIndex_SetMapIndex (m : mapdata) (a b : string) (v : any) :
  MapIndex (SetMapIndex m (key a) v) (key b)
  = if String.eqb a b then Some v else MapIndex m (key b).
Proof.
  induction m as [|[k0 v0] m IH]; cbn [SetMapIndex MapIndex].
  - rewrite key_eqb. reflexivity.
  - destruct (value_eqb k0 (key a)) eqn:Ea; cbn [MapIndex].
    + apply value_eqb_key_l in Ea.
      subst k0. rewrite key_eqb. destruct (String.eqb a b); reflexivity.
    + rewrite IH. destruct (String.eqb a b) eqn:Eab; [|reflexivity].
      apply String.eqb_eq in Eab. subst b. rewrite Ea. reflexivity.
Qed.

Lemma MapIndex_project_notin (l : list (StructField * any)) (out : mapdata)
  (n : string) :
  ~ In n (names (map fst l)) ->
  MapIndex (project l out) (key n) = MapIndex out (key n).
Proof.
  unfold project. revert out; induction l as [|[f v] l IH]; simpl; intros out Hn;
    [reflexivity|].
  rewrite IH by tauto.
  destruct (kept f v); [|reflexivity].
  rewrite MapIndex_SetMapIndex.
  destruct (String.eqb (Name (fst f)) n) eqn:E; [|reflexivity].
  apply String.eqb_eq in E. tauto.
Qed.

Lemma MapIndex_project_in (l1 l2 : list (StructField * any)) (f : StructField)
  (v : any) (out : mapdata) :
  NoDup (names (map fst (l1 ++ (f, v) :: l2))) ->
  MapIndex (project (l1 ++ (f, v) :: l2) out) (key (Name (fst f)))
  = if kept f v then Some v else MapIndex out (key (Name (fst f))).
Proof.
  intros Hnd. unfold project. rewrite fold_left_app. cbn [fold_left fst snd].
  fold (project l1 out).
  set (out1 := if kept f v then _ else _).
  fold (project l2 out1).
  assert (H2 : ~ In (Name (fst f)) (names (map fst l2))).
  { unfold names in *. rewrite !map_app in Hnd. simpl in Hnd.
    apply NoDup_remove_2 in Hnd. intros H. apply Hnd. apply in_or_app. right. exact H. }
  assert (H1 : ~ In (Name (fst f)) (names (map fst l1))).
  { unfold names in *. rewrite !map_app in Hnd. simpl in Hnd.
    apply NoDup_remove_2 in Hnd. intros H. apply Hnd. apply in_or_app. left. exact H. }
  rewrite MapIndex_project_notin by exact H2.
  subst out1. destruct (kept f v).
  - rewrite MapIndex_SetMapIndex, String.eqb_refl. reflexivity.
  - apply MapIndex_project_notin. exact H1.
Qed.

Lemma plainField_inv (f : StructField) :
  plainField f = true ->
  PkgPath (fst f) = "" /\ Anonymous (fst f) = false
  /\ isLeafKind (TypeKind (FieldType f)) = true
  /\ fst (parseTag (Get (Tag (fst f)) DefaultTagName)) = ""
  /\ Has (snd (parseTag (Get (Tag (fst f)) DefaultTagName))) "string" = false
  /\ Has (snd (parseTag (Get (Tag (fst f)) DefaultTagName))) "flatten" = false.
Proof.
  unfold plainField. rewrite !andb_true_iff, !negb_true_iff, !String.eqb_eq.
  tauto.
Qed.

Lemma plainField_not_dash (f : StructField) :
  plainField f = true ->
  String.eqb (Get (Tag (fst f)) DefaultTagName) "-" = false.
Proof.
  intros H. apply plainField_inv in H. destruct H as [_ [_ [_ [H _]]]].
  destruct (String.eqb _ "-") eqn:E; [|reflexivity].
  apply String.eqb_eq in E. rewrite E in H. discriminate H.
Qed.

Lemma filter_plain (fs : list StructField) :
  forallb plainField fs = true ->
  filter (fun f => negb (String.eqb (Get (Tag (fst f)) DefaultTagName) "-")) fs
  = fs.
Proof.
  induction fs as [|f fs IH]; simpl; [reflexivity|].
  rewrite andb_true_iff. intros [Hf Hfs].
  rewrite plainField_not_dash by exact Hf. simpl. rewrite IH by exact Hfs.
  reflexivity.
Qed.

Section Plain.
Variable TypeString : type -> string.
Variable Stringer : any -> option string.
Variables AssignableTo ConvertibleTo : type -> type -> bool.
Variable Convert : any -> type -> any.

#[local] Abbreviation toStruct' :=
  (toStruct TypeString AssignableTo ConvertibleTo Convert).
#[local] Abbreviation fromValue' :=
  (fromValue TypeString AssignableTo ConvertibleTo Convert).
#[local] Abbreviation nested' := (nested TypeString Stringer).

Lemma nested_leaf (fuel : nat) (s : Struct) (val : Value) (ft : type) :
  flagRO val = false ->
  typeOf (data val) = Some ft ->
  isLeafKind (TypeKind ft) = true ->
  nested' (S fuel) s (Some val) = Ret (data val).
Proof.
  intros Hro Hty Hk. cbn [nested]. unfold nested_body.
  unfold InterfaceOf, Interface. rewrite Hro. cbn [bind].
  unfold ValueOf. rewrite Hty. unfold derefOnce, ValueKind. cbn [Type_].
  destruct (TypeKind ft) eqn:E; try discriminate Hk; cbn [KindOf];
    unfold ValueKind; cbn [Type_]; rewrite E; reflexivity.
Qed.

Lemma fillField_plain (fuel : nat) (s : Struct) (out : mapdata)
  (f : StructField) (addr : bool) (v : any) :
  TagName s = DefaultTagName ->
  plainField f = true ->
  FieldByName (value s) (Name (fst f))
  = Some (mkValue (FieldType f) false addr v) ->
  typeOf v = Some (FieldType f) ->
  fillField Stringer (nested' (S fuel) s) s out f
  = Ret (if kept f v then SetMapIndex out (key (Name (fst f))) v else out).
Proof.
  intros Htag Hplain Hval Hty.
  apply plainField_inv in Hplain.
  destruct Hplain as [_ [_ [Hk [Hn [Hs Hf]]]]].
  unfold fillField, kept. rewrite Htag, Hval.
  destruct (parseTag _) as [tagName tagOpts]. simpl in Hn, Hs, Hf. subst tagName.
  cbn [String.eqb snd].
  rewrite (nested_leaf fuel s (mkValue (FieldType f) false addr v) (FieldType f))
    by (try reflexivity; assumption).
  cbn [TypeOfValue InterfaceOf Interface flagRO flagStickyRO data bind Type_].
  destruct (Has tagOpts "omitempty"); cbn [bind andb negb];
    [destruct (DeepEqual v (Zero (FieldType f))); cbn [negb]; [reflexivity|]|];
    (destruct (negb (Has tagOpts "omitnested")); cbn [bind];
     rewrite Hs, Hf, andb_false_r; reflexivity).
Qed.

Lemma foldM_fillField_plain (fuel : nat) (t : type) (addr : bool) (raw : any)
  (l2 : list StructField) (v2 : list any) :
  Forall2 (fun f v => typeOf v = Some (FieldType f)) l2 v2 ->
  forallb plainField l2 = true ->
  forall (l1 : list StructField) (v1 : list any) (out : mapdata),
    Underlying t = TStruct (l1 ++ l2) ->
    NoDup (names (l1 ++ l2)) ->
    List.length l1 = List.length v1 ->
    let s := mkStruct raw (mkValue t false addr (VStruct t (v1 ++ v2)))
                      DefaultTagName in
    foldM (fillField Stringer (nested' (S fuel) s) s) l2 out
    = Ret (project (combine l2 v2) out).
Proof.
  induction 1 as [|f v l2 v2 Hty Hrest IH]; intros Hplain l1 v1 out Ht Hnd Hlen s.
  - reflexivity.
  - simpl in Hplain. apply andb_true_iff in Hplain. destruct Hplain as [Hf Hfs].
    cbn [foldM combine].
    rewrite (fillField_plain fuel s out f addr v); try assumption; try reflexivity.
    + cbn [bind]. unfold project. cbn [fold_left fst snd].
      specialize (IH Hfs (l1 ++ [f])%list (v1 ++ [v])%list
                     (if kept f v then SetMapIndex out (key (Name (fst f))) v else out)).
      rewrite <- !app_assoc in IH. cbn [app] in IH.
      apply IH; try assumption.
      rewrite !length_app. simpl. lia.
    + subst s. cbn [value].
      rewrite (FieldByName_at t false addr l1 l2 f v1 v2 v Ht Hnd Hlen).
      apply plainField_inv in Hf. destruct Hf as [Hp _]. rewrite Hp.
      reflexivity.
Qed.

Lemma structFields_plain (raw : any) (v : Value) (fs : list StructField) :
  Underlying (Type_ v) = TStruct fs ->
  forallb plainField fs = true ->
  structFields (mkStruct raw v DefaultTagName) = fs.
Proof.
  intros Ht Hplain. unfold structFields, TypeFields. cbn [value TagName].
  rewrite Ht. clear Ht.
  induction fs as [|f fs IH]; simpl; [reflexivity|].
  simpl in Hplain. apply andb_true_iff in Hplain. destruct Hplain as [Hf Hfs].
  rewrite (plainField_not_dash f Hf).
  apply plainField_inv in Hf. destruct Hf as [Hp _]. rewrite Hp.
  simpl. rewrite IH by exact Hfs. reflexivity.
Qed.

Lemma pkg_Map_plain (fuel : nat) (t : type) (fs : list StructField)
  (vals : list any) :
  Underlying t = TStruct fs ->
  forallb plainField fs = true ->
  NoDup (names fs) ->
  Forall2 (fun f v => typeOf v = Some (FieldType f)) fs vals ->
  pkg_Map TypeString Stringer (S (S fuel)) (VStruct t vals)
  = Ret (Some (project (combine fs vals) [])).
Proof.
  intros Ht Hplain Hnd Hty.
  unfold pkg_Map, New, structVal, ValueOf. cbn [typeOf Type_ flagRO flagStickyRO flagAddr data].
  cbn [structVal_loop].
  assert (Hk : TypeKind t = Kind.Struct) by (unfold TypeKind; rewrite Ht; reflexivity).
  rewrite Hk. cbn [bind]. unfold Map. cbn [FillMap]. unfold FillMap_body.
  rewrite (structFields_plain _ _ fs) by assumption.
  rewrite (foldM_fillField_plain fuel t false (VStruct t vals) fs vals Hty Hplain [] []);
    try assumption; reflexivity.
Qed.

Lemma fromValue_leaf_same (fuel : nat) (v : any) (ft : type) :
  typeOf v = Some ft ->
  isLeafKind (TypeKind ft) = true ->
  fromValue' (S fuel) v (NewElem ft) ft = Ret (v, None).
Proof.
  intros Hty Hk.
  cbn [fromValue]. unfold fromValue_body, ValueKind, NewElem. cbn [Type_].
  destruct (TypeKind ft) eqn:E; try discriminate Hk;
    unfold ValueOf at 1; rewrite Hty; cbn [TypeOfValue bind];
    unfold Interface; cbn [flagRO flagStickyRO data bind];
    unfold ValueOf; rewrite typeOf_Zero by (rewrite E; discriminate);
    cbn [TypeOfValue bind]; rewrite type_eqb_refl;
    unfold Set_, assignTo; cbn [flagRO flagStickyRO flagAddr Type_ negb];
    rewrite type_eqb_refl; reflexivity.
Qed.

Lemma toStruct_field_plain
  (ts : any -> Value -> outcome (any * option error))
  (fuel : nat) (m : mapdata) (s : Value) (st : fillState) (i : nat)
  (f : StructField) (z z0 v : any) :
  plainField f = true ->
  FieldByName (withData s (target st)) (Name (fst f))
  = Some (mkValue (FieldType f) false true z) ->
  MapIndex m (key (Name (fst f))) = (if kept f v then Some v else None) ->
  typeOf v = Some (FieldType f) ->
  toStruct_field AssignableTo Convert ts (fromValue' (S fuel))
    (VMap tMapStringAny (Some m)) s st
    (i, mkField (Some (mkValue (FieldType f) false true z0)) f)
  = Ret (if kept f v
         then mkState (target st) (err st)
                ((i, v, FieldType f) :: modifiedFields st)
         else st).
Proof.
  intros Hplain Hval Hlook Hty.
  apply plainField_inv in Hplain.
  destruct Hplain as [Hp [Ha [Hk _]]].
  unfold toStruct_field, IsEmbedded, IsExported, Field_Kind, Field_Name.
  cbn [field fvalue fst KindOf]. rewrite Ha, Hp, Hval.
  cbn [String.eqb negb]. unfold ValueKind. cbn [Type_].
  unfold lookupName, tMapStringAny. cbn [Underlying].
  unfold assignTo. cbn [type_eqb bind]. rewrite Hlook.
  destruct (TypeKind (FieldType f)) eqn:E; try discriminate Hk;
    (destruct (kept f v); [|reflexivity];
     cbn [TypeOfValue bind Type_];
     rewrite fromValue_leaf_same by (try assumption; rewrite E; reflexivity);
     reflexivity).
Qed.

Lemma foldM_toStruct_field_plain
  (ts : any -> Value -> outcome (any * option error))
  (fuel : nat) (m : mapdata) (t : type)
  (l2 : list StructField) (v2 : list any) :
  Forall2 (fun f v =>
             typeOf v = Some (FieldType f) /\
             MapIndex m (key (Name (fst f)))
             = (if kept f v then Some v else None)) l2 v2 ->
  forallb plainField l2 = true ->
  forall (l1 : list StructField) (st : fillState),
    Underlying t = TStruct (l1 ++ l2) ->
    NoDup (names (l1 ++ l2)) ->
    target st = VStruct t (zeros (l1 ++ l2)) ->
    let s := mkValue t false true (VStruct t (zeros (l1 ++ l2))) in
    foldM (toStruct_field AssignableTo Convert ts (fromValue' (S fuel))
             (VMap tMapStringAny (Some m)) s)
          (combine (seq (List.length l1) (List.length l2)) (fieldsOf s l2)) st
    = Ret (mkState (target st) (err st)
             (rev (staged (List.length l1) (combine l2 v2)) ++ modifiedFields st)%list).
Proof.
  induction 1 as [|f v l2 v2 [Hty Hlook] Hrest IH]; intros Hplain l1 st Ht Hnd Htgt s.
  - simpl. destruct st; reflexivity.
  - simpl in Hplain. apply andb_true_iff in Hplain. destruct Hplain as [Hf Hfs].
    assert (Hp : PkgPath (fst f) = "") by (apply plainField_inv in Hf; tauto).
    assert (Hfield :
      FieldByName s (Name (fst f))
      = Some (mkValue (FieldType f) false true (Zero (FieldType f)))).
    { subst s. unfold zeros. rewrite map_app. cbn [map].
      rewrite (FieldByName_at t false true l1 l2 f _ _ _ Ht Hnd)
        by (rewrite length_map; reflexivity).
      rewrite Hp. reflexivity. }
    cbn [List.length seq fieldsOf map combine foldM]. rewrite Hfield.
    rewrite (toStruct_field_plain ts fuel m s st (List.length l1) f
               (Zero (FieldType f)) (Zero (FieldType f)) v Hf); try assumption.
    + cbn [bind].
      specialize (IH Hfs (l1 ++ [f])%list
                    (if kept f v
                     then mkState (target st) (err st)
                            ((List.length l1, v, FieldType f) :: modifiedFields st)
                     else st)).
      rewrite <- !app_assoc in IH. cbn [app] in IH.
      rewrite length_app in IH. cbn [List.length] in IH.
      rewrite Nat.add_1_r in IH. fold s in IH. fold (fieldsOf s l2).
      rewrite IH; try assumption.
      * cbn [staged combine]. destruct (kept f v); cbn [target err modifiedFields rev];
          [rewrite <- app_assoc|]; reflexivity.
      * destruct (kept f v); assumption.
    + unfold withData. subst s. cbn [Type_ flagRO flagStickyRO flagAddr]. rewrite Htgt.
      exact Hfield.
Qed.

Lemma replaceNth_app {A} (pre post : list A) (a b : A) :
  replaceNth (pre ++ a :: post) (List.length pre) b = (pre ++ b :: post)%list.
Proof. induction pre as [|c pre IH]; simpl; [reflexivity|]. rewrite IH. reflexivity. Qed.

Lemma foldM_toStruct_apply_plain (t : type)
  (l2 : list StructField) (v2 : list any) :
  Forall2 (fun f v => kept f v = false -> v = Zero (FieldType f)) l2 v2 ->
  forallb plainField l2 = true ->
  forall (l1 : list StructField) (pre : list any) (x0 : any),
    Underlying t = TStruct (l1 ++ l2) ->
    List.length pre = List.length l1 ->
    foldM (toStruct_apply AssignableTo Convert (mkValue t false true x0))
          (staged (List.length l1) (combine l2 v2))
          (VStruct t (pre ++ zeros l2))
    = Ret (VStruct t (pre ++ v2)).
Proof.
  induction 1 as [|f v l2 v2 Hzero Hrest IH]; intros Hplain l1 pre x0 Ht Hlen.
  - reflexivity.
  - simpl in Hplain. apply andb_true_iff in Hplain. destruct Hplain as [Hf Hfs].
    assert (Hp : PkgPath (fst f) = "") by (apply plainField_inv in Hf; tauto).
    specialize (IH Hfs (l1 ++ [f])%list (pre ++ [v])%list x0).
    rewrite <- !app_assoc in IH. cbn [app] in IH.
    rewrite !length_app in IH. cbn [List.length] in IH.
    rewrite !Nat.add_1_r in IH.
    cbn [combine staged zeros map]. fold (zeros l2).
    destruct (kept f v) eqn:Ek.
    + cbn [foldM]. unfold toStruct_apply at 1.
      unfold Value_Field, withData, TypeFields. cbn [Type_ data flagRO flagStickyRO flagAddr].
      rewrite Ht.
      assert (Hn1 : nth_error (l1 ++ f :: l2) (List.length l1) = Some f)
        by (rewrite nth_error_app2, Nat.sub_diag; [reflexivity | lia]).
      assert (Hn2 : nth_error (pre ++ Zero (FieldType f) :: zeros l2)
                      (List.length l1) = Some (Zero (FieldType f)))
        by (rewrite <- Hlen, nth_error_app2, Nat.sub_diag; [reflexivity | lia]).
      rewrite Hn1, Hn2. cbn [fst]. rewrite Hp. cbn [String.eqb negb orb].
      unfold Set_, assignTo. cbn [flagRO flagStickyRO flagAddr negb Type_ FieldType snd].
      rewrite type_eqb_refl. cbn [bind setField].
      rewrite <- Hlen, replaceNth_app, Hlen.
      apply IH; try assumption. lia.
    + rewrite <- (Hzero eq_refl). apply IH; try assumption. lia.
Qed.

Lemma getFields_struct (v : Value) (tagName : string) :
  ValueKind v = Kind.Struct ->
  getFields v tagName =
  Ret (map (fun f => mkField (FieldByName v (Name (fst f))) f)
         (filter (fun f => negb (String.eqb (Get (Tag (fst f)) tagName) "-"))
                 (TypeFields (Type_ v)))).
Proof.
  intros Hk. unfold getFields, derefOnce. rewrite Hk.
  cbn [TypeOfValue bind]. unfold ValueKind in Hk. rewrite Hk. reflexivity.
Qed.

Lemma toStruct_on_struct (fuel : nat) (in_ : any) (s : Value) :
  KindOf (ValueOf in_) = Kind.Map ->
  ValueKind s = Kind.Struct ->
  toStruct' (S fuel) in_ s =
  bind (getFields s DefaultTagName) (fun fields =>
  bind (foldM (toStruct_field AssignableTo Convert (toStruct' fuel) (fromValue' fuel) in_ s)
          (combine (seq 0 (List.length fields)) fields)
          (mkState (data s) None []))
       (fun st =>
          match err st with
          | None =>
              bind (foldM (toStruct_apply AssignableTo Convert s)
                      (rev (modifiedFields st)) (target st))
                   (fun x => Ret (x, None))
          | Some e => Ret (target st, Some e)
          end)).
Proof.
  intros Hmap Hk.
  cbn [toStruct]. unfold toStruct_body. rewrite Hmap, Hk.
  cbn [bind]. rewrite Hk.
  destruct in_; try discriminate Hmap; reflexivity.
Qed.

Lemma combine_app_eq {A B} (l1 l2 : list A) (v1 v2 : list B) :
  List.length l1 = List.length v1 ->
  combine (l1 ++ l2) (v1 ++ v2) = (combine l1 v1 ++ combine l2 v2)%list.
Proof.
  revert v1; induction l1 as [|a l1 IH]; intros [|b v1] H; simpl in *;
    try discriminate; [reflexivity|].
  rewrite IH by lia. reflexivity.
Qed.

Lemma map_fst_combine {A B} (l : list A) (v : list B) :
  List.length l = List.length v -> map fst (combine l v) = l.
Proof.
  revert v; induction l as [|a l IH]; intros [|b v] H; simpl in *;
    try discriminate; [reflexivity|].
  rewrite IH by lia. reflexivity.
Qed.

Lemma project_lookup (l2 : list StructField) (v2 : list any) :
  Forall2 (fun f v => typeOf v = Some (FieldType f)) l2 v2 ->
  forall (l1 : list StructField) (v1 : list any),
    List.length l1 = List.length v1 ->
    NoDup (names (l1 ++ l2)) ->
    Forall2 (fun f v =>
               typeOf v = Some (FieldType f) /\
               MapIndex (project (combine (l1 ++ l2) (v1 ++ v2)) [])
                        (key (Name (fst f)))
               = (if kept f v then Some v else None)) l2 v2.
Proof.
  induction 1 as [|f v l2 v2 Hty Hrest IH]; intros l1 v1 Hlen Hnd.
  - constructor.
  - constructor.
    + split; [exact Hty|].
      rewrite combine_app_eq by exact Hlen. cbn [combine].
      rewrite MapIndex_project_in; [reflexivity|].
      change ((f, v) :: combine l2 v2) with (combine (f :: l2) (v :: v2)).
      rewrite <- (combine_app_eq l1 (f :: l2) v1 (v :: v2)) by exact Hlen.
      rewrite map_fst_combine; [exact Hnd|].
      rewrite !length_app. cbn [List.length].
      apply Forall2_length in Hrest. lia.
    + specialize (IH (l1 ++ [f])%list (v1 ++ [v])%list).
      rewrite <- !app_assoc in IH. cbn [app] in IH.
      apply IH; [|exact Hnd]. rewrite !length_app. simpl. lia.
Qed.

Lemma kept_false_zero (f : StructField) (v : any) :
  plainField f = true -> kept f v = false -> v = Zero (FieldType f).
Proof.
  intros Hf Hk. apply plainField_inv in Hf. destruct Hf as [_ [_ [Hleaf _]]].
  unfold kept in Hk. apply negb_false_iff, andb_true_iff in Hk.
  apply DeepEqual_Zero_leaf; tauto.
Qed.

Lemma kept_false_zeros (fs : list StructField) (vals : list any) :
  Forall2 (fun f v => typeOf v = Some (FieldType f)) fs vals ->
  forallb plainField fs = true ->
  Forall2 (fun f v => kept f v = false -> v = Zero (FieldType f)) fs vals.
Proof.
  induction 1 as [|f v fs vals _ _ IH]; intros Hplain; constructor;
    simpl in Hplain; apply andb_true_iff in Hplain.
  - apply kept_false_zero. tauto.
  - apply IH. tauto.
Qed.

(** C2, as amended: for every record [x] whose fields are all plain
    (exported, not embedded, of a scalar type, with a tag under
    [DefaultTagName] that gives no name and has neither the [string] nor
    the [flatten] option) and hold values of their types: [Map(x)] returns a
    mapping, and [FillStruct] of this mapping into a pointer to a zero
    record of the type of [x] succeeds and leaves that record equal to
    [x]. *)
Theorem round_trip_plain (fuel fuel' : nat) (t : type) (x : any) :
  plainRecord t x ->
  exists m,
    pkg_Map TypeString Stringer (S (S fuel)) x = Ret (Some m)
    /\ FillStruct TypeString AssignableTo ConvertibleTo Convert (S (S fuel'))
         (VMap tMapStringAny (Some m)) (VPtr (TPtr t) (Some (Zero t)))
       = Ret x.
Proof.
  intros [fs [vals [Ht [-> [Hplain [Hnd Hty]]]]]].
  exists (project (combine fs vals) []). split.
  - apply pkg_Map_plain; assumption.
  - assert (Hk : TypeKind t = Kind.Struct)
      by (unfold TypeKind; rewrite Ht; reflexivity).
    assert (Hz : Zero t = VStruct t (zeros fs))
      by (apply Zero_at_struct; exact Ht).
    unfold FillStruct, structVal, ValueOf. rewrite Hz.
    cbn [typeOf Type_ flagRO flagStickyRO flagAddr data structVal_loop TypeKind Underlying].
    rewrite Hk. cbn [bind].
    rewrite toStruct_on_struct, getFields_struct; try reflexivity; try exact Hk.
    cbn [Type_ bind]. unfold TypeFields. rewrite Ht.
    rewrite filter_plain by exact Hplain.
    rewrite length_map.
    pose proof (project_lookup fs vals Hty [] [] eq_refl Hnd) as Hlook.
    cbn [app] in Hlook.
    pose proof (foldM_toStruct_field_plain (toStruct' (S fuel')) fuel'
               (project (combine fs vals) []) t fs vals Hlook Hplain []
               (mkState (VStruct t (zeros fs)) None []) Ht Hnd eq_refl) as Hloop.
    cbn [app List.length] in Hloop. unfold fieldsOf in Hloop.
    cbv zeta in Hloop. cbn [target err modifiedFields] in Hloop.
    match goal with
    | |- context [foldM (toStruct_field ?a ?b ?c ?d ?e ?g) ?l ?st] =>
        replace (foldM (toStruct_field a b c d e g) l st)
          with (Ret (mkState (VStruct t (zeros fs)) None
                       (rev (staged 0 (combine fs vals)) ++ [])%list))
          by (symmetry; exact Hloop)
    end. clear Hloop.
    cbn [bind err target modifiedFields List.length].
    rewrite app_nil_r, rev_involutive.
    pose proof (kept_false_zeros fs vals Hty Hplain) as Hzero.
    rewrite (foldM_toStruct_apply_plain t fs vals Hzero Hplain [] [] _ Ht eq_refl).
    reflexivity.
Qed.
End Plain.

Lemma round_trip_plain_witness :
  plainRecord tPlain plain7
  /\ exists m,
       go_Map 2 plain7 = Ret (Some m)
       /\ go_FillStruct 2 (VMap tMapStringAny (Some m))
            (VPtr (TPtr tPlain) (Some (Zero tPlain))) = Ret plain7.
Proof.
  assert (H : plainRecord tPlain plain7).
  { exists (TypeFields tPlain), [str ""; int 7; VBool TBool true].
    repeat split.
    - repeat constructor; simpl; intuition discriminate.
    - repeat constructor. }
  split; [exact H|].
  exact (round_trip_plain go_TypeString go_Stringer go_AssignableTo
           go_ConvertibleTo go_Convert 0 0 tPlain plain7 H).
Defined.

(** C2, as stated, fails: [Renamed] has no [string] or [flatten] option and
    no interface field; [Map] stores its field under the name of the tag,
    [FillStruct] looks for the name of the field, and the record filled from
    the projection of [Renamed{Name: "gopher"}] has an empty [Name].
    Likewise for [Outer{Sub: Inner{N: 1}, B: 2}]: the projection nests
    [{"N": 1}] under ["Sub"], and [FillStruct] looks for ["N"] at the top of
    the mapping. *)
Lemma round_trip_counterexample :
  go_Map 2 gopher = Ret (Some [(key "name", str "gopher")])
  /\ go_FillStruct 2 (mapStringAny [("name", str "gopher")])
       (VPtr (TPtr tRenamed) (Some (Zero tRenamed)))
     = Ret (VStruct tRenamed [str ""])
  /\ VStruct tRenamed [str ""] <> gopher
  /\ go_Map 4 (VStruct tOuter [VStruct tInner [int 1]; int 2])
     = Ret (Some [(key "Sub", mapStringAny [("N", int 1)]); (key "B", int 2)])
  /\ go_FillStruct 3
       (mapStringAny [("Sub", mapStringAny [("N", int 1)]); ("B", int 2)])
       (VPtr (TPtr tOuter) (Some (Zero tOuter)))
     = Ret (VStruct tOuter [VStruct tInner [int 0]; int 2]).
Proof.
  repeat split; try (vm_compute; reflexivity). discriminate.
Qed.


(** ** Early failures of [toStruct] *)

(** X1: a nil source and a source that is not a map are refused before the
    target is touched, with the errors "input data is nil" and "not a map";
    so is a target that is neither a pointer nor a struct, with the error
    "not a struct". *)
Lemma toStruct_early_failures
  (TypeString : type -> string)
  (AssignableTo ConvertibleTo : type -> type -> bool)
  (Convert : any -> type -> any) (fuel : nat) (in_ : any) (s : Value) :
  (in_ = VNil ->
   toStruct TypeString AssignableTo ConvertibleTo Convert (S fuel) in_ s
   = Ret (data s, Some (errorString "input data is nil")))
  /\ (in_ <> VNil -> KindOf (ValueOf in_) <> Kind.Map ->
      toStruct TypeString AssignableTo ConvertibleTo Convert (S fuel) in_ s
      = Ret (data s, Some errNotMap))
  /\ (KindOf (ValueOf in_) = Kind.Map ->
      ValueKind s <> Kind.Ptr -> ValueKind s <> Kind.Struct ->
      toStruct TypeString AssignableTo ConvertibleTo Convert (S fuel) in_ s
      = Ret (data s, Some errNotStruct)).
Proof.
  cbn [toStruct]. unfold toStruct_body. repeat split.
  - intros ->. reflexivity.
  - intros Hnil Hk. destruct in_; try congruence;
      destruct (KindOf _); try reflexivity; congruence.
  - intros Hk Hp Hs. rewrite Hk.
    destruct in_; try discriminate Hk;
      destruct (ValueKind s) eqn:E; try congruence; cbn [bind];
      rewrite E; reflexivity.
Qed.

(** ** The forward converter writes to its output only *)

Lemma keeps_refl n o h : keeps n o h h.
Proof. split; [lia | intros; left; reflexivity]. Qed.

Lemma keeps_trans n o h1 h2 h3 :
  keeps n o h1 h2 -> keeps n o h2 h3 -> keeps n o h1 h3.
Proof.
  intros [L1 K1] [L2 K2]. split; [lia|].
  intros l Hl. destruct (K1 l Hl) as [E1|[Ho [m [m' [A1 B1]]]]];
    destruct (K2 l Hl) as [E2|[Ho2 [m2 [m2' [A2 B2]]]]].
  - left. congruence.
  - right. split; [exact Ho2|]. exists m2, m2'. split; congruence.
  - right. split; [exact Ho|]. exists m, m'. split; congruence.
  - right. split; [exact Ho|]. exists m, m2'. split; congruence.
Qed.

Lemma nth_error_replaceNth_other {A} (l : list A) (i j : nat) (a : A) :
  i <> j -> nth_error (replaceNth l i a) j = nth_error l j.
Proof.
  revert i j; induction l as [|b l IH]; intros [|i] [|j] H; simpl; auto.
  - congruence.
Qed.

Lemma nth_error_replaceNth_same {A} (l : list A) (i : nat) (a b : A) :
  nth_error l i = Some b -> nth_error (replaceNth l i a) i = Some a.
Proof.
  revert i; induction l as [|c l IH]; intros [|i] H; simpl in *;
    try discriminate; auto.
Qed.

Lemma length_replaceNth {A} (l : list A) (i : nat) (a : A) :
  List.length (replaceNth l i a) = List.length l.
Proof.
  revert i; induction l as [|c l IH]; intros [|i]; simpl; auto.
Qed.

Lemma safe_ret {A} n o (a : A) : safe n o (Store.ret a).
Proof. intros h _. apply keeps_refl. Qed.

Lemma safe_lift {A} n o (c : outcome A) : safe n o (Store.lift c).
Proof. intros h _. apply keeps_refl. Qed.

Lemma safe_read {A} n o (f : Store.store -> A) : safe n o (Store.read f).
Proof. intros h _. apply keeps_refl. Qed.

Lemma safe_bind {A B} n o (c : Store.M A) (k : A -> Store.M B) :
  safe n o c -> (forall a, safe n o (k a)) -> safe n o (Store.bindM c k).
Proof.
  intros Hc Hk h Hn. unfold Store.bindM.
  specialize (Hc h Hn). destruct (c h) as [[a| |] h1]; simpl in *; try exact Hc.
  eapply keeps_trans; [exact Hc|]. apply Hk. destruct Hc. lia.
Qed.

(** A location made by [make] is not below [n]. *)
Lemma safe_bind_make {B} n o (x : Store.object) (k : Store.loc -> Store.M B) :
  (forall l, n <= l -> safe n o (k l)) -> safe n o (Store.bindM (Store.make x) k).
Proof.
  intros Hk h Hn. unfold Store.bindM, Store.make.
  eapply keeps_trans; [|apply Hk; [exact Hn | rewrite length_app; simpl; lia]].
  split; [rewrite length_app; lia|].
  intros l Hl. left. apply nth_error_app1. lia.
Qed.

Lemma safe_assignEntry n o l k v :
  o = Some l \/ n <= l -> safe n o (Store.assignEntry l k v).
Proof.
  intros Hl h Hn. unfold Store.assignEntry.
  destruct (nth_error h l) as [[x|xs|m]|] eqn:E; simpl; try apply keeps_refl.
  split; [rewrite length_replaceNth; lia|].
  intros l' Hl'. destruct (Nat.eq_dec l l') as [<-|Hne].
  - destruct Hl as [->|Hl]; [|lia].
    right. split; [reflexivity|]. exists m, (Store.SetMapIndex m k v).
    split; [exact E|]. eapply nth_error_replaceNth_same; eauto.
  - left. apply nth_error_replaceNth_other. exact Hne.
Qed.

Lemma safe_assignElem n o l i v :
  n <= l -> safe n o (Store.assignElem l i v).
Proof.
  intros Hl h Hn. unfold Store.assignElem.
  destruct (nth_error h l) as [[x|xs|m]|] eqn:E; simpl; try apply keeps_refl.
  destruct (Nat.ltb i (List.length xs)); simpl; try apply keeps_refl.
  split; [rewrite length_replaceNth; lia|].
  intros l' Hl'. left. apply nth_error_replaceNth_other. lia.
Qed.

Lemma safe_forEach {A} n o (body : A -> Store.M unit) (l : list A) :
  (forall x, safe n o (body x)) -> safe n o (Store.forEach body l).
Proof.
  intros Hb. induction l as [|x l IH]; simpl.
  - apply safe_ret.
  - apply safe_bind; [apply Hb | intros _; exact IH].
Qed.

(** What is kept with no exception is kept with one. *)
Lemma keeps_None n o h h' : keeps n None h h' -> keeps n o h h'.
Proof.
  intros [L K]. split; [exact L|]. intros l Hl.
  destruct (K l Hl) as [E|[Ho _]]; [left; exact E | discriminate Ho].
Qed.

Lemma safe_None {A} n o (c : Store.M A) : safe n None c -> safe n o c.
Proof. intros H h Hn. apply keeps_None. apply H. exact Hn. Qed.

(** An exception that is not below [n] is none. *)
Lemma safe_fresh {A} n l (c : Store.M A) :
  n <= l -> safe n (Some l) c -> safe n None c.
Proof.
  intros Hl H h Hn. destruct (H h Hn) as [L K]. split; [exact L|].
  intros l' Hl'. destruct (K l' Hl') as [E|[Ho _]]; [left; exact E|].
  inversion Ho. lia.
Qed.

Section Frame.
Variable TypeString : type -> string.
Variable Stringer : Store.store -> Store.any -> option string.

#[local] Abbreviation sFillMap := (Store.FillMap TypeString Stringer).
#[local] Abbreviation snested := (Store.nested TypeString Stringer).

Ltac safe_step :=
  first
    [ apply safe_ret | apply safe_lift | apply safe_read
    | apply safe_bind_make; intros ? ?
    | apply safe_bind; [|intros ?] ].

Lemma safe_New n o fuel x : safe n o (Store.New fuel x).
Proof.
  unfold Store.New. apply safe_bind; [|intros; apply safe_ret].
  intros h _. apply keeps_refl.
Qed.

Lemma safe_assertMapStringAny n o x : safe n o (Store.assertMapStringAny x).
Proof.
  unfold Store.assertMapStringAny.
  destruct x; try apply safe_lift.
  destruct (type_eqb t Store.tMapStringAny); [|apply safe_lift].
  destruct p; [apply safe_read | apply safe_ret].
Qed.

Lemma safe_fillField n o nested s out field :
  o = Some out \/ n <= out ->
  (forall val, safe n o (nested val)) ->
  safe n o (Store.fillField Stringer nested s out field).
Proof.
  intros Hout Hnested. unfold Store.fillField.
  destruct (parseTag _) as [tagName tagOpts].
  apply safe_bind.
  - destruct (Has tagOpts "omitempty"); repeat safe_step.
  - intros skip. destruct skip; [apply safe_ret|].
    apply safe_bind.
    + destruct (negb (Has tagOpts "omitnested")).
      * apply safe_bind; [apply Hnested|intros ?]. repeat safe_step.
      * repeat safe_step.
    + intros [finalVal isSubStruct].
      destruct (Has tagOpts "string").
      * apply safe_bind; [apply safe_lift|intros ?].
        apply safe_bind; [apply safe_read|intros [str|]];
          [apply safe_assignEntry; exact Hout | apply safe_ret].
      * destruct (isSubStruct && Has tagOpts "flatten").
        -- apply safe_bind; [apply safe_assertMapStringAny|intros m].
           apply safe_forEach. intros kv. apply safe_assignEntry; exact Hout.
        -- apply safe_assignEntry; exact Hout.
Qed.

Lemma safe_FillMap_nested (fuel : nat) :
  (forall s out n o, o = Some out \/ n <= out ->
     safe n o (sFillMap fuel s (Some out)))
  /\ (forall s val n, safe n None (snested fuel s val)).
Proof.
  induction fuel as [|fuel [IHF IHN]].
  - split; intros; apply safe_lift.
  - split.
    + intros s out n o Hout. cbn [Store.FillMap]. unfold Store.FillMap_body.
      apply safe_forEach. intros field.
      apply safe_fillField; [exact Hout|].
      intros val. apply safe_None. apply IHN.
    + intros s val n. cbn [Store.nested]. unfold Store.nested_body.
      apply safe_bind; [apply safe_lift|intros x].
      apply safe_bind; [apply safe_read|intros k].
      destruct k; try apply safe_ret.
      * (* Slice *)
        apply safe_bind; [apply safe_lift|intros vt].
        destruct (TypeKind vt); try apply safe_ret;
          (apply safe_bind; [apply safe_lift|intros e];
           apply safe_bind; [apply safe_lift|intros [|]]; [|apply safe_ret];
           apply safe_bind; [apply safe_read|intros len];
           apply safe_bind_make; intros slices Hfresh;
           apply safe_bind; [|intros _; apply safe_ret];
           apply safe_forEach; intros i;
           apply safe_bind; [apply safe_read|intros e'];
           apply safe_bind; [apply IHN|intros y];
           apply safe_assignElem; exact Hfresh).
      * (* Array *)
        apply safe_bind; [apply safe_lift|intros vt].
        destruct (TypeKind vt); try apply safe_ret;
          (apply safe_bind; [apply safe_lift|intros e];
           apply safe_bind; [apply safe_lift|intros [|]]; [|apply safe_ret];
           apply safe_bind; [apply safe_read|intros len];
           apply safe_bind_make; intros slices Hfresh;
           apply safe_bind; [|intros _; apply safe_ret];
           apply safe_forEach; intros i;
           apply safe_bind; [apply safe_read|intros e'];
           apply safe_bind; [apply IHN|intros y];
           apply safe_assignElem; exact Hfresh).
      * (* Map *)
        apply safe_bind; [apply safe_lift|intros vt].
        apply safe_bind; [apply safe_lift|intros mapElem].
        apply safe_bind; [apply safe_lift|intros [|]]; [|apply safe_ret].
        apply safe_bind; [apply safe_read|intros keys].
        apply safe_bind_make; intros m Hfresh.
        apply safe_bind; [|intros _; apply safe_ret].
        apply safe_forEach; intros k.
        apply safe_bind; [apply safe_read|intros e'].
        apply safe_bind; [apply IHN|intros y].
        apply safe_assignEntry. right. exact Hfresh.
      * (* Struct *)
        apply safe_bind; [apply safe_New|intros n0].
        apply safe_bind_make; intros m Hfresh.
        apply safe_bind; [apply IHF; right; exact Hfresh|intros _].
        apply safe_bind; [apply safe_read|intros len].
        destruct len; apply safe_ret.
Qed.

(** C9: whatever [FillMap] answers (it may panic), the store it leaves has
    every location of the store it was given, each holding what it held,
    the output mapping apart, which is still a map; [nested] leaves every
    location as it was, and so does [Map], which makes its own output
    mapping: what the forward converter writes is the output mapping and
    the maps and slices it makes. *)
Theorem FillMap_keeps_source (fuel : nat) (s : Store.Struct) (h : Store.store) :
  (forall out l o,
     nth_error h l = Some o ->
     let h' := snd (sFillMap fuel s (Some out) h) in
     nth_error h' l = Some o
     \/ (l = out /\ exists m m',
           o = Store.Bindings m /\ nth_error h' l = Some (Store.Bindings m')))
  /\ (forall val l o,
        nth_error h l = Some o ->
        nth_error (snd (snested fuel s val h)) l = Some o)
  /\ (forall l o,
        nth_error h l = Some o ->
        nth_error (snd (Store.Map TypeString Stringer fuel s h)) l = Some o).
Proof.
  destruct (safe_FillMap_nested fuel) as [HF HN].
  assert (Hlt : forall l o, nth_error h l = Some o -> l < List.length h).
  { intros l o E. apply nth_error_Some. congruence. }
  split; [|split].
  - intros out l o E h'.
    destruct (HF s out (List.length h) (Some out) (or_introl eq_refl) h (le_n _))
      as [_ K].
    destruct (K l (Hlt l o E)) as [E'|[Ho [m [m' [A B]]]]].
    + left. subst h'. exact (eq_trans E' E).
    + right. inversion Ho; subst. split; [reflexivity|].
      exists m, m'. split; [congruence | exact B].
  - intros val l o E.
    destruct (HN s val (List.length h) h (le_n _)) as [_ K].
    destruct (K l (Hlt l o E)) as [E'|[Ho _]];
      [exact (eq_trans E' E) | discriminate Ho].
  - intros l o E.
    assert (Hsafe : safe (List.length h) None (Store.Map TypeString Stringer fuel s)).
    { unfold Store.Map. apply safe_bind_make. intros out Hfresh.
      apply safe_bind; [|intros _; apply safe_ret].
      apply safe_fresh with (l := out); [exact Hfresh|].
      apply HF. left. reflexivity. }
    destruct (Hsafe h (le_n _)) as [_ K].
    destruct (K l (Hlt l o E)) as [E'|[Ho _]];
      [exact (eq_trans E' E) | discriminate Ho].
Qed.

End Frame.

Lemma FillMap_keeps_source_witness :
  let r := Store.FillMap go_TypeString (fun _ _ => None) 6 deepHandle (Some 5)
             deepStore in
  fst r = Ret tt
  /\ nth_error deepStore 4 = Some (Store.Var deep)
  /\ nth_error (snd r) 4 = Some (Store.Var deep)
  /\ nth_error (snd r) 1
     = Some (Store.Bindings [(Store.key "a", Store.VInt tInt 1)])
  /\ List.length (snd r) = 12.
Proof.
  cbv zeta. split; [vm_compute; reflexivity|]. split; [reflexivity|].
  split.
  - destruct (proj1 (FillMap_keeps_source go_TypeString (fun _ _ => None)
                       6 deepHandle deepStore) 5 4 (Store.Var deep) eq_refl)
      as [E|[E _]]; [exact E | discriminate E].
  - split; vm_compute; reflexivity.
Defined.

(** On [deepStore], the two embeddings of the forward converter agree: the
    output mapping the converter over the store leaves stands for the
    mapping [Map] returns on the value the record stands for. *)
Lemma Store_FillMap_agrees_on_deep :
  let r := Store.FillMap go_TypeString (fun _ _ => None) 6 deepHandle (Some 5)
             deepStore in
  exists d m,
    reify 5 deepStore (Store.VPtr (TPtr tDeep) (Some 4)) = Some d
    /\ go_Map 6 d = Ret (Some m)
    /\ reify 5 (snd r) (Store.VMap tMapStringAny (Some 5))
       = Some (VMap tMapStringAny (Some m))
    /\ List.length m = 4.
Proof.
  cbv zeta. eexists. eexists.
  split; [vm_compute; reflexivity|].
  split; [vm_compute; reflexivity|].
  split; vm_compute; reflexivity.
Qed.

(** ** Tags *)

(** The cases of [TestParseTag_Name] and [TestParseTag_Opts]. *)
Lemma parseTag_tests :
  fst (parseTag "") = ""
  /\ fst (parseTag "name") = "name"
  /\ fst (parseTag "name,opt") = "name"
  /\ fst (parseTag "name , opt, opt2") = "name "
  /\ fst (parseTag ", opt, opt2") = ""
  /\ Has (snd (parseTag "name")) "opt" = false
  /\ Has (snd (parseTag "name,opt")) "opt" = true
  /\ Has (snd (parseTag "name , opt, opt2")) "opt" = false
  /\ Has (snd (parseTag ",opt, opt2")) "opt" = true
  /\ Has (snd (parseTag ", opt3, opt4")) "opt" = false.
Proof. repeat split. Qed.

(** ** Atomicity at the level of the leaf fields *)

Section Atomic.
Variable TypeString : type -> string.
Variables AssignableTo ConvertibleTo : type -> type -> bool.
Variable Convert : any -> type -> any.

Lemma toStruct_field_leaf_target ts fv in_ s st i f st' :
  leafField f = true ->
  toStruct_field AssignableTo Convert ts fv in_ s st (i, f) = Ret st' ->
  target st' = target st.
Proof.
  unfold leafField, toStruct_field. intros Hleaf H.
  apply andb_true_iff in Hleaf. destruct Hleaf as [Hemb Hk].
  apply negb_true_iff in Hemb. rewrite Hemb in H.
  destruct (negb (IsExported f)); [inversion H; reflexivity|].
  simpl in Hk. apply negb_true_iff in Hk.
  destruct (Field_Kind f); try discriminate Hk;
    try (inversion H; reflexivity);
    (apply bind_Ret_inv in H; destruct H as [mapVal [_ H]];
     destruct mapVal as [v|]; [|inversion H; reflexivity];
     apply bind_Ret_inv in H; destruct H as [ft [_ H]];
     apply bind_Ret_inv in H; destruct H as [[x e] [_ H]];
     destruct e; inversion H; reflexivity).
Qed.

(** X2: when [toStruct] recurses into no field of a record (no field is
    embedded, and no exported field is of kind struct) and returns an error,
    the record is as it was: the values of the fields are staged, and
    written only when no field has failed. *)
Lemma toStruct_leaf_level_atomic (fuel : nat) (in_ : any) (s : Value)
  (fields : list Field) (x : any) (e : error) :
  KindOf (ValueOf in_) = Kind.Map ->
  ValueKind s = Kind.Struct ->
  getFields s DefaultTagName = Ret fields ->
  forallb leafField fields = true ->
  toStruct TypeString AssignableTo ConvertibleTo Convert (S fuel) in_ s
  = Ret (x, Some e) ->
  x = data s.
Proof.
  intros Hmap Hk Hfields Hleaf H.
  rewrite toStruct_on_struct, Hfields in H by assumption. cbn [bind] in H.
  apply bind_Ret_inv in H. destruct H as [st [Hloop H]].
  assert (Htgt : target st = data s).
  { revert Hloop.
    apply (foldM_invariant (fun st => target st = data s)); [|reflexivity].
    intros b [i f] b' Hin Hb Hstep.
    rewrite <- Hb. eapply toStruct_field_leaf_target; [|exact Hstep].
    apply in_combine_r in Hin.
    rewrite forallb_forall in Hleaf. apply Hleaf. exact Hin. }
  destruct (err st).
  - inversion H; subst. exact Htgt.
  - apply bind_Ret_inv in H. destruct H as [y [_ H]]. discriminate H.
Qed.
End Atomic.

Lemma toStruct_early_failures_witness :
  go_toStruct 1 VNil (addressable tPlain plain7)
  = Ret (plain7, Some (errorString "input data is nil"))
  /\ go_toStruct 1 (int 1) (addressable tPlain plain7)
     = Ret (plain7, Some errNotMap)
  /\ go_toStruct 1 (mapStringAny []) (addressable tInt (int 1))
     = Ret (int 1, Some errNotStruct).
Proof.
  split; [|split].
  - apply (proj1 (toStruct_early_failures go_TypeString go_AssignableTo
                    go_ConvertibleTo go_Convert 0 VNil
                    (addressable tPlain plain7))).
    reflexivity.
  - apply (proj1 (proj2 (toStruct_early_failures go_TypeString go_AssignableTo
                           go_ConvertibleTo go_Convert 0 (int 1)
                           (addressable tPlain plain7))));
      discriminate.
  - apply (proj2 (proj2 (toStruct_early_failures go_TypeString go_AssignableTo
                           go_ConvertibleTo go_Convert 0 (mapStringAny [])
                           (addressable tInt (int 1)))));
      [reflexivity | discriminate | discriminate].
Defined.

Lemma toStruct_leaf_level_atomic_witness :
  let m := mapStringAny [("A", int 5); ("L", str "x")] in
  let x := VStruct tList [int 1; VSlice (TSlice tInt) None] in
  go_toStruct 3 m (addressable tList x)
  = Ret (x, Some (joinError [errorString "not a slice:(L)"]))
  /\ x = data (addressable tList x).
Proof.
  cbv zeta. split; [reflexivity|].
  apply (toStruct_leaf_level_atomic go_TypeString go_AssignableTo
           go_ConvertibleTo go_Convert 2
           (mapStringAny [("A", int 5); ("L", str "x")])
           (addressable tList (VStruct tList [int 1; VSlice (TSlice tInt) None]))
           [mkField (Some (mkValue tInt false true (int 1)))
                    (exportedField "A" "" tInt);
            mkField (Some (mkValue (TSlice tInt) false true
                             (VSlice (TSlice tInt) None)))
                    (exportedField "L" "" (TSlice tInt))]
           _ (joinError [errorString "not a slice:(L)"]));
    reflexivity.
Defined.

(** ** Handles *)

Lemma structVal_loop_shape :
  forall (x : any) (t : type) (ro addr : bool),
    structVal_loop t ro addr x = Panic "not struct"
    \/ exists v, structVal_loop t ro addr x = Ret v
                 /\ ValueKind v = Kind.Struct.
Proof.
  fix IH 1. intros x t ro addr.
  destruct x as [|t0 b|t0 z|t0 s0|t0 [p|]|t0 l|t0 l|t0 m|t0 l];
    cbn [structVal_loop];
    destruct (TypeKind t) eqn:Ek; auto;
    try (right; eexists; split; [reflexivity | exact Ek]);
    destruct (Underlying t); auto.
Qed.

(** X3: [New(s)] returns a handle on a struct, with [s] as its original and
    the default tag name, for every [s] that [IsStruct] accepts; and for any
    [s] at all, [New(s)] either returns a handle whose value is of kind
    struct or panics with "not struct". *)
Theorem New_IsStruct (s : any) :
  (IsStruct s = true ->
   exists n, New s = Ret n /\ raw n = s /\ TagName n = DefaultTagName
             /\ ValueKind (value n) = Kind.Struct)
  /\ (New s = Panic "not struct"
      \/ exists n, New s = Ret n /\ raw n = s /\ ValueKind (value n) = Kind.Struct).
Proof.
  split.
  - unfold IsStruct, New, structVal, derefOnce, ValueOf.
    destruct (typeOf s) as [t|] eqn:Et; [|discriminate].
    cbn [Type_ flagRO flagStickyRO flagAddr data]. unfold ValueKind at 1. cbn [Type_].
    intros H.
    assert (Hs : exists v, structVal_loop t false false s = Ret v
                           /\ ValueKind v = Kind.Struct).
    { destruct (TypeKind t) eqn:Ek;
        try (unfold ValueKind in H; cbn [Type_] in H; rewrite Ek in H;
             discriminate H).
      - unfold Elem in H. cbn [Type_ data flagRO flagStickyRO] in H.
        destruct (Underlying t) as [| | | |elem|e|n e|k e|fs|n u] eqn:Eu;
          try discriminate H.
        destruct s as [|t0 b|t0 z|t0 s0|t0 [p|]|t0 l|t0 l|t0 m|t0 l];
          try discriminate H.
        unfold ValueKind in H. cbn [Type_] in H.
        destruct (TypeKind elem) eqn:Ee; try discriminate H.
        destruct p; cbn [structVal_loop]; rewrite Ek, Eu; cbn [structVal_loop];
          rewrite Ee; eexists; split; try reflexivity; exact Ee.
      - destruct s; cbn [structVal_loop]; rewrite Ek;
          eexists; split; try reflexivity; exact Ek. }
    destruct Hs as [v [E Hk]]. rewrite E. cbn [bind].
    eexists. repeat split. exact Hk.
  - unfold New, structVal.
    destruct (ValueOf s) as [v|]; [|left; reflexivity].
    destruct (structVal_loop_shape (data v) (Type_ v) (flagRO v) (flagAddr v))
      as [E|[v' [E Hk]]]; rewrite E; cbn [bind]; [left; reflexivity|].
    right. eexists. repeat split. exact Hk.
Qed.

Lemma New_IsStruct_witness :
  let p := VPtr (TPtr tInner) (Some (VStruct tInner [int 1])) in
  let pp := VPtr (TPtr (TPtr tInner)) (Some p) in
  IsStruct p = true
  /\ (exists n, New p = Ret n /\ raw n = p /\ TagName n = DefaultTagName
                /\ ValueKind (value n) = Kind.Struct)
  /\ IsStruct pp = false
  /\ New pp
     = Ret (mkStruct pp (mkValue tInner false true (VStruct tInner [int 1]))
              DefaultTagName)
  /\ New (VPtr (TPtr tInner) None) = Panic "not struct"
  /\ New VNil = Panic "not struct".
Proof.
  cbv zeta. split; [reflexivity|]. split.
  - apply (proj1 (New_IsStruct (VPtr (TPtr tInner) (Some (VStruct tInner [int 1]))))).
    reflexivity.
  - repeat split.
Defined.

(** ** The forward converter: the keys it leaves alone *)

Lemma MapIndex_SetMapIndex_other (m : mapdata) (name : string) (v q : any) :
  q <> key name ->
  MapIndex (SetMapIndex m (key name) v) q = MapIndex m q.
Proof.
  intros Hq.
  assert (Hk : value_eqb (key name) q = false).
  { destruct (value_eqb (key name) q) eqn:E; [|reflexivity].
    apply value_eqb_key in E. contradiction. }
  induction m as [|[k0 v0] m IH]; cbn [SetMapIndex MapIndex].
  - rewrite Hk. reflexivity.
  - destruct (value_eqb k0 (key name)) eqn:E; cbn [MapIndex].
    + apply value_eqb_key_l in E. subst k0. rewrite Hk. reflexivity.
    + rewrite IH. reflexivity.
Qed.

Lemma fillField_other_key Stringer nested s out field out' q :
  hasOption s field "flatten" = false ->
  q <> key (outputName s field) ->
  fillField Stringer nested s out field = Ret out' ->
  MapIndex out' q = MapIndex out q.
Proof.
  unfold fillField, hasOption, outputName, tagOf. intros Hf Hq H.
  destruct (parseTag _) as [tagName tagOpts]. simpl in Hf, Hq.
  inv_bind H. destruct a; [inversion H; subst; reflexivity|].
  inv_bind H. destruct a as [finalVal isSubStruct].
  rewrite Hf, andb_false_r in H.
  destruct (Has tagOpts "string").
  - inv_bind H. destruct (Stringer a); inversion H; subst; auto.
    apply MapIndex_SetMapIndex_other; exact Hq.
  - inversion H; subst. apply MapIndex_SetMapIndex_other; exact Hq.
Qed.

(** X4: [FillMap] given a nil mapping returns at once, the mapping still
    nil.  Given a mapping, it removes no key; and when no field of the field
    set has the [flatten] option, a key that is the key of none of these
    fields keeps the value it had. *)
Theorem FillMap_keeps_keys
  (TypeString : type -> string) (Stringer : any -> option string)
  (fuel : nat) (s : Struct) :
  FillMap TypeString Stringer (S fuel) s None = Ret None
  /\ forall out r,
       FillMap TypeString Stringer fuel s (Some out) = Ret r ->
       exists out',
         r = Some out'
         /\ (forall q, hasKey out q -> hasKey out' q)
         /\ (forall q,
               (forall field, In field (structFields s) ->
                  hasOption s field "flatten" = false
                  /\ q <> key (outputName s field)) ->
               MapIndex out' q = MapIndex out q).
Proof.
  split; [reflexivity|].
  intros out r H.
  apply FillMap_Ret_inv in H. destruct H as [fuel' [out' [-> [-> H]]]].
  exists out'. split; [reflexivity|]. split.
  - intros q Hq.
    eapply (foldM_invariant (fun m => hasKey m q)); [ | exact Hq | exact H ].
    intros b x b' _ Hb Hstep. eapply fillField_keeps_keys; eauto.
  - intros q Hq.
    eapply (foldM_invariant (fun m => MapIndex m q = MapIndex out q));
      [ | reflexivity | exact H ].
    intros b x b' Hin Hb Hstep. rewrite <- Hb.
    destruct (Hq x Hin) as [Hf Hne].
    eapply fillField_other_key; eauto.
Qed.

Lemma FillMap_keeps_keys_witness :
  let x := VStruct tInner [int 1] in
  let s := mkStruct x (mkValue tInner false false x) DefaultTagName in
  let out' := [(key "old", int 0); (key "N", int 1)] in
  FillMap go_TypeString go_Stringer 2 s (Some [(key "old", int 0)])
  = Ret (Some out')
  /\ hasKey out' (key "old")
  /\ MapIndex out' (key "old") = Some (int 0).
Proof.
  cbv zeta. split; [reflexivity|].
  destruct (proj2 (FillMap_keeps_keys go_TypeString go_Stringer 2
                     (mkStruct (VStruct tInner [int 1])
                        (mkValue tInner false false (VStruct tInner [int 1]))
                        DefaultTagName))
              [(key "old", int 0)] _ eq_refl) as [out' [E [H1 H2]]].
  inversion E; subst out'. split.
  - apply H1. vm_compute. discriminate.
  - rewrite H2; [reflexivity|].
    intros field [<-|[]]. split; [reflexivity | vm_compute; discriminate].
Defined.

Lemma hasKey_project (l : list (StructField * any)) (out : mapdata) (q : any) :
  hasKey (project l out) q ->
  hasKey out q \/ exists fv, In fv l /\ kept (fst fv) (snd fv) = true
                             /\ q = key (Name (fst (fst fv))).
Proof.
  unfold project. revert out.
  induction l as [|[f v] l IH]; cbn [fold_left fst snd]; intros out H; [auto|].
  apply IH in H. destruct H as [H|[fv [Hin H]]].
  - destruct (kept f v) eqn:Ek; [|auto].
    apply hasKey_SetMapIndex_inv in H. destruct H as [->|H]; [|auto].
    right. exists (f, v). simpl. auto.
  - right. exists fv. simpl. tauto.
Qed.

(** X5: for a record whose fields are all plain, with pairwise different
    names, [Map] returns a mapping that binds the name of each field to the
    value of the field, except that a field with the [omitempty] option
    whose value is the zero value has no key; and the mapping has no other
    key. *)
Theorem Map_plain_lookup
  (TypeString : type -> string) (Stringer : any -> option string)
  (fuel : nat) (t : type) (fs : list StructField) (vals : list any) :
  Underlying t = TStruct fs ->
  forallb plainField fs = true ->
  NoDup (names fs) ->
  Forall2 (fun f v => typeOf v = Some (FieldType f)) fs vals ->
  exists m,
    pkg_Map TypeString Stringer (S (S fuel)) (VStruct t vals) = Ret (Some m)
    /\ Forall2 (fun f v =>
                  MapIndex m (key (Name (fst f)))
                  = if kept f v then Some v else None) fs vals
    /\ forall q, hasKey m q ->
         exists f v, In (f, v) (combine fs vals) /\ kept f v = true
                     /\ q = key (Name (fst f)).
Proof.
  intros Ht Hplain Hnd Hty.
  exists (project (combine fs vals) []). split; [|split].
  - apply pkg_Map_plain; assumption.
  - pose proof (project_lookup fs vals Hty [] [] eq_refl Hnd) as H.
    cbn [app] in H.
    eapply Forall2_impl; [|exact H]. intros f v [_ E]. exact E.
  - intros q Hq. apply hasKey_project in Hq.
    destruct Hq as [Hq|[[f v] [Hin [Hk ->]]]].
    + exfalso. apply Hq. reflexivity.
    + exists f, v. auto.
Qed.

Lemma Map_plain_lookup_witness :
  exists m,
    go_Map 2 plain7 = Ret (Some m)
    /\ MapIndex m (key "Name") = None
    /\ MapIndex m (key "ID") = Some (int 7)
    /\ MapIndex m (key "Enabled") = Some (VBool TBool true).
Proof.
  destruct (Map_plain_lookup go_TypeString go_Stringer 0 tPlain
              (TypeFields tPlain) [str ""; int 7; VBool TBool true])
    as [m [E [H _]]].
  - reflexivity.
  - reflexivity.
  - repeat constructor; simpl; intuition discriminate.
  - repeat constructor.
  - exists m. split; [exact E|].
    inversion H as [|f1 v1 l1 w1 H1 T1]; subst.
    inversion T1 as [|f2 v2 l2 w2 H2 T2]; subst.
    inversion T2 as [|f3 v3 l3 w3 H3 T3]; subst.
    repeat split; assumption.
Defined.

(** ** The zero value of a struct type *)

Lemma distinct_NoDup (l : list string) : distinct l = true -> NoDup l.
Proof.
  induction l as [|a l IH]; simpl; intros H; constructor;
    apply andb_true_iff in H; destruct H as [Ha Hl]; [|auto].
  intros Hin. apply negb_true_iff in Ha.
  assert (E : existsb (String.eqb a) l = true)
    by (apply existsb_exists; exists a; split; [exact Hin | apply String.eqb_refl]).
  congruence.
Qed.

Lemma distinctFields_struct (fs : list StructField) :
  distinctFields (TStruct fs) = true ->
  NoDup (names fs) /\ Forall (fun f => distinctFields (snd f) = true) fs.
Proof.
  cbn [distinctFields]. rewrite andb_true_iff. intros [Hd Hall].
  split; [apply distinct_NoDup; exact Hd|].
  clear Hd. induction fs as [|[h ft] fs IH]; constructor;
    apply andb_true_iff in Hall; [tauto | apply IH; tauto].
Qed.

Lemma distinctFields_Underlying (t : type) :
  distinctFields t = true -> distinctFields (Underlying t) = true.
Proof. induction t; simpl; auto. Qed.

Lemma DeepEqual_Zero_at (t full : type) :
  DeepEqual (Zero_at full t) (Zero_at full t) = true.
Proof.
  revert full. induction t using type_nested_ind; intros full; simpl;
    rewrite ?type_eqb_refl; try reflexivity; auto.
  - (* arrays *)
    induction n as [|n IHn]; simpl; [reflexivity|].
    rewrite IHt. exact IHn.
  - (* structs *)
    induction H as [|[h ft] fs Hft Hfs IH]; simpl; [reflexivity|].
    simpl in Hft. rewrite Hft. exact IH.
Qed.

Lemma rangeUntil_all {A R} (body : A -> outcome (option R)) (l : list A) (d : R) :
  (forall x, In x l -> body x = Ret None) -> rangeUntil body l d = Ret d.
Proof.
  induction l as [|x l IH]; intros H; simpl; [reflexivity|].
  rewrite H by (left; reflexivity). simpl. apply IH.
  intros y Hy. apply H. right. exact Hy.
Qed.

Lemma kind_Underlying (full t : type) :
  Underlying full = Underlying t -> TypeKind full = TypeKind t.
Proof. unfold TypeKind. intros ->. reflexivity. Qed.

Lemma IsStruct_Zero (ft : type) :
  IsStruct (Zero ft) = Kind_eqb (TypeKind ft) Kind.Struct.
Proof.
  unfold IsStruct, ValueOf.
  destruct (TypeKind ft) eqn:Ek;
    try (rewrite typeOf_Zero by (rewrite Ek; discriminate);
         unfold derefOnce, ValueKind; cbn [Type_]; rewrite Ek;
         try (unfold ValueKind; cbn [Type_]; rewrite Ek); reflexivity).
  - (* interface *)
    assert (E : Zero ft = VNil).
    { unfold Zero. generalize ft at 1. unfold TypeKind in Ek.
      induction ft; intros full; simpl in *; try discriminate; auto. }
    rewrite E. reflexivity.
  - (* pointer *)
    rewrite typeOf_Zero by (rewrite Ek; discriminate).
    unfold derefOnce, ValueKind; cbn [Type_]; rewrite Ek.
    assert (E : Zero ft = VPtr ft None).
    { unfold Zero. generalize ft at 1 3. unfold TypeKind in Ek.
      induction ft; intros full; simpl in *; try discriminate; auto. }
    unfold Elem. cbn [data]. rewrite E.
    destruct (Underlying (Type_ _)); reflexivity.
Qed.

Lemma New_Zero_struct (t : type) :
  TypeKind t = Kind.Struct -> New (Zero t) = Ret (handle t (Zero t)).
Proof.
  intros Hk. unfold New, structVal, ValueOf.
  rewrite typeOf_Zero by (rewrite Hk; discriminate).
  cbn [Type_ flagRO flagStickyRO flagAddr data].
  destruct (Zero t); cbn [structVal_loop]; rewrite Hk; reflexivity.
Qed.

Lemma IsZero_Zero_bound (fs : list StructField) :
  Forall (fun f : FieldHead * type =>
            forall full, Underlying full = Underlying (snd f) ->
              distinctFields (snd f) = true ->
              TypeKind (snd f) = Kind.Struct ->
              exists N, forall fuel, N <= fuel ->
                IsZero fuel (handle full (Zero full)) = Ret true) fs ->
  exists N, forall f, In f fs ->
    distinctFields (snd f) = true -> TypeKind (snd f) = Kind.Struct ->
    forall fuel, N <= fuel ->
      IsZero fuel (handle (snd f) (Zero (snd f))) = Ret true.
Proof.
  induction 1 as [|f fs Hf _ [N IH]].
  - exists 0. intros f [].
  - destruct (Bool.bool_dec (distinctFields (snd f)) true) as [Hd|Hd];
      [destruct (Kind_eqb (TypeKind (snd f)) Kind.Struct) eqn:Ek|].
    + assert (Hk : TypeKind (snd f) = Kind.Struct)
        by (destruct (TypeKind (snd f)); try discriminate Ek; reflexivity).
      destruct (Hf (snd f) eq_refl Hd Hk) as [M HM].
      exists (Nat.max M N). intros g [<-|Hg] Hgd Hgk fuel Hfuel.
      * apply HM. lia.
      * apply IH; try assumption. lia.
    + exists N. intros g [<-|Hg] Hgd Hgk fuel Hfuel.
      * rewrite Hgk in Ek. discriminate Ek.
      * apply IH; assumption.
    + exists N. intros g [<-|Hg] Hgd Hgk fuel Hfuel.
      * contradiction.
      * apply IH; assumption.
Qed.

Lemma IsZero_Zero_at :
  forall t full,
    Underlying full = Underlying t ->
    distinctFields t = true ->
    TypeKind t = Kind.Struct ->
    exists N, forall fuel, N <= fuel ->
      IsZero fuel (handle full (Zero full)) = Ret true.
Proof.
  induction t using type_nested_ind; intros full Hu Hd Hk;
    try discriminate Hk.
  - (* a struct type *)
    cbn [Underlying] in Hu.
    apply distinctFields_struct in Hd. destruct Hd as [Hnd Hall].
    apply IsZero_Zero_bound in H. destruct H as [N HN].
    exists (S N). intros [|fuel] Hfuel; [lia|].
    cbn [IsZero]. apply rangeUntil_all. intros f Hin.
    unfold structFields, handle in Hin. cbn [value Type_ TagName] in Hin.
    unfold TypeFields in Hin. rewrite Hu in Hin.
    apply filter_In in Hin. destruct Hin as [Hin Hel].
    apply andb_true_iff in Hel. destruct Hel as [Hp _].
    apply String.eqb_eq in Hp.
    destruct (in_split f fs Hin) as [l1 [l2 Hsplit]].
    assert (Hval :
      FieldByName (value (handle full (Zero full))) (Name (fst f))
      = Some (mkValue (FieldType f) false false (Zero (FieldType f)))).
    { unfold handle. cbn [value]. unfold Zero at 1.
      rewrite (Zero_at_struct full full fs Hu).
      rewrite Hsplit, map_app. cbn [map].
      rewrite (FieldByName_at full false false l1 l2 f);
        [rewrite Hp; reflexivity | rewrite Hu, Hsplit; reflexivity
         | rewrite <- Hsplit; exact Hnd | rewrite length_map; reflexivity]. }
    rewrite Hval.
    destruct (parseTag _) as [tagName tagOpts].
    cbn [InterfaceOf Interface flagRO flagStickyRO data bind TypeOfValue Type_].
    rewrite IsStruct_Zero.
    assert (Hzero : negb (DeepEqual (Zero (FieldType f)) (Zero (FieldType f)))
                    = false)
      by (unfold Zero; rewrite DeepEqual_Zero_at; reflexivity).
    destruct (Kind_eqb (TypeKind (FieldType f)) Kind.Struct) eqn:Ek;
      [destruct (Has tagOpts "omitnested")|];
      cbn [andb negb]; try (rewrite Hzero; reflexivity).
    assert (Hfk : TypeKind (FieldType f) = Kind.Struct)
      by (destruct (TypeKind (FieldType f)); try discriminate Ek; reflexivity).
    rewrite New_Zero_struct by exact Hfk. cbn [bind].
    rewrite (HN f Hin); [reflexivity | | exact Hfk | lia].
    rewrite Forall_forall in Hall. apply Hall. exact Hin.
  - (* a named type *)
    apply (IHt full); assumption.
Qed.

(** X6: the zero value of a struct type is a zero record: for every type [t]
    of kind struct (whose struct types have fields of pairwise different
    names) there is a recursion budget from which on [IsZero] returns true
    on the zero value of [t]. *)
Theorem IsZero_Zero (t : type) :
  TypeKind t = Kind.Struct ->
  distinctFields t = true ->
  exists N, forall fuel, N <= fuel -> pkg_IsZero fuel (Zero t) = Ret true.
Proof.
  intros Hk Hd.
  destruct (IsZero_Zero_at t t eq_refl Hd Hk) as [N HN].
  exists N. intros fuel Hfuel. unfold pkg_IsZero.
  rewrite New_Zero_struct by exact Hk. cbn [bind]. apply HN. exact Hfuel.
Qed.

Lemma IsZero_Zero_witness :
  TypeKind tOuter = Kind.Struct /\ distinctFields tOuter = true
  /\ exists N, forall fuel, N <= fuel -> pkg_IsZero fuel (Zero tOuter) = Ret true.
Proof.
  split; [reflexivity|]. split; [reflexivity|].
  exact (IsZero_Zero tOuter eq_refl eq_refl).
Defined.

(** ** Records without a nested record *)

Lemma rangeUntil_forallb {A} (body : A -> outcome (option bool))
  (p : A -> bool) (l : list A) :
  (forall x, In x l -> body x = Ret (if p x then None else Some false)) ->
  rangeUntil body l true = Ret (forallb p l).
Proof.
  induction l as [|x l IH]; intros H; simpl; [reflexivity|].
  rewrite H by (left; reflexivity).
  destruct (p x); simpl; [|reflexivity].
  apply IH. intros y Hy. apply H. right. exact Hy.
Qed.

Lemma rangeUntil_existsb {A} (body : A -> outcome (option bool))
  (p : A -> bool) (l : list A) :
  (forall x, In x l -> body x = Ret (if p x then Some true else None)) ->
  rangeUntil body l false = Ret (existsb p l).
Proof.
  induction l as [|x l IH]; intros H; simpl; [reflexivity|].
  rewrite H by (left; reflexivity).
  destruct (p x); simpl; [reflexivity|].
  apply IH. intros y Hy. apply H. right. exact Hy.
Qed.

(** The value of the field [f] of a record, looked up by name. *)
Lemma FieldByName_In (t : type) (ro addr : bool) (fs : list StructField)
  (vals : list any) (f : StructField) (v : any) :
  Underlying t = TStruct fs ->
  NoDup (names fs) ->
  In (f, v) (combine fs vals) ->
  FieldByName (mkValue t ro addr (VStruct t vals)) (Name (fst f))
  = Some (MkValue (FieldType f)
                  (ro || negb (String.eqb (PkgPath (fst f)) "")) addr v
                  (ro || (negb (String.eqb (PkgPath (fst f)) "")
                          && negb (Anonymous (fst f))))).
Proof.
  intros Ht Hnd Hin.
  assert (Hsplit : exists l1 l2 v1 v2,
             fs = (l1 ++ f :: l2)%list /\ vals = (v1 ++ v :: v2)%list
             /\ List.length l1 = List.length v1).
  { clear Ht Hnd. revert vals Hin.
    induction fs as [|g fs IH]; intros [|w vals] Hin; simpl in Hin;
      try contradiction.
    destruct Hin as [E|Hin].
    - inversion E; subst. exists [], fs, [], vals. auto.
    - destruct (IH vals Hin) as [l1 [l2 [v1 [v2 [-> [-> Hlen]]]]]].
      exists (g :: l1), l2, (w :: v1), v2. simpl. auto. }
  destruct Hsplit as [l1 [l2 [v1 [v2 [-> [-> Hlen]]]]]].
  apply (FieldByName_at t ro addr l1 l2 f v1 v2 v); assumption.
Qed.

(** The fields of the field set of a record, paired with their values. *)
Lemma structFields_eligible (t : type) (fs : list StructField)
  (vals : list any) (x : any) (v : Value) :
  Type_ v = t -> Underlying t = TStruct fs ->
  List.length fs = List.length vals ->
  structFields (mkStruct x v DefaultTagName)
  = map fst (eligibleFields fs vals).
Proof.
  intros Hv Ht Hlen. unfold structFields, eligibleFields, TypeFields.
  cbn [value TagName]. rewrite Hv, Ht. clear Hv Ht.
  revert vals Hlen. induction fs as [|f fs IH]; intros [|w vals] Hlen;
    simpl in *; try discriminate; [reflexivity|].
  destruct (String.eqb (PkgPath (fst f)) ""
            && negb (String.eqb (Get (Tag (fst f)) DefaultTagName) "-"));
    simpl; rewrite (IH vals) by lia; reflexivity.
Qed.

Lemma New_struct (t : type) (vals : list any) :
  TypeKind t = Kind.Struct ->
  New (VStruct t vals) = Ret (handle t (VStruct t vals)).
Proof.
  intros Hk. unfold New, structVal, ValueOf.
  cbn [typeOf Type_ flagRO flagStickyRO flagAddr data structVal_loop]. rewrite Hk.
  reflexivity.
Qed.

Lemma rangeUntil_map {A B R} (h : A -> B) (body : B -> outcome (option R))
  (l : list A) (d : R) :
  rangeUntil body (map h l) d = rangeUntil (fun a => body (h a)) l d.
Proof.
  induction l as [|a l IH]; simpl; [reflexivity|].
  destruct (body (h a)) as [[r|]| |]; simpl; auto.
Qed.

(** X7: on a record in which [IsZero] and [HasZero] enter no field (no
    field of the field set holds a struct or a pointer to a struct, unless
    it has the [omitnested] option), [IsZero] says whether every field of
    the field set holds the zero value of its type, and [HasZero] whether
    one of them does.  Hence, when the field set is not empty, a record that
    [IsZero] accepts is one that [HasZero] accepts. *)
Theorem IsZero_HasZero_flat (fuel : nat) (t : type) (fs : list StructField)
  (vals : list any) :
  Underlying t = TStruct fs ->
  NoDup (names fs) ->
  List.length fs = List.length vals ->
  existsb entered (eligibleFields fs vals) = false ->
  pkg_IsZero (S fuel) (VStruct t vals)
  = Ret (forallb isZeroValue (eligibleFields fs vals))
  /\ pkg_HasZero (S fuel) (VStruct t vals)
     = Ret (existsb isZeroValue (eligibleFields fs vals))
  /\ (eligibleFields fs vals <> [] ->
      pkg_IsZero (S fuel) (VStruct t vals) = Ret true ->
      pkg_HasZero (S fuel) (VStruct t vals) = Ret true).
Proof.
  intros Ht Hnd Hlen Hflat.
  assert (Hk : TypeKind t = Kind.Struct)
    by (unfold TypeKind; rewrite Ht; reflexivity).
  assert (Hbody : forall fv, In fv (eligibleFields fs vals) ->
            FieldByName (value (handle t (VStruct t vals))) (Name (fst (fst fv)))
            = Some (mkValue (FieldType (fst fv)) false false (snd fv))
            /\ entered fv = false).
  { intros [f v] Hin. split.
    - unfold eligibleFields in Hin. apply filter_In in Hin.
      destruct Hin as [Hin Hel]. cbn [fst snd] in *.
      apply andb_true_iff in Hel. destruct Hel as [Hp _].
      unfold handle. cbn [value].
      rewrite (FieldByName_In t false false fs vals f v Ht Hnd Hin).
      rewrite Hp. reflexivity.
    - destruct (entered (f, v)) eqn:E; [|reflexivity].
      assert (existsb entered (eligibleFields fs vals) = true)
        by (apply existsb_exists; eauto).
      congruence. }
  assert (Hsf : structFields (handle t (VStruct t vals))
                = map fst (eligibleFields fs vals))
    by (apply (structFields_eligible t fs vals);
        [reflexivity | exact Ht | exact Hlen]).
  assert (HI : pkg_IsZero (S fuel) (VStruct t vals)
               = Ret (forallb isZeroValue (eligibleFields fs vals))).
  { unfold pkg_IsZero. rewrite New_struct by exact Hk. cbn [bind IsZero].
    rewrite Hsf.
    rewrite rangeUntil_map. apply rangeUntil_forallb.
    intros fv Hin. destruct (Hbody fv Hin) as [Hval Hent].
    cbv beta. rewrite Hval. unfold handle. cbn [TagName].
    unfold entered in Hent.
    destruct (parseTag _) as [tagName tagOpts]. cbn [snd] in Hent.
    cbn [InterfaceOf Interface flagRO flagStickyRO data bind TypeOfValue Type_].
    rewrite Hent. unfold isZeroValue.
    destruct (DeepEqual _ _); reflexivity. }
  assert (HH : pkg_HasZero (S fuel) (VStruct t vals)
               = Ret (existsb isZeroValue (eligibleFields fs vals))).
  { unfold pkg_HasZero. rewrite New_struct by exact Hk. cbn [bind HasZero].
    rewrite Hsf.
    rewrite rangeUntil_map. apply rangeUntil_existsb.
    intros fv Hin. destruct (Hbody fv Hin) as [Hval Hent].
    cbv beta. rewrite Hval. unfold handle. cbn [TagName].
    unfold entered in Hent.
    destruct (parseTag _) as [tagName tagOpts]. cbn [snd] in Hent.
    cbn [InterfaceOf Interface flagRO flagStickyRO data bind TypeOfValue Type_].
    rewrite Hent. unfold isZeroValue.
    destruct (DeepEqual _ _); reflexivity. }
  split; [exact HI|]. split; [exact HH|].
  intros Hne. rewrite HI, HH. intros E. injection E as E'.
  clear - Hne E'.
  destruct (eligibleFields fs vals) as [|fv l]; [contradiction|].
  simpl in *. apply andb_true_iff in E'. destruct E' as [E1 _].
  rewrite E1. reflexivity.
Qed.

Lemma IsZero_HasZero_flat_witness :
  pkg_IsZero 1 (Zero tPlain) = Ret true
  /\ pkg_HasZero 1 (Zero tPlain) = Ret true
  /\ pkg_IsZero 1 plain7 = Ret false
  /\ pkg_HasZero 1 plain7 = Ret true.
Proof.
  destruct (IsZero_HasZero_flat 0 tPlain (TypeFields tPlain)
              [str ""; int 0; VBool TBool false])
    as [HI [HH _]];
    [reflexivity | repeat constructor; simpl; intuition discriminate
     | reflexivity | reflexivity |].
  destruct (IsZero_HasZero_flat 0 tPlain (TypeFields tPlain)
              [str ""; int 7; VBool TBool true])
    as [HI' [HH' _]];
    [reflexivity | repeat constructor; simpl; intuition discriminate
     | reflexivity | reflexivity |].
  split; [exact HI|]. split; [exact HH|]. split; [exact HI' | exact HH'].
Defined.

(** ** Fields of interface type *)

Section InterfaceField.
Variable TypeString : type -> string.
Variables AssignableTo ConvertibleTo : type -> type -> bool.
Variable Convert : any -> type -> any.

Lemma Join_Some_l (a : error) (b : option error) : Join (Some a) b <> None.
Proof. destruct b; discriminate. Qed.

Lemma Join_Some_r (a : option error) (b : error) : Join a (Some b) <> None.
Proof. destruct a; discriminate. Qed.

(** An error met by the loop of [toStruct] is not forgotten. *)
Lemma toStruct_field_keeps_err ts fv in_ s st ifield st' :
  toStruct_field AssignableTo Convert ts fv in_ s st ifield = Ret st' ->
  err st <> None -> err st' <> None.
Proof.
  destruct ifield as [i f]. unfold toStruct_field. intros H Herr.
  assert (Hrec :
    forall r,
      match FieldByName (withData s (target st)) (Field_Name f) with
      | Some val =>
          '(x, e) <- ts in_ val ;;
          Ret (mkState
                 match fieldIndex (TypeFields (Type_ s)) (Field_Name f) with
                 | Some j => setField (target st) j x
                 | None => target st
                 end
                 match e with
                 | Some _ => Join (err st) e
                 | None => err st
                 end (modifiedFields st))
      | None =>
          Ret (mkState (target st) (Join (err st) (Some errNotStruct))
                 (modifiedFields st))
      end = Ret r -> err r <> None).
  { intros r Hr. destruct (FieldByName _ _).
    - apply bind_Ret_inv in Hr. destruct Hr as [[x e] [_ Hr]].
      inversion Hr; subst. cbn [err].
      destruct e; [|exact Herr].
      destruct (err st); [apply Join_Some_l | contradiction].
    - inversion Hr; subst. apply Join_Some_r. }
  destruct (IsEmbedded f); [apply Hrec; exact H|].
  destruct (negb (IsExported f)); [inversion H; subst; exact Herr|].
  destruct (Field_Kind f); try (apply Hrec; exact H);
    try (inversion H; subst; apply Join_Some_r);
    (apply bind_Ret_inv in H; destruct H as [mapVal [_ H]];
     destruct mapVal as [v|]; [|inversion H; subst; exact Herr];
     apply bind_Ret_inv in H; destruct H as [ft [_ H]];
     apply bind_Ret_inv in H; destruct H as [[x e] [_ H]];
     destruct e; inversion H; subst; [apply Join_Some_r | exact Herr]).
Qed.

Lemma In_combine_seq {A} (l : list A) (a : A) (k : nat) :
  In a l -> exists i, In (i, a) (combine (seq k (List.length l)) l).
Proof.
  revert k; induction l as [|b l IH]; intros k Hin; [contradiction|].
  destruct Hin as [->|Hin].
  - exists k. left. reflexivity.
  - destruct (IH (S k) Hin) as [i Hi]. exists i. right. exact Hi.
Qed.

(** X8: a record with an exported, not embedded field of interface type
    (that the tag ["-"] does not leave out) cannot be filled: whatever the
    source, [toStruct] does not return without an error, and [FillStruct]
    does not return. *)
Theorem toStruct_interface_field (fuel : nat) (in_ : any) (s : Value)
  (fields : list Field) (f : Field) :
  ValueKind s = Kind.Struct ->
  getFields s DefaultTagName = Ret fields ->
  In f fields ->
  IsEmbedded f = false -> IsExported f = true ->
  Field_Kind f = Kind.Interface ->
  (forall x e,
     toStruct TypeString AssignableTo ConvertibleTo Convert fuel in_ s
     = Ret (x, e) -> e <> None)
  /\ (forall sp y,
        structVal sp = Ret s ->
        FillStruct TypeString AssignableTo ConvertibleTo Convert fuel in_ sp
        <> Ret y).
Proof.
  intros Hk Hfields Hin Hemb Hexp Hkind.
  assert (Hmain : forall x e,
     toStruct TypeString AssignableTo ConvertibleTo Convert fuel in_ s
     = Ret (x, e) -> e <> None).
  { intros x e H. destruct fuel as [|fuel']; [discriminate H|].
    destruct (Kind_eqb (KindOf (ValueOf in_)) Kind.Map) eqn:Emap.
    - assert (Hmap : KindOf (ValueOf in_) = Kind.Map)
        by (destruct (KindOf (ValueOf in_)); try discriminate Emap; reflexivity).
      rewrite toStruct_on_struct, Hfields in H by assumption. cbn [bind] in H.
      apply bind_Ret_inv in H. destruct H as [st [Hloop H]].
      assert (Herr : err st <> None).
      { destruct (In_combine_seq fields f 0 Hin) as [i Hi].
        apply in_split in Hi. destruct Hi as [l1 [l2 Hsplit]].
        rewrite Hsplit, foldM_app in Hloop.
        apply bind_Ret_inv in Hloop. destruct Hloop as [st1 [_ Hloop]].
        cbn [foldM] in Hloop.
        apply bind_Ret_inv in Hloop. destruct Hloop as [st2 [Hstep Hloop]].
        assert (H2 : err st2 <> None).
        { unfold toStruct_field in Hstep.
          rewrite Hemb, Hexp, Hkind in Hstep. cbn [negb] in Hstep.
          inversion Hstep; subst. apply Join_Some_r. }
        revert Hloop. apply (foldM_invariant (fun st => err st <> None));
          [|exact H2].
        intros b y b' _ Hb Hstep'.
        eapply toStruct_field_keeps_err; eauto. }
      destruct (err st) as [e0|]; [|contradiction].
      inversion H; subst. discriminate.
    - cbn [toStruct] in H. unfold toStruct_body in H.
      destruct in_; try (inversion H; subst; discriminate);
        destruct (KindOf _); try discriminate Emap;
        inversion H; subst; discriminate. }
  split; [exact Hmain|].
  intros sp y Hsp H. unfold FillStruct in H. rewrite Hsp in H. cbn [bind] in H.
  apply bind_Ret_inv in H. destruct H as [[x e] [Hts H]].
  apply Hmain in Hts. destruct e; [discriminate H | contradiction].
Qed.

End InterfaceField.

Lemma toStruct_interface_field_witness :
  go_toStruct 1 (mapStringAny [("V", int 1)]) (addressable tBox (Zero tBox))
  = Ret (Zero tBox,
         Some (joinError [errorString "interface not supported:(V)"]))
  /\ Some (joinError [errorString "interface not supported:(V)"]) <> None.
Proof.
  split; [reflexivity|].
  apply (proj1 (toStruct_interface_field go_TypeString go_AssignableTo
                  go_ConvertibleTo go_Convert 1
                  (mapStringAny [("V", int 1)]) (addressable tBox (Zero tBox))
                  [mkField (Some (mkValue TInterface false true VNil))
                           (exportedField "V" "" TInterface)]
                  (mkField (Some (mkValue TInterface false true VNil))
                           (exportedField "V" "" TInterface))
                  eq_refl eq_refl (or_introl eq_refl) eq_refl eq_refl eq_refl)
           (Zero tBox)).
  reflexivity.
Defined.

(** ** Filling a flat record *)

Lemma flatField_inv (f : StructField) :
  flatField f = true ->
  PkgPath (fst f) = "" /\ Anonymous (fst f) = false
  /\ isLeafKind (TypeKind (FieldType f)) = true
  /\ String.eqb (Get (Tag (fst f)) DefaultTagName) "-" = false.
Proof.
  unfold flatField. rewrite !andb_true_iff, !negb_true_iff, !String.eqb_eq.
  tauto.
Qed.

Lemma filter_flat (fs : list StructField) :
  forallb flatField fs = true ->
  filter (fun f => negb (String.eqb (Get (Tag (fst f)) DefaultTagName) "-")) fs
  = fs.
Proof.
  induction fs as [|f fs IH]; simpl; [reflexivity|].
  rewrite andb_true_iff. intros [Hf Hfs].
  apply flatField_inv in Hf. destruct Hf as [_ [_ [_ Hd]]].
  rewrite Hd. simpl. rewrite IH by exact Hfs. reflexivity.
Qed.

Lemma In_combine_l {A B} (l : list A) (l' : list B) (a : A) :
  List.length l = List.length l' -> In a l -> exists b, In (a, b) (combine l l').
Proof.
  revert l'; induction l as [|x l IH]; intros [|y l'] Hlen Hin;
    simpl in *; try discriminate; try contradiction.
  destruct Hin as [->|Hin]; [exists y; auto|].
  destruct (IH l' ltac:(lia) Hin) as [b Hb]. exists b. auto.
Qed.

Section FlatFill.
Variable TypeString : type -> string.
Variables AssignableTo ConvertibleTo : type -> type -> bool.
Variable Convert : any -> type -> any.

#[local] Abbreviation toStruct_ :=
  (toStruct TypeString AssignableTo ConvertibleTo Convert).
#[local] Abbreviation fromValue_ :=
  (fromValue TypeString AssignableTo ConvertibleTo Convert).
#[local] Abbreviation fillingOf_ :=
  (fillingOf TypeString AssignableTo ConvertibleTo Convert).

(** The default branch of [fromValue], for a fresh slot of a scalar type. *)
Lemma fromValue_leaf (fuel : nat) (v : any) (ft : type) :
  isLeafKind (TypeKind ft) = true ->
  fromValue_ (S fuel) v (NewElem ft) ft =
  match typeOf v with
  | None => Panic "reflect: call of reflect.Value.Type on zero Value"
  | Some vt =>
      match coerce AssignableTo ConvertibleTo Convert v vt ft with
      | Some y => Ret (y, None)
      | None => Ret (Zero ft, Some (mismatch TypeString vt ft))
      end
  end.
Proof.
  intros Hleaf.
  assert (Hni : TypeKind ft <> Kind.Interface)
    by (intros E; rewrite E in Hleaf; discriminate).
  cbn [fromValue]. unfold fromValue_body, ValueKind, NewElem. cbn [Type_].
  assert (Hdefault :
    forall (A : Type) (a b c d e f : A),
      match TypeKind ft with
      | Kind.Ptr => a | Kind.Struct => b | Kind.Slice => c
      | Kind.Map => d | Kind.Array => e | _ => f
      end = f).
  { intros. destruct (TypeKind ft); try discriminate; reflexivity. }
  rewrite Hdefault. clear Hdefault.
  unfold ValueOf at 1. destruct (typeOf v) as [vt|]; [|reflexivity].
  cbn [TypeOfValue bind].
  unfold Interface. cbn [flagRO flagStickyRO data bind].
  unfold ValueOf. rewrite typeOf_Zero by exact Hni. cbn [TypeOfValue bind].
  unfold Set_, assignTo, coerce, mismatch. cbn [flagRO flagStickyRO flagAddr Type_ negb].
  destruct (type_eqb vt ft) eqn:Heq; [reflexivity|].
  destruct (AssignableTo vt ft) eqn:Has; cbn [orb].
  - destruct (TypeKind ft) eqn:Hk; try discriminate; reflexivity.
  - destruct (ConvertibleTo vt ft); [|reflexivity].
    rewrite type_eqb_refl. reflexivity.
Qed.

Lemma toStruct_field_flat
  (ts : any -> Value -> outcome (any * option error))
  (fuel : nat) (m : mapdata) (s : Value) (st : fillState) (i : nat)
  (f : StructField) (a a0 : bool) (z z0 : any) :
  flatField f = true ->
  FieldByName (withData s (target st)) (Name (fst f))
  = Some (mkValue (FieldType f) false a z) ->
  toStruct_field AssignableTo Convert ts (fromValue_ (S fuel))
    (VMap tMapStringAny (Some m)) s st
    (i, mkField (Some (mkValue (FieldType f) false a0 z0)) f)
  = match fillingOf_ m f with
    | Kept => Ret st
    | Stored y =>
        Ret (mkState (target st) (err st)
               ((i, y, FieldType f) :: modifiedFields st))
    | Refused e =>
        Ret (mkState (target st) (Join (err st) (Some e)) (modifiedFields st))
    | Panics => Panic "reflect: call of reflect.Value.Type on zero Value"
    end.
Proof.
  intros Hflat Hval.
  apply flatField_inv in Hflat. destruct Hflat as [Hp [Ha [Hk _]]].
  unfold toStruct_field, IsEmbedded, IsExported, Field_Kind, Field_Name.
  cbn [field fvalue fst KindOf]. rewrite Ha, Hp, Hval.
  cbn [String.eqb negb]. unfold ValueKind. cbn [Type_].
  unfold lookupName, tMapStringAny. cbn [Underlying].
  unfold assignTo. cbn [type_eqb bind]. unfold fillingOf.
  destruct (TypeKind (FieldType f)) eqn:E; try discriminate Hk;
    (destruct (MapIndex m (key (Name (fst f)))) as [v|]; [|reflexivity];
     cbn [TypeOfValue bind Type_];
     rewrite fromValue_leaf by (rewrite E; reflexivity);
     destruct (typeOf v) as [vt|]; [|reflexivity];
     destruct (coerce _ _ _ _ _ _); reflexivity).
Qed.

(** The first loop of [toStruct] over flat fields. *)
Lemma foldM_toStruct_field_flat
  (ts : any -> Value -> outcome (any * option error))
  (fuel : nat) (m : mapdata) (t : type) (a : bool) (vals : list any)
  (l2 : list StructField) :
  forallb flatField l2 = true ->
  (forall f, In f l2 -> fillingOf_ m f <> Panics) ->
  forall (l1 : list StructField) (st : fillState),
    Underlying t = TStruct (l1 ++ l2) ->
    NoDup (names (l1 ++ l2)) ->
    List.length (l1 ++ l2) = List.length vals ->
    target st = VStruct t vals ->
    let s := mkValue t false a (VStruct t vals) in
    foldM (toStruct_field AssignableTo Convert ts (fromValue_ (S fuel))
             (VMap tMapStringAny (Some m)) s)
          (combine (seq (List.length l1) (List.length l2)) (fieldsOf s l2)) st
    = Ret (mkState (target st)
             (errorsOf TypeString AssignableTo ConvertibleTo Convert m l2 (err st))
             (rev (stagedFrom TypeString AssignableTo ConvertibleTo Convert
                     (List.length l1) m l2)
              ++ modifiedFields st)%list).
Proof.
  induction l2 as [|f l2 IH]; intros Hflat Hnp l1 st Ht Hnd Hlen Htgt s.
  - simpl. destruct st; reflexivity.
  - simpl in Hflat. apply andb_true_iff in Hflat. destruct Hflat as [Hf Hfs].
    assert (Hp : PkgPath (fst f) = "") by (apply flatField_inv in Hf; tauto).
    assert (Hfield : exists z,
      FieldByName s (Name (fst f))
      = Some (mkValue (FieldType f) false a z)).
    { destruct (In_combine_l (l1 ++ f :: l2) vals f Hlen) as [z Hz].
      - apply in_or_app. right. left. reflexivity.
      - exists z. subst s.
        rewrite (FieldByName_In t false a (l1 ++ f :: l2) vals f z Ht Hnd Hz).
        rewrite Hp. reflexivity. }
    destruct Hfield as [z Hfield].
    cbn [List.length seq fieldsOf map combine foldM]. rewrite Hfield.
    rewrite (toStruct_field_flat ts fuel m s st (List.length l1) f a a z z Hf)
      by (unfold withData; subst s; cbn [Type_ flagRO flagStickyRO flagAddr];
          rewrite Htgt; exact Hfield).
    assert (Hnpf : fillingOf_ m f <> Panics) by (apply Hnp; left; reflexivity).
    assert (Hrest : forall st1,
      target st1 = VStruct t vals ->
      foldM (toStruct_field AssignableTo Convert ts (fromValue_ (S fuel))
               (VMap tMapStringAny (Some m)) s)
            (combine (seq (S (List.length l1)) (List.length l2)) (fieldsOf s l2))
            st1
      = Ret (mkState (target st1)
               (errorsOf TypeString AssignableTo ConvertibleTo Convert m l2 (err st1))
               (rev (stagedFrom TypeString AssignableTo ConvertibleTo Convert
                       (S (List.length l1)) m l2)
                ++ modifiedFields st1)%list)).
    { intros st1 Htgt1.
      specialize (IH Hfs (fun g Hg => Hnp g (or_intror Hg))
                    (l1 ++ [f])%list st1).
      rewrite <- !app_assoc in IH. cbn [app] in IH.
      rewrite (length_app l1 [f]) in IH. cbn [List.length] in IH.
      rewrite Nat.add_1_r in IH. apply IH; assumption. }
    unfold errorsOf. cbn [fold_left stagedFrom].
    destruct (fillingOf_ m f) as [|y|e|]; [| | |contradiction]; cbn [bind].
    + rewrite Hrest by exact Htgt. reflexivity.
    + rewrite Hrest by exact Htgt. cbn [target err modifiedFields rev].
      rewrite <- app_assoc. reflexivity.
    + rewrite Hrest by exact Htgt. reflexivity.
Qed.

(** The second loop of [toStruct] over the values staged for flat fields. *)
Lemma foldM_toStruct_apply_flat (m : mapdata) (t : type) (x0 : any)
  (l2 : list StructField) :
  forallb flatField l2 = true ->
  forall (v2 : list any) (l1 : list StructField) (pre : list any),
    Underlying t = TStruct (l1 ++ l2) ->
    List.length pre = List.length l1 ->
    List.length l2 = List.length v2 ->
    foldM (toStruct_apply AssignableTo Convert (mkValue t false true x0))
          (stagedFrom TypeString AssignableTo ConvertibleTo Convert
             (List.length l1) m l2)
          (VStruct t (pre ++ v2))
    = Ret (VStruct t
             (pre ++ filled TypeString AssignableTo ConvertibleTo Convert
                       m l2 v2)).
Proof.
  induction l2 as [|f l2 IH]; intros Hflat [|v v2] l1 pre Ht Hlen Hlen2;
    try discriminate Hlen2.
  - reflexivity.
  - simpl in Hflat. apply andb_true_iff in Hflat. destruct Hflat as [Hf Hfs].
    assert (Hp : PkgPath (fst f) = "") by (apply flatField_inv in Hf; tauto).
    unfold filled. cbn [combine map stagedFrom fst snd].
    fold (filled TypeString AssignableTo ConvertibleTo Convert m l2 v2).
    assert (Hkeep : forall w,
      foldM (toStruct_apply AssignableTo Convert (mkValue t false true x0))
            (stagedFrom TypeString AssignableTo ConvertibleTo Convert
               (S (List.length l1)) m l2)
            (VStruct t (pre ++ w :: v2))
      = Ret (VStruct t
               (pre ++ w :: filled TypeString AssignableTo ConvertibleTo Convert
                              m l2 v2))).
    { intros w. specialize (IH Hfs v2 (l1 ++ [f])%list (pre ++ [w])%list).
      rewrite <- !app_assoc in IH. cbn [app] in IH.
      rewrite !length_app in IH. cbn [List.length] in IH.
      rewrite !Nat.add_1_r in IH.
      apply IH; [exact Ht | lia | simpl in Hlen2; lia]. }
    destruct (fillingOf_ m f) as [|y|e|]; try apply Hkeep.
    cbn [foldM]. unfold toStruct_apply at 1.
    unfold Value_Field, withData, TypeFields. cbn [Type_ data flagRO flagStickyRO flagAddr].
    rewrite Ht.
    assert (Hn1 : nth_error (l1 ++ f :: l2) (List.length l1) = Some f)
      by (rewrite nth_error_app2, Nat.sub_diag; [reflexivity | lia]).
    assert (Hn2 : nth_error (pre ++ v :: v2) (List.length l1) = Some v)
      by (rewrite <- Hlen, nth_error_app2, Nat.sub_diag; [reflexivity | lia]).
    rewrite Hn1, Hn2. cbn [fst]. rewrite Hp. cbn [String.eqb negb orb].
    unfold Set_, assignTo. cbn [flagRO flagStickyRO flagAddr negb Type_ FieldType snd].
    rewrite type_eqb_refl. cbn [bind setField].
    rewrite <- Hlen, replaceNth_app, Hlen.
    apply Hkeep.
Qed.

(** X9: for a record whose fields are all flat, with pairwise different
    names, and a source mapping that binds the name of no field to nil:
    when every value bound to the name of a field can be stored in the
    field, [toStruct] returns no error and leaves the record with these
    values stored (the value itself when its type is the type of the field,
    the value converted when its type is assignable or convertible to it),
    every other field as it was; otherwise it returns the errors of the
    fields that refuse their value, joined, and leaves the record as it
    was. *)
Theorem toStruct_flat (fuel : nat) (m : mapdata) (t : type)
  (fs : list StructField) (vals : list any) :
  Underlying t = TStruct fs ->
  forallb flatField fs = true ->
  NoDup (names fs) ->
  List.length fs = List.length vals ->
  (forall f, In f fs -> fillingOf_ m f <> Panics) ->
  toStruct_ (S (S fuel)) (VMap tMapStringAny (Some m))
    (addressable t (VStruct t vals))
  = Ret (match errorsOf TypeString AssignableTo ConvertibleTo Convert m fs None with
         | None =>
             (VStruct t (filled TypeString AssignableTo ConvertibleTo Convert
                           m fs vals), None)
         | Some e => (VStruct t vals, Some e)
         end).
Proof.
  intros Ht Hflat Hnd Hlen Hnp.
  assert (Hk : ValueKind (addressable t (VStruct t vals)) = Kind.Struct)
    by (unfold ValueKind, TypeKind; simpl; rewrite Ht; reflexivity).
  rewrite toStruct_on_struct, getFields_struct by (try reflexivity; exact Hk).
  unfold addressable at 1 2. cbn [Type_ bind]. unfold TypeFields. rewrite Ht.
  rewrite filter_flat by exact Hflat. rewrite length_map.
  pose proof (foldM_toStruct_field_flat (toStruct_ (S fuel)) fuel m t true vals
                fs Hflat Hnp [] (mkState (VStruct t vals) None [])
                Ht Hnd Hlen eq_refl) as Hloop.
  cbn [app List.length] in Hloop. unfold fieldsOf in Hloop.
  cbv zeta in Hloop. cbn [target err modifiedFields] in Hloop.
  unfold addressable.
  match goal with
  | |- context [foldM (toStruct_field ?a ?b ?c ?d ?e ?g) ?l ?st] =>
      replace (foldM (toStruct_field a b c d e g) l st)
        with (Ret (mkState (VStruct t vals)
                     (errorsOf TypeString AssignableTo ConvertibleTo Convert
                        m fs None)
                     (rev (stagedFrom TypeString AssignableTo ConvertibleTo
                             Convert 0 m fs) ++ [])%list))
        by (symmetry; exact Hloop)
  end. clear Hloop.
  cbn [bind err target modifiedFields].
  destruct (errorsOf _ _ _ _ _ _ _) as [e|]; [reflexivity|].
  rewrite app_nil_r, rev_involutive.
  pose proof (foldM_toStruct_apply_flat m t (VStruct t vals) fs Hflat vals
                [] [] Ht eq_refl Hlen) as Happ.
  cbn [app List.length] in Happ. rewrite Happ. reflexivity.
Qed.

End FlatFill.

Lemma toStruct_flat_witness :
  go_toStruct 2 (mapStringAny [("ID", VInt (TInt I8) 100); ("Other", int 1)])
    (addressable tPlain plain7)
  = Ret (VStruct tPlain [str ""; int 100; VBool TBool true], None)
  /\ go_toStruct 2 (mapStringAny [("ID", str "x"); ("Enabled", VBool TBool false)])
       (addressable tPlain plain7)
     = Ret (plain7,
            Some (joinError
                    [errorString "type mismatch: int and string are incompatible:(ID)"])).
Proof.
  assert (Hnd : NoDup (names (TypeFields tPlain)))
    by (repeat constructor; simpl; intuition discriminate).
  split; unfold go_toStruct, mapStringAny, plain7; cbn [map fst snd];
    rewrite (toStruct_flat go_TypeString go_AssignableTo go_ConvertibleTo
               go_Convert 0 _ tPlain (TypeFields tPlain)
               [str ""; int 7; VBool TBool true] eq_refl eq_refl Hnd eq_refl);
    try reflexivity;
    intros f [<-|[<-|[<-|[]]]]; vm_compute; discriminate.
Defined.

(** ** Embedded fields *)



Section Embedded.
Variable TypeString : type -> string.
Variables AssignableTo ConvertibleTo : type -> type -> bool.
Variable Convert : any -> type -> any.

#[local] Abbreviation toStruct_e :=
  (toStruct TypeString AssignableTo ConvertibleTo Convert).
#[local] Abbreviation fromValue_e :=
  (fromValue TypeString AssignableTo ConvertibleTo Convert).
#[local] Abbreviation fillingOf_e :=
  (fillingOf TypeString AssignableTo ConvertibleTo Convert).
#[local] Abbreviation filled_e :=
  (filled TypeString AssignableTo ConvertibleTo Convert).
#[local] Abbreviation errorsOf_e :=
  (errorsOf TypeString AssignableTo ConvertibleTo Convert).
#[local] Abbreviation stagedFrom_e :=
  (stagedFrom TypeString AssignableTo ConvertibleTo Convert).














End Embedded.



(** ** A nil value for a scalar field *)

Section FlatPanics.
Variable TypeString : type -> string.
Variables AssignableTo ConvertibleTo : type -> type -> bool.
Variable Convert : any -> type -> any.

#[local] Abbreviation toStruct_' :=
  (toStruct TypeString AssignableTo ConvertibleTo Convert).
#[local] Abbreviation fromValue_' :=
  (fromValue TypeString AssignableTo ConvertibleTo Convert).
#[local] Abbreviation fillingOf_' :=
  (fillingOf TypeString AssignableTo ConvertibleTo Convert).

Lemma foldM_toStruct_field_panics
  (ts : any -> Value -> outcome (any * option error))
  (fuel : nat) (m : mapdata) (t : type) (a : bool) (vals : list any)
  (l2 : list StructField) :
  forallb flatField l2 = true ->
  (exists f, In f l2 /\ fillingOf_' m f = Panics) ->
  forall (l1 : list StructField) (st : fillState),
    Underlying t = TStruct (l1 ++ l2) ->
    NoDup (names (l1 ++ l2)) ->
    List.length (l1 ++ l2) = List.length vals ->
    target st = VStruct t vals ->
    let s := mkValue t false a (VStruct t vals) in
    foldM (toStruct_field AssignableTo Convert ts (fromValue_' (S fuel))
             (VMap tMapStringAny (Some m)) s)
          (combine (seq (List.length l1) (List.length l2)) (fieldsOf s l2)) st
    = Panic "reflect: call of reflect.Value.Type on zero Value".
Proof.
  induction l2 as [|f l2 IH]; intros Hflat Hex l1 st Ht Hnd Hlen Htgt s.
  - destruct Hex as [f [[] _]].
  - simpl in Hflat. apply andb_true_iff in Hflat. destruct Hflat as [Hf Hfs].
    assert (Hp : PkgPath (fst f) = "") by (apply flatField_inv in Hf; tauto).
    assert (Hfield : exists z,
      FieldByName s (Name (fst f))
      = Some (mkValue (FieldType f) false a z)).
    { destruct (In_combine_l (l1 ++ f :: l2) vals f Hlen) as [z Hz].
      - apply in_or_app. right. left. reflexivity.
      - exists z. subst s.
        rewrite (FieldByName_In t false a (l1 ++ f :: l2) vals f z Ht Hnd Hz).
        rewrite Hp. reflexivity. }
    destruct Hfield as [z Hfield].
    cbn [List.length seq fieldsOf map combine foldM]. rewrite Hfield.
    rewrite (toStruct_field_flat TypeString AssignableTo ConvertibleTo Convert
               ts fuel m s st (List.length l1) f a a z z Hf)
      by (unfold withData; subst s; cbn [Type_ flagRO flagStickyRO flagAddr];
          rewrite Htgt; exact Hfield).
    assert (Hrest : forall st1,
      fillingOf_' m f <> Panics ->
      target st1 = VStruct t vals ->
      foldM (toStruct_field AssignableTo Convert ts (fromValue_' (S fuel))
               (VMap tMapStringAny (Some m)) s)
            (combine (seq (S (List.length l1)) (List.length l2)) (fieldsOf s l2))
            st1
      = Panic "reflect: call of reflect.Value.Type on zero Value").
    { intros st1 Hne Htgt1.
      assert (Hex' : exists g, In g l2 /\ fillingOf_' m g = Panics).
      { destruct Hex as [g [[<-|Hg] Eg]]; [contradiction | eauto]. }
      specialize (IH Hfs Hex' (l1 ++ [f])%list st1).
      rewrite <- !app_assoc in IH. cbn [app] in IH.
      rewrite (length_app l1 [f]) in IH. cbn [List.length] in IH.
      rewrite Nat.add_1_r in IH. apply IH; assumption. }
    destruct (fillingOf_' m f) as [|y|e|]; cbn [bind]; try reflexivity;
      apply Hrest; try discriminate; exact Htgt.
Qed.

(** X10: for a record whose fields are all flat, with pairwise different
    names: when the source mapping binds the name of a field to nil,
    [toStruct] panics (in [reflect], taking the type of the nil value),
    instead of returning an error. *)
Theorem toStruct_flat_nil_value (fuel : nat) (m : mapdata) (t : type)
  (fs : list StructField) (vals : list any) :
  Underlying t = TStruct fs ->
  forallb flatField fs = true ->
  NoDup (names fs) ->
  List.length fs = List.length vals ->
  (exists f, In f fs /\ MapIndex m (key (Name (fst f))) = Some VNil) ->
  toStruct_' (S (S fuel)) (VMap tMapStringAny (Some m))
    (addressable t (VStruct t vals))
  = Panic "reflect: call of reflect.Value.Type on zero Value".
Proof.
  intros Ht Hflat Hnd Hlen [f [Hin Hnil]].
  assert (Hk : ValueKind (addressable t (VStruct t vals)) = Kind.Struct)
    by (unfold ValueKind, TypeKind; simpl; rewrite Ht; reflexivity).
  rewrite toStruct_on_struct, getFields_struct by (try reflexivity; exact Hk).
  unfold addressable at 1 2. cbn [Type_ bind]. unfold TypeFields. rewrite Ht.
  rewrite filter_flat by exact Hflat. rewrite length_map.
  assert (Hex : exists f, In f fs /\ fillingOf_' m f = Panics).
  { exists f. split; [exact Hin|]. unfold fillingOf. rewrite Hnil. reflexivity. }
  pose proof (foldM_toStruct_field_panics (toStruct_' (S fuel)) fuel m t true
                vals fs Hflat Hex [] (mkState (VStruct t vals) None [])
                Ht Hnd Hlen eq_refl) as Hloop.
  cbn [app List.length] in Hloop. unfold fieldsOf in Hloop.
  cbv zeta in Hloop. unfold addressable.
  match goal with
  | |- context [foldM (toStruct_field ?a ?b ?c ?d ?e ?g) ?l ?st] =>
      replace (foldM (toStruct_field a b c d e g) l st)
        with (@Panic fillState
                "reflect: call of reflect.Value.Type on zero Value")
        by (symmetry; exact Hloop)
  end.
  reflexivity.
Qed.

End FlatPanics.

Lemma toStruct_flat_nil_value_witness :
  go_toStruct 2 (mapStringAny [("ID", VNil)]) (addressable tPlain plain7)
  = Panic "reflect: call of reflect.Value.Type on zero Value".
Proof.
  unfold go_toStruct, mapStringAny, plain7. cbn [map fst snd].
  apply (toStruct_flat_nil_value go_TypeString go_AssignableTo go_ConvertibleTo
           go_Convert 0 _ tPlain (TypeFields tPlain)
           [str ""; int 7; VBool TBool true] eq_refl eq_refl);
    [repeat constructor; simpl; intuition discriminate | reflexivity |].
  exists (exportedField "ID" "" tInt). split; [simpl; auto | reflexivity].
Defined.

(** ** A record passed by value *)

Section ByValue.
Variable TypeString : type -> string.
Variables AssignableTo ConvertibleTo : type -> type -> bool.
Variable Convert : any -> type -> any.

#[local] Abbreviation toStruct_'' :=
  (toStruct TypeString AssignableTo ConvertibleTo Convert).
#[local] Abbreviation fillingOf_'' :=
  (fillingOf TypeString AssignableTo ConvertibleTo Convert).
#[local] Abbreviation stagedFrom_ :=
  (stagedFrom TypeString AssignableTo ConvertibleTo Convert).
#[local] Abbreviation errorsOf_ :=
  (errorsOf TypeString AssignableTo ConvertibleTo Convert).

Lemma stagedFrom_bounds (m : mapdata) (l : list StructField) :
  forall k0 k y ft,
    In (k, y, ft) (stagedFrom_ k0 m l) -> k0 <= k < k0 + List.length l.
Proof.
  induction l as [|f l IH]; intros k0 k y ft Hin; [contradiction|].
  cbn [stagedFrom] in Hin. cbn [List.length].
  assert (Hrest : In (k, y, ft) (stagedFrom_ (S k0) m l) ->
                  k0 <= k < k0 + S (List.length l))
    by (intros H; apply IH in H; lia).
  destruct (fillingOf_'' m f); try (apply Hrest; exact Hin).
  destruct Hin as [E|Hin]; [inversion E; subst; lia | apply Hrest; exact Hin].
Qed.

Lemma errorsOf_no_refusal (m : mapdata) (l : list StructField)
  (e : option error) :
  (forall f, In f l -> forall e', fillingOf_'' m f <> Refused e') ->
  errorsOf_ m l e = e.
Proof.
  unfold errorsOf. revert e. induction l as [|f l IH]; intros e H;
    cbn [fold_left]; [reflexivity|].
  rewrite IH by (intros g Hg; apply H; right; exact Hg).
  destruct (fillingOf_'' m f) eqn:E; try reflexivity.
  exfalso. apply (H f (or_introl eq_refl) e0). exact E.
Qed.

Lemma stagedFrom_nil (m : mapdata) (l : list StructField) (k : nat) :
  (forall f, In f l -> forall y, fillingOf_'' m f <> Stored y) ->
  stagedFrom_ k m l = [].
Proof.
  revert k. induction l as [|f l IH]; intros k H; cbn [stagedFrom];
    [reflexivity|].
  rewrite IH by (intros g Hg; apply H; right; exact Hg).
  destruct (fillingOf_'' m f) eqn:E; try reflexivity.
  exfalso. apply (H f (or_introl eq_refl) y). exact E.
Qed.

Lemma stagedFrom_cons (m : mapdata) (l : list StructField) (k : nat) :
  (exists f y, In f l /\ fillingOf_'' m f = Stored y) ->
  exists a rest, stagedFrom_ k m l = a :: rest.
Proof.
  revert k. induction l as [|f l IH]; intros k [g [y [Hin E]]];
    [contradiction|].
  cbn [stagedFrom].
  destruct (fillingOf_'' m f) eqn:Ef; try (eexists; eexists; reflexivity);
    (destruct Hin as [<-|Hin]; [congruence|]; apply IH; eauto).
Qed.

(** X11: [FillStruct] on a record passed by value, not through a pointer.
    For a record whose fields are all flat, with pairwise different names,
    and a source mapping in which every value bound to the name of a field
    can be stored in the field: when there is such a value, [FillStruct]
    panics ([reflect] refuses to set a value that is not addressable); when
    there is none, it returns and the record is as it was. *)
Theorem FillStruct_by_value (fuel : nat) (m : mapdata) (t : type)
  (fs : list StructField) (vals : list any) :
  Underlying t = TStruct fs ->
  forallb flatField fs = true ->
  NoDup (names fs) ->
  List.length fs = List.length vals ->
  (forall f, In f fs ->
     fillingOf_'' m f = Kept \/ exists y, fillingOf_'' m f = Stored y) ->
  ((exists f y, In f fs /\ fillingOf_'' m f = Stored y) ->
   FillStruct TypeString AssignableTo ConvertibleTo Convert (S (S fuel))
     (VMap tMapStringAny (Some m)) (VStruct t vals)
   = Panic "reflect: reflect.Value.Set using unaddressable value")
  /\ ((forall f, In f fs -> fillingOf_'' m f = Kept) ->
      FillStruct TypeString AssignableTo ConvertibleTo Convert (S (S fuel))
        (VMap tMapStringAny (Some m)) (VStruct t vals)
      = Ret (VStruct t vals)).
Proof.
  intros Ht Hflat Hnd Hlen Hfill.
  assert (Hkt : TypeKind t = Kind.Struct)
    by (unfold TypeKind; rewrite Ht; reflexivity).
  assert (Hnp : forall f, In f fs -> fillingOf_'' m f <> Panics).
  { intros f Hin. destruct (Hfill f Hin) as [E|[y E]]; rewrite E; discriminate. }
  assert (Hnr : forall f, In f fs -> forall e', fillingOf_'' m f <> Refused e').
  { intros f Hin e'. destruct (Hfill f Hin) as [E|[y E]]; rewrite E; discriminate. }
  assert (Hstart :
    FillStruct TypeString AssignableTo ConvertibleTo Convert (S (S fuel))
      (VMap tMapStringAny (Some m)) (VStruct t vals)
    = bind (foldM (toStruct_apply AssignableTo Convert
                     (mkValue t false false (VStruct t vals)))
              (stagedFrom_ 0 m fs) (VStruct t vals))
        (fun x => Ret x)).
  { unfold FillStruct, structVal, ValueOf.
    cbn [typeOf Type_ flagRO flagStickyRO flagAddr data structVal_loop]. rewrite Hkt.
    cbn [bind].
    rewrite toStruct_on_struct, getFields_struct
      by (try reflexivity; exact Hkt).
    cbn [Type_ bind]. unfold TypeFields. rewrite Ht.
    rewrite filter_flat by exact Hflat. rewrite length_map.
    pose proof (foldM_toStruct_field_flat TypeString AssignableTo
                  ConvertibleTo Convert (toStruct_'' (S fuel)) fuel m t false
                  vals fs Hflat Hnp [] (mkState (VStruct t vals) None [])
                  Ht Hnd Hlen eq_refl) as Hloop.
    cbn [app List.length] in Hloop. unfold fieldsOf in Hloop.
    cbv zeta in Hloop. cbn [target err modifiedFields] in Hloop.
    rewrite (errorsOf_no_refusal m fs None Hnr) in Hloop.
    match goal with
    | |- context [foldM (toStruct_field ?a ?b ?c ?d ?e ?g) ?l ?st] =>
        replace (foldM (toStruct_field a b c d e g) l st)
          with (Ret (mkState (VStruct t vals) None
                       (rev (stagedFrom_ 0 m fs) ++ [])%list))
          by (symmetry; exact Hloop)
    end.
    cbn [bind err target modifiedFields data].
    rewrite app_nil_r, rev_involutive.
    clear Hloop.
    destruct (foldM (toStruct_apply _ _ _) _ _); reflexivity. }
  rewrite Hstart. split.
  - intros Hex. destruct (stagedFrom_cons m fs 0 Hex) as [[[k y] ft] [rest E]].
    assert (Hk : k < List.length fs).
    { pose proof (stagedFrom_bounds m fs 0 k y ft) as Hb.
      rewrite E in Hb. specialize (Hb (or_introl eq_refl)). lia. }
    rewrite E. cbn [foldM]. unfold toStruct_apply at 1.
    unfold Value_Field, withData, TypeFields. cbn [Type_ data flagRO flagStickyRO flagAddr].
    rewrite Ht.
    destruct (nth_error fs k) as [f|] eqn:Ef;
      [|apply nth_error_None in Ef; lia].
    destruct (nth_error vals k) as [v|] eqn:Ev;
      [|apply nth_error_None in Ev; lia].
    assert (Hp : PkgPath (fst f) = "").
    { apply nth_error_In in Ef. rewrite forallb_forall in Hflat.
      apply Hflat, flatField_inv in Ef. tauto. }
    rewrite Hp. reflexivity.
  - intros Hkept. rewrite stagedFrom_nil; [reflexivity|].
    intros f Hin y. rewrite (Hkept f Hin). discriminate.
Qed.

End ByValue.

Lemma FillStruct_by_value_witness :
  go_FillStruct 2 (mapStringAny [("ID", int 9)]) plain7
  = Panic "reflect: reflect.Value.Set using unaddressable value"
  /\ go_FillStruct 2 (mapStringAny [("Other", int 9)]) plain7 = Ret plain7
  /\ go_FillStruct 2 (mapStringAny [("ID", int 9)])
       (VPtr (TPtr tPlain) (Some plain7))
     = Ret (VStruct tPlain [str ""; int 9; VBool TBool true]).
Proof.
  assert (Hnd : NoDup (names (TypeFields tPlain)))
    by (repeat constructor; simpl; intuition discriminate).
  split; [|split; [|reflexivity]].
  - apply (proj1 (FillStruct_by_value go_TypeString go_AssignableTo
                    go_ConvertibleTo go_Convert 0 [(key "ID", int 9)] tPlain
                    (TypeFields tPlain) [str ""; int 7; VBool TBool true]
                    eq_refl eq_refl Hnd eq_refl
                    ltac:(intros f [<-|[<-|[<-|[]]]];
                          [left | right; eexists | left]; reflexivity))).
    exists (exportedField "ID" "" tInt), (int 9). split; [simpl; auto | reflexivity].
  - apply (proj2 (FillStruct_by_value go_TypeString go_AssignableTo
                    go_ConvertibleTo go_Convert 0 [(key "Other", int 9)] tPlain
                    (TypeFields tPlain) [str ""; int 7; VBool TBool true]
                    eq_refl eq_refl Hnd eq_refl
                    ltac:(intros f [<-|[<-|[<-|[]]]]; left; reflexivity))).
    intros f [<-|[<-|[<-|[]]]]; reflexivity.
Defined.

(** ** Slices of scalars *)

Section Slices.
Variable TypeString : type -> string.
Variables AssignableTo ConvertibleTo : type -> type -> bool.
Variable Convert : any -> type -> any.

#[local] Abbreviation fromSlice_ :=
  (fromSlice TypeString AssignableTo ConvertibleTo Convert).
#[local] Abbreviation fromValue_s :=
  (fromValue TypeString AssignableTo ConvertibleTo Convert).

Lemma foldM_fromSlice_copy (fuel : nat) (e : type) (input : Value)
  (ie : type) (it : type) (post : list any) :
  isLeafKind (TypeKind e) = true ->
  Forall (fun x => typeOf x = Some e) post ->
  forall pre,
    Underlying (Type_ input) = TSlice ie ->
    data input = VSlice it (Some (pre ++ post)%list) ->
    flagRO input = false ->
    foldM
      (fun (acc : list any * option error) (i : nat) =>
         let '(output, er) := acc in
         x <- InterfaceOf (Index input i) ;;
         x <- InterfaceOf (ValueOf x) ;;
         let elem := NewElem e in
         '(y, e') <- fromValue_s (S fuel) x elem (Type_ elem) ;;
         match e' with
         | Some _ => Ret (output, Join er e')
         | None => Ret (replaceNth output i y, er)
         end)
      (seq (List.length pre) (List.length post))
      ((pre ++ repeat (Zero e) (List.length post))%list, None)
    = Ret ((pre ++ post)%list, None).
Proof.
  intros Hleaf Hty. induction Hty as [|a post Ha Hpost IH];
    intros pre Hu Hd Hro.
  - simpl. reflexivity.
  - cbn [List.length seq foldM repeat].
    unfold Index at 1. rewrite Hu, Hd.
    rewrite nth_error_app2, Nat.sub_diag by lia. cbn [nth_error option_map].
    unfold InterfaceOf at 1, Interface at 1. cbn [flagRO flagStickyRO data]. rewrite Hro.
    cbn [bind]. unfold ValueOf at 1. rewrite Ha.
    cbn [InterfaceOf Interface flagRO flagStickyRO data bind].
    cbn [NewElem Type_].
    rewrite (fromValue_leaf TypeString AssignableTo ConvertibleTo Convert
               fuel a e Hleaf).
    rewrite Ha. unfold coerce. rewrite type_eqb_refl. cbn [bind].
    rewrite replaceNth_app.
    specialize (IH (pre ++ [a])%list).
    rewrite <- !app_assoc in IH. cbn [app] in IH.
    rewrite length_app in IH. cbn [List.length] in IH.
    rewrite Nat.add_1_r in IH. apply IH; assumption.
Qed.

(** X12: [fromSlice] for a slot whose type is a slice of a scalar type and a
    source slice whose elements all have this scalar type: the slot
    receives a new slice with the elements of the source, in order; when
    the source is a nil slice, the slot receives an empty slice that is not
    nil. *)
Theorem fromSlice_copies (fuel : nat) (it ie t e : type)
  (els : option (list any)) (out : Value) :
  TypeKind it = Kind.Slice ->
  Underlying it = TSlice ie ->
  Underlying t = TSlice e ->
  isLeafKind (TypeKind e) = true ->
  Forall (fun x => typeOf x = Some e)
         (match els with Some xs => xs | None => [] end) ->
  Type_ out = t -> flagRO out = false -> flagAddr out = true ->
  fromSlice_ (S (S fuel)) (VSlice it els) out t
  = Ret (VSlice t (Some (match els with Some xs => xs | None => [] end)),
         None).
Proof.
  intros Hki Hui Hut Hleaf Hty Hout Hro Haddr.
  cbn [fromSlice]. unfold fromSlice_body.
  unfold ValueOf. cbn [typeOf KindOf]. unfold ValueKind. cbn [Type_].
  rewrite Hki, Hut. cbn [bind].
  destruct els as [xs|].
  - cbn [Len data].
    pose proof (foldM_fromSlice_copy fuel e (mkValue it false false
                  (VSlice it (Some xs))) ie it xs Hleaf Hty [] Hui eq_refl
                  eq_refl) as Hloop.
    cbn [app List.length] in Hloop.
    match goal with
    | |- context [foldM ?f ?l ?st] =>
        replace (foldM f l st) with (@Ret (list any * option error) (xs, None))
          by (symmetry; exact Hloop)
    end.
    cbn [bind]. unfold Set_, assignTo. rewrite Hro, Haddr, Hout.
    cbn [negb]. rewrite type_eqb_refl. reflexivity.
  - cbn [Len data seq foldM repeat bind].
    unfold Set_, assignTo. rewrite Hro, Haddr, Hout.
    cbn [negb]. rewrite type_eqb_refl. reflexivity.
Qed.

End Slices.

Lemma fromSlice_copies_witness :
  fromSlice go_TypeString go_AssignableTo go_ConvertibleTo go_Convert 2
    (VSlice tSliceAny (Some [int 1; int 2])) (NewElem (TSlice tInt))
    (TSlice tInt)
  = Ret (VSlice (TSlice tInt) (Some [int 1; int 2]), None)
  /\ fromSlice go_TypeString go_AssignableTo go_ConvertibleTo go_Convert 2
       (VSlice (TSlice tInt) None) (NewElem (TSlice tInt)) (TSlice tInt)
     = Ret (VSlice (TSlice tInt) (Some []), None).
Proof.
  split.
  - apply (fromSlice_copies go_TypeString go_AssignableTo go_ConvertibleTo
             go_Convert 0 tSliceAny TInterface (TSlice tInt) tInt
             (Some [int 1; int 2]) (NewElem (TSlice tInt)));
      try reflexivity. repeat constructor.
  - apply (fromSlice_copies go_TypeString go_AssignableTo go_ConvertibleTo
             go_Convert 0 (TSlice tInt) tInt (TSlice tInt) tInt
             None (NewElem (TSlice tInt)));
      try reflexivity. constructor.
Defined.

(** ** Arrays of scalars *)

Lemma Zero_at_array (full t : type) (n : nat) (e : type) :
  Underlying t = TArray n e ->
  Zero_at full t = VArray full (repeat (Zero e) n).
Proof.
  revert full; induction t; intros full Hu; simpl in Hu; try discriminate.
  - inversion Hu; subst. reflexivity.
  - simpl. apply IHt. exact Hu.
Qed.

Section Arrays.
Variable TypeString : type -> string.
Variables AssignableTo ConvertibleTo : type -> type -> bool.
Variable Convert : any -> type -> any.

#[local] Abbreviation fromArray_ :=
  (fromArray TypeString AssignableTo ConvertibleTo Convert).
#[local] Abbreviation fromValue_a :=
  (fromValue TypeString AssignableTo ConvertibleTo Convert).

(** The loop of [fromArray] over the first elements of the source, as many
    as the array has room for. *)
Lemma foldM_fromArray_fill (fuel : nat) (t e : type) (n : nat) (input : Value)
  (ie it : type) (post : list any) :
  Underlying t = TArray n e ->
  isLeafKind (TypeKind e) = true ->
  Forall (fun x => typeOf x <> None) post ->
  forall (pre done_ rest : list any) (er : option error),
    Underlying (Type_ input) = TSlice ie ->
    data input = VSlice it (Some (pre ++ post ++ rest)%list) ->
    flagRO input = false ->
    List.length done_ = List.length pre ->
    List.length pre + List.length post <= n ->
    exists done' er',
      List.length done' = List.length post /\
      (Forall (fun x => typeOf x = Some e) post ->
       done' = post /\ er' = er) /\
      foldM
        (fun (acc : any * option error) (i : nat) =>
           let '(xs, er) := acc in
           match Index (withData (NewElem t) xs) i with
           | Some outputValue =>
               x <- InterfaceOf (Index input i) ;;
               '(y, e') <- fromValue_a (S fuel) x outputValue
                             (Type_ outputValue) ;;
               let xs' :=
                 match xs with
                 | VArray at_ l => VArray at_ (replaceNth l i y)
                 | _ => xs
                 end in
               match e' with
               | Some e' =>
                   Ret (xs', Join er (Some (Errorf_ctx e' ("@" ++ itoa i))))
               | None => Ret (xs', er)
               end
           | None => Panic "reflect: array index out of range"
           end)
        (seq (List.length pre) (List.length post))
        (VArray t (done_ ++ repeat (Zero e)
                     (n - List.length pre))%list, er)
      = Ret (VArray t ((done_ ++ done') ++ repeat (Zero e)
                         (n - List.length pre - List.length post))%list,
             er').
Proof.
  intros Ht Hleaf Hty. induction Hty as [|a post Ha Hpost IH];
    intros pre done_ rest er Hu Hd Hro Hlen Hn.
  - exists [], er. split; [reflexivity|]. split; [auto|].
    simpl. rewrite app_nil_r, Nat.sub_0_r. reflexivity.
  - cbn [List.length] in Hn.
    destruct (typeOf a) as [vt|] eqn:Evt; [|contradiction].
    cbn [List.length seq foldM].
    unfold Index at 1, withData, NewElem. cbn [Type_ data flagRO flagStickyRO flagAddr].
    rewrite Ht.
    assert (Hrep : repeat (Zero e) (n - List.length pre)
                   = Zero e :: repeat (Zero e) (n - List.length pre - 1)).
    { destruct (n - List.length pre) as [|k] eqn:Ek; [lia|].
      simpl. rewrite Nat.sub_0_r. reflexivity. }
    rewrite Hrep.
    rewrite <- Hlen, nth_error_app2, Nat.sub_diag by lia.
    cbn [nth_error option_map].
    unfold Index at 1. rewrite Hu, Hd.
    rewrite Hlen, nth_error_app2, Nat.sub_diag by lia.
    cbn [app nth_error option_map].
    unfold InterfaceOf, Interface. cbn [flagRO flagStickyRO data]. rewrite Hro.
    cbn [bind Type_].
    change (mkValue e false true (Zero e)) with (NewElem e).
    rewrite (fromValue_leaf TypeString AssignableTo ConvertibleTo Convert
               fuel a e Hleaf), Evt.
    assert (Hstep : forall y er1,
      (typeOf a = Some e -> y = a /\ er1 = er) ->
      exists done' er',
        List.length done' = S (List.length post) /\
        (Forall (fun x => typeOf x = Some e) (a :: post) ->
         done' = a :: post /\ er' = er) /\
        foldM
          (fun (acc : any * option error) (i : nat) =>
             let '(xs, er) := acc in
             match Index (withData (NewElem t) xs) i with
             | Some outputValue =>
                 x <- InterfaceOf (Index input i) ;;
                 '(y, e') <- fromValue_a (S fuel) x outputValue
                               (Type_ outputValue) ;;
                 let xs' :=
                   match xs with
                   | VArray at_ l => VArray at_ (replaceNth l i y)
                   | _ => xs
                   end in
                 match e' with
                 | Some e' =>
                     Ret (xs', Join er (Some (Errorf_ctx e' ("@" ++ itoa i))))
                 | None => Ret (xs', er)
                 end
             | None => Panic "reflect: array index out of range"
             end)
          (seq (S (List.length pre)) (List.length post))
          (VArray t (replaceNth
                       (done_ ++ Zero e
                          :: repeat (Zero e) (n - List.length pre - 1))
                       (List.length pre) y), er1)
        = Ret (VArray t ((done_ ++ done') ++ repeat (Zero e)
                           (n - List.length pre - S (List.length post)))%list,
               er')).
    { intros y er1 Hy.
      destruct (IH (pre ++ [a])%list (done_ ++ [y])%list rest er1)
        as [done' [er' [Hl' [Hsame Hloop]]]].
      - exact Hu.
      - rewrite Hd, <- !app_assoc. reflexivity.
      - exact Hro.
      - rewrite !length_app. simpl. lia.
      - rewrite length_app. simpl. lia.
      - exists (y :: done'), er'. split; [simpl; lia|]. split.
        + intros Hall. inversion Hall as [|? ? Ha' Hall']; subst.
          destruct (Hy Ha') as [-> ->].
          destruct (Hsame Hall') as [-> ->]. split; reflexivity.
        + rewrite length_app in Hloop. cbn [List.length] in Hloop.
          rewrite Nat.add_1_r in Hloop.
          replace (n - S (List.length pre)) with (n - List.length pre - 1)
            in Hloop by lia.
          rewrite <- !app_assoc in Hloop. cbn [app] in Hloop.
          replace (n - List.length pre - 1 - List.length post)
            with (n - List.length pre - S (List.length post)) in Hloop by lia.
          rewrite <- app_assoc. cbn [app].
          replace (replaceNth
                     (done_ ++ Zero e
                        :: repeat (Zero e) (n - List.length pre - 1))
                     (List.length pre) y)
            with (done_ ++ y :: repeat (Zero e) (n - List.length pre - 1))%list
            by (rewrite <- Hlen; symmetry; apply replaceNth_app).
          exact Hloop. }
    unfold coerce.
    destruct (type_eqb vt e) eqn:Eeq; cbn [bind].
    + apply Hstep. intros _. auto.
    + assert (Hne : typeOf a = Some e -> False).
      { intros E. rewrite E in Evt. inversion Evt; subst.
        rewrite type_eqb_refl in Eeq. discriminate. }
      destruct (AssignableTo vt e || ConvertibleTo vt e); cbn [bind];
        apply Hstep; intros E; destruct (Hne E).
Qed.

(** X13: [fromArray] for a slot whose type is an array of [n] elements of a
    scalar type and a source slice without nil element: when the source has
    more than [n] elements, [fromArray] panics ([reflect] refuses the index
    [n]) instead of returning an error; when it has at most [n] elements,
    all of the scalar type, the slot receives an array that starts with the
    elements of the source and holds zero values after them. *)
Theorem fromArray_bounds (fuel : nat) (it ie t e : type) (n : nat)
  (xs : list any) (out : Value) :
  TypeKind it = Kind.Slice ->
  Underlying it = TSlice ie ->
  Underlying t = TArray n e ->
  isLeafKind (TypeKind e) = true ->
  (n < List.length xs ->
   Forall (fun x => typeOf x <> None) xs ->
   fromArray_ (S (S fuel)) (VSlice it (Some xs)) out t
   = Panic "reflect: array index out of range")
  /\ (List.length xs <= n ->
      Forall (fun x => typeOf x = Some e) xs ->
      Type_ out = t -> flagRO out = false -> flagAddr out = true ->
      fromArray_ (S (S fuel)) (VSlice it (Some xs)) out t
      = Ret (VArray t (xs ++ repeat (Zero e) (n - List.length xs))%list,
             None)).
Proof.
  intros Hki Hui Hut Hleaf.
  assert (Hz : data (NewElem t) = VArray t (repeat (Zero e) n))
    by (unfold NewElem, Zero; cbn [data]; apply Zero_at_array; exact Hut).
  split.
  - intros Hn Hty.
    assert (Hty' : Forall (fun x => typeOf x <> None) (firstn n xs)).
    { rewrite <- (firstn_skipn n xs) in Hty. apply Forall_app in Hty.
      exact (proj1 Hty). }
    cbn [fromArray]. unfold fromArray_body.
    unfold ValueOf. cbn [typeOf KindOf]. unfold ValueKind. cbn [Type_].
    rewrite Hki. cbn [Len data]. rewrite Hz.
    replace (List.length xs) with (n + (List.length xs - n)) by lia.
    rewrite seq_app, foldM_app. cbn [Nat.add].
    destruct (foldM_fromArray_fill fuel t e n
                (mkValue it false false (VSlice it (Some xs))) ie it
                (firstn n xs) Hut Hleaf
                Hty'
                [] [] (skipn n xs) None Hui
                ltac:(cbn [data app]; rewrite firstn_skipn; reflexivity)
                eq_refl eq_refl
                ltac:(cbn [List.length]; rewrite length_firstn; lia))
      as [done' [er' [Hl' [_ Hloop]]]].
    rewrite length_firstn in Hloop, Hl'.
    replace (Nat.min n (List.length xs)) with n in Hloop, Hl' by lia.
    cbn [List.length app] in Hloop. rewrite Nat.sub_0_r in Hloop.
    match goal with
    | |- context [foldM ?f (seq 0 n) ?st] =>
        replace (foldM f (seq 0 n) st)
          with (@Ret (any * option error)
                  (VArray t (done' ++ repeat (Zero e) (n - n))%list, er'))
          by (symmetry; exact Hloop)
    end.
    cbn [bind].
    destruct (List.length xs - n) as [|k] eqn:Ek; [lia|].
    cbn [seq foldM].
    unfold Index at 1, withData, NewElem. cbn [Type_ data flagRO flagStickyRO flagAddr].
    rewrite Hut.
    rewrite Nat.sub_diag. cbn [repeat]. rewrite app_nil_r.
    replace (nth_error done' n) with (@None any)
      by (symmetry; apply nth_error_None; lia).
    reflexivity.
  - intros Hn Hty Hout Hro Haddr.
    cbn [fromArray]. unfold fromArray_body.
    unfold ValueOf. cbn [typeOf KindOf]. unfold ValueKind. cbn [Type_].
    rewrite Hki. cbn [Len data]. rewrite Hz.
    destruct (foldM_fromArray_fill fuel t e n
                (mkValue it false false (VSlice it (Some xs))) ie it
                xs Hut Hleaf
                ltac:(eapply Forall_impl; [|exact Hty];
                      intros a Ha; rewrite Ha; discriminate)
                [] [] [] None Hui
                ltac:(cbn [data app]; rewrite app_nil_r; reflexivity)
                eq_refl eq_refl
                ltac:(cbn [List.length]; lia))
      as [done' [er' [Hl' [Hsame Hloop]]]].
    destruct (Hsame Hty) as [-> ->].
    cbn [List.length app] in Hloop. rewrite Nat.sub_0_r in Hloop.
    match goal with
    | |- context [foldM ?f ?l ?st] =>
        replace (foldM f l st)
          with (@Ret (any * option error)
                  (VArray t (xs ++ repeat (Zero e) (n - List.length xs))%list,
                   None))
          by (symmetry; exact Hloop)
    end.
    cbn [bind]. unfold Set_, assignTo. rewrite Hro, Haddr, Hout.
    cbn [negb]. rewrite type_eqb_refl. reflexivity.
Qed.

End Arrays.

Lemma fromArray_bounds_witness :
  fromArray go_TypeString go_AssignableTo go_ConvertibleTo go_Convert 2
    (VSlice tSliceAny (Some [int 1; int 2; int 3]))
    (NewElem (TArray 2 tInt)) (TArray 2 tInt)
  = Panic "reflect: array index out of range"
  /\ fromArray go_TypeString go_AssignableTo go_ConvertibleTo go_Convert 2
       (VSlice tSliceAny (Some [int 1])) (NewElem (TArray 2 tInt))
       (TArray 2 tInt)
     = Ret (VArray (TArray 2 tInt) [int 1; int 0], None).
Proof.
  destruct (fromArray_bounds go_TypeString go_AssignableTo go_ConvertibleTo
              go_Convert 0 tSliceAny TInterface (TArray 2 tInt) tInt 2
              [int 1; int 2; int 3] (NewElem (TArray 2 tInt))
              eq_refl eq_refl eq_refl eq_refl) as [H1 _].
  destruct (fromArray_bounds go_TypeString go_AssignableTo go_ConvertibleTo
              go_Convert 0 tSliceAny TInterface (TArray 2 tInt) tInt 2
              [int 1] (NewElem (TArray 2 tInt))
              eq_refl eq_refl eq_refl eq_refl) as [_ H2].
  split.
  - apply H1; [simpl; lia | repeat constructor; discriminate].
  - apply H2; try reflexivity; [simpl; lia | repeat constructor].
Defined.

(** ** Pointers to scalars *)

Lemma leaf_Underlying (e : type) :
  isLeafKind (TypeKind e) = true ->
  Underlying e = TBool \/ (exists k, Underlying e = TInt k)
  \/ Underlying e = TString.
Proof.
  unfold TypeKind. destruct (Underlying e); try discriminate; eauto.
Qed.

Lemma go_coerce_pointer (ie e : type) (v : any) :
  isLeafKind (TypeKind e) = true ->
  coerce go_AssignableTo go_ConvertibleTo go_Convert v (TPtr ie) e = None.
Proof.
  intros Hleaf.
  assert (Hne : type_eqb (TPtr ie) e = false).
  { apply type_eqb_neq. intros E. subst e. discriminate Hleaf. }
  assert (Hu : type_eqb (TPtr ie) (Underlying e) = false).
  { destruct (leaf_Underlying e Hleaf) as [E|[[k E]|E]]; rewrite E; reflexivity. }
  assert (Hk : Kind_eqb (TypeKind e) Kind.Interface = false)
    by (destruct (TypeKind e); try discriminate Hleaf; reflexivity).
  assert (Hs : Kind_eqb (TypeKind e) Kind.String && false = false)
    by apply andb_false_r.
  unfold coerce, go_ConvertibleTo, go_AssignableTo.
  cbn [Underlying TypeKind isIntKind isBytesOrRunes andb orb].
  rewrite Hne, Hu, Hk. cbn [andb orb].
  destruct e; try discriminate Hleaf; reflexivity.
Qed.

Section Unfold.
Variable TypeString : type -> string.
Variables AssignableTo ConvertibleTo : type -> type -> bool.
Variable Convert : any -> type -> any.

Lemma fromValue_S (fuel : nat) (in_ : any) (out : Value) (t : type) :
  fromValue TypeString AssignableTo ConvertibleTo Convert (S fuel) in_ out t
  = fromValue_body TypeString AssignableTo ConvertibleTo Convert
      (fromPtr TypeString AssignableTo ConvertibleTo Convert fuel)
      (toStruct TypeString AssignableTo ConvertibleTo Convert fuel)
      (fromSlice TypeString AssignableTo ConvertibleTo Convert fuel)
      (fromMap TypeString AssignableTo ConvertibleTo Convert fuel)
      (fromArray TypeString AssignableTo ConvertibleTo Convert fuel)
      in_ out t.
Proof. reflexivity. Qed.

Lemma fromPtr_S (fuel : nat) (in_ : any) (t : type) (out : Value) :
  fromPtr TypeString AssignableTo ConvertibleTo Convert (S fuel) in_ t out
  = fromPtr_body AssignableTo Convert
      (fromValue TypeString AssignableTo ConvertibleTo Convert fuel) in_ t out.
Proof. reflexivity. Qed.

End Unfold.

(** X14: a slot whose type is a pointer to a scalar type [e].  From a source
    of type [e], [fromValue] sets it to a pointer to a new variable that
    holds the source.  From a source that is itself a pointer (as the
    mapping [Map] returns holds for a field of pointer type), it returns a
    type-mismatch error and leaves the slot nil: such a field does not
    survive [Map] followed by [FillStruct]. *)
Theorem fromValue_pointer_to_scalar (fuel : nat) (e : type) :
  isLeafKind (TypeKind e) = true ->
  (forall v, typeOf v = Some e ->
     fromValue go_TypeString go_AssignableTo go_ConvertibleTo go_Convert
       (S (S (S fuel))) v (NewElem (TPtr e)) (TPtr e)
     = Ret (VPtr (TPtr e) (Some v), None))
  /\ (forall ie p,
        fromValue go_TypeString go_AssignableTo go_ConvertibleTo go_Convert
          (S (S (S fuel))) (VPtr (TPtr ie) p) (NewElem (TPtr e)) (TPtr e)
        = Ret (VPtr (TPtr e) None,
               Some (errorString
                       ("type mismatch: " ++ go_TypeString e ++ " and *"
                        ++ go_TypeString ie ++ " are incompatible")))).
Proof.
  intros Hleaf.
  assert (Hstart : forall v,
    fromValue go_TypeString go_AssignableTo go_ConvertibleTo go_Convert
      (S (S (S fuel))) v (NewElem (TPtr e)) (TPtr e)
    = bind (fromValue go_TypeString go_AssignableTo go_ConvertibleTo go_Convert
              (S fuel) v (NewElem e) e)
        (fun r =>
           match snd r with
           | Some er => Ret (VPtr (TPtr e) None, Some er)
           | None => Ret (VPtr (TPtr e) (Some (fst r)), None)
           end)).
  { intros v. rewrite fromValue_S. unfold fromValue_body at 1.
    unfold ValueKind, NewElem at 1. cbn [Type_ TypeKind Underlying].
    rewrite fromPtr_S.
    unfold fromPtr_body. unfold TypeElem. cbn [Underlying bind].
    change (Type_ (NewElem e)) with e.
    change (data (NewElem (TPtr e))) with (VPtr (TPtr e) None).
    destruct (fromValue go_TypeString go_AssignableTo go_ConvertibleTo
                go_Convert (S fuel) v (NewElem e) e) as [[x [er|]]| |];
      cbn [bind snd fst data NewElem]; try reflexivity.
    unfold Set_, assignTo. cbn [flagRO flagStickyRO flagAddr Type_ negb].
    rewrite type_eqb_refl. reflexivity. }
  split.
  - intros v Hv. rewrite Hstart, fromValue_leaf by exact Hleaf.
    rewrite Hv. unfold coerce. rewrite type_eqb_refl. reflexivity.
  - intros ie p. rewrite Hstart, fromValue_leaf by exact Hleaf.
    cbn [typeOf]. rewrite go_coerce_pointer by exact Hleaf. reflexivity.
Qed.

Lemma fromValue_pointer_to_scalar_witness :
  fromValue go_TypeString go_AssignableTo go_ConvertibleTo go_Convert 3
    (int 5) (NewElem (TPtr tInt)) (TPtr tInt)
  = Ret (VPtr (TPtr tInt) (Some (int 5)), None)
  /\ go_Map 2 (VStruct (TStruct [exportedField "P" "" (TPtr tInt)])
                 [VPtr (TPtr tInt) (Some (int 5))])
     = Ret (Some [(key "P", VPtr (TPtr tInt) (Some (int 5)))])
  /\ go_toStruct 4 (mapStringAny [("P", VPtr (TPtr tInt) (Some (int 5)))])
       (addressable (TStruct [exportedField "P" "" (TPtr tInt)])
          (VStruct (TStruct [exportedField "P" "" (TPtr tInt)])
             [VPtr (TPtr tInt) None]))
     = Ret (VStruct (TStruct [exportedField "P" "" (TPtr tInt)])
              [VPtr (TPtr tInt) None],
            Some (joinError
                    [errorString
                       "type mismatch: int and *int are incompatible:(P)"])).
Proof.
  split; [|split; reflexivity].
  apply (proj1 (fromValue_pointer_to_scalar 0 tInt eq_refl)). reflexivity.
Defined.

(** ** Values *)

Lemma foldM_map {A B C} (h : A -> B) (f : C -> B -> outcome C) (l : list A)
  (c : C) :
  foldM f (map h l) c = foldM (fun c a => f c (h a)) l c.
Proof.
  revert c; induction l as [|a l IH]; intros c; simpl; [reflexivity|].
  destruct (f c (h a)); simpl; auto.
Qed.

Lemma foldM_pure {A C} (f : C -> A -> outcome C) (g : C -> A -> C)
  (l : list A) (c : C) :
  (forall x c, In x l -> f c x = Ret (g c x)) ->
  foldM f l c = Ret (fold_left g l c).
Proof.
  revert c; induction l as [|a l IH]; intros c H; simpl; [reflexivity|].
  rewrite H by (left; reflexivity). simpl. apply IH.
  intros x c' Hx. apply H. right. exact Hx.
Qed.

Lemma fold_left_keep {A B} (p : A -> bool) (h : A -> B) (l : list A)
  (acc : list B) :
  fold_left (fun t a => if p a then (t ++ [h a])%list else t) l acc
  = (acc ++ map h (filter p l))%list.
Proof.
  revert acc; induction l as [|a l IH]; intros acc; simpl.
  - rewrite app_nil_r. reflexivity.
  - rewrite IH. destruct (p a); simpl; [rewrite <- app_assoc|]; reflexivity.
Qed.

(** X15: on a record in which [Values] enters no field (no field of the
    field set holds a struct or a pointer to a struct, unless it has the
    [omitnested] option) and no field of the field set has the [string]
    option, [Values] returns the values of the fields of the field set, in
    the order of the fields, without those of the fields that have the
    [omitempty] option and hold the zero value of their type. *)
Theorem Values_flat (Stringer : any -> option string) (fuel : nat) (t : type)
  (fs : list StructField) (vals : list any) :
  Underlying t = TStruct fs ->
  NoDup (names fs) ->
  List.length fs = List.length vals ->
  existsb entered (eligibleFields fs vals) = false ->
  existsb (fun fv => Has (snd (parseTag (Get (Tag (fst (fst fv)))
                                            DefaultTagName))) "string")
          (eligibleFields fs vals) = false ->
  pkg_Values Stringer (S fuel) (VStruct t vals)
  = Ret (map snd (filter (fun fv => kept (fst fv) (snd fv))
                         (eligibleFields fs vals))).
Proof.
  intros Ht Hnd Hlen Hflat Hstr.
  assert (Hk : TypeKind t = Kind.Struct)
    by (unfold TypeKind; rewrite Ht; reflexivity).
  assert (Hsf : structFields (handle t (VStruct t vals))
                = map fst (eligibleFields fs vals))
    by (apply (structFields_eligible t fs vals);
        [reflexivity | exact Ht | exact Hlen]).
  unfold pkg_Values. rewrite New_struct by exact Hk. cbn [bind Values].
  rewrite Hsf, foldM_map.
  rewrite (foldM_pure _ (fun acc fv => if kept (fst fv) (snd fv)
                                       then (acc ++ [snd fv])%list else acc)).
  - rewrite fold_left_keep. reflexivity.
  - intros [f v] acc Hin. cbn [fst snd].
    assert (Hval :
      FieldByName (value (handle t (VStruct t vals))) (Name (fst f))
      = Some (mkValue (FieldType f) false false v)).
    { unfold eligibleFields in Hin. apply filter_In in Hin.
      destruct Hin as [Hin Hel]. cbn [fst snd] in *.
      apply andb_true_iff in Hel. destruct Hel as [Hp _].
      unfold handle. cbn [value].
      rewrite (FieldByName_In t false false fs vals f v Ht Hnd Hin).
      rewrite Hp. reflexivity. }
    assert (Hent : entered (f, v) = false).
    { destruct (entered (f, v)) eqn:E; [|reflexivity].
      assert (existsb entered (eligibleFields fs vals) = true)
        by (apply existsb_exists; eauto).
      congruence. }
    assert (Hs : Has (snd (parseTag (Get (Tag (fst f)) DefaultTagName)))
                     "string" = false).
    { destruct (Has _ "string") eqn:E; [|reflexivity].
      assert (existsb (fun fv => Has (snd (parseTag (Get (Tag (fst (fst fv)))
                                                       DefaultTagName))) "string")
                      (eligibleFields fs vals) = true)
        by (apply existsb_exists; exists (f, v); auto).
      congruence. }
    unfold valuesField. rewrite Hval. unfold handle at 1. cbn [TagName].
    unfold entered in Hent. unfold kept. cbn [fst snd] in Hent.
    destruct (parseTag _) as [tagName tagOpts]. cbn [snd] in *.
    cbn [InterfaceOf Interface flagRO flagStickyRO data bind TypeOfValue Type_].
    rewrite Hs, Hent.
    destruct (Has tagOpts "omitempty"); cbn [bind andb negb];
      [destruct (DeepEqual v (Zero (FieldType f))); cbn [negb]|];
      reflexivity.
Qed.

Lemma Values_flat_witness :
  pkg_Values go_Stringer 1 plain7 = Ret [int 7; VBool TBool true]
  /\ pkg_Values go_Stringer 1 (VStruct tHidden [int 1; int 2]) = Ret [].
Proof.
  split.
  - apply (Values_flat go_Stringer 0 tPlain (TypeFields tPlain)
             [str ""; int 7; VBool TBool true]);
      try reflexivity.
    repeat constructor; simpl; intuition discriminate.
  - apply (Values_flat go_Stringer 0 tHidden (TypeFields tHidden)
             [int 1; int 2]);
      try reflexivity.
    repeat constructor; simpl; intuition discriminate.
Defined.

(** ** Names, Fields and FieldOk *)

Lemma fieldIndex_In (fs : list StructField) (f : StructField) :
  NoDup (names fs) -> In f fs ->
  exists i, fieldIndex fs (Name (fst f)) = Some i /\ nth_error fs i = Some f.
Proof.
  intros Hnd Hin. destruct (in_split f fs Hin) as [l1 [l2 ->]].
  exists (List.length l1). split.
  - apply fieldIndex_app. eapply NoDup_names_app. exact Hnd.
  - rewrite nth_error_app2, Nat.sub_diag by lia. reflexivity.
Qed.

Lemma fieldIndex_None (fs : list StructField) (name : string) :
  ~ In name (names fs) -> fieldIndex fs name = None.
Proof.
  induction fs as [|f fs IH]; simpl; intros Hn; [reflexivity|].
  destruct (String.eqb (Name (fst f)) name) eqn:E.
  - apply String.eqb_eq in E. exfalso. apply Hn. left. exact E.
  - rewrite IH by tauto. reflexivity.
Qed.

Section FieldOk.
Variable Promoted : type -> string -> option (StructField * list nat).

(** X16: for a handle on a record (the fields of its type have pairwise
    different names, none empty): [FieldOk] finds every field of the type by
    its name, the unexported ones and the ones tagged ["-"] included, with
    the value the field holds; so it finds every field that [Fields]
    lists, and it differs from it in the member [defaultTag] only, which is
    the tag name of the handle.  For a name that is the name of no field,
    when the type has no embedded field, [FieldOk] finds nothing and
    [Field] panics. *)
Theorem FieldOk_finds_fields (raw : any) (tag : string) (t : type)
  (ro addr : bool) (fs : list StructField) (vals : list any) :
  Underlying t = TStruct fs ->
  NoDup (names fs) ->
  ~ In "" (names fs) ->
  List.length fs = List.length vals ->
  let v := mkValue t ro addr (VStruct t vals) in
  let s := mkStruct raw v tag in
  (forall f, In f fs ->
     Struct_FieldOk Promoted s (Name (fst f))
     = Ret (Some (mkTagged (mkField (FieldByName v (Name (fst f))) f) tag))
     /\ exists x, In (f, x) (combine fs vals)
          /\ FieldByName v (Name (fst f))
             = Some (MkValue (FieldType f)
                       (ro || negb (String.eqb (PkgPath (fst f)) "")) addr x
                       (ro || (negb (String.eqb (PkgPath (fst f)) "")
                               && negb (Anonymous (fst f))))))
  /\ (exists fields,
        Fields s = Ret (untaggedFields fields)
        /\ Names s = Ret (map Field_Name fields)
        /\ forall f, In f fields ->
             Struct_FieldOk Promoted s (Field_Name f)
             = Ret (Some (mkTagged f tag)))
  /\ (forall name,
        ~ In name (names fs) ->
        existsb (fun f => Anonymous (fst f)) fs = false ->
        Struct_FieldOk Promoted s name = Ret None
        /\ Struct_Field Promoted s name = Panic "field not found").
Proof.
  intros Ht Hnd Hne Hlen v s.
  assert (Hk : TypeKind t = Kind.Struct)
    by (unfold TypeKind; rewrite Ht; reflexivity).
  assert (Hfs : TypeFields t = fs) by (unfold TypeFields; rewrite Ht; reflexivity).
  assert (Hfind : forall f, In f fs ->
     Struct_FieldOk Promoted s (Name (fst f))
     = Ret (Some (mkTagged (mkField (FieldByName v (Name (fst f))) f) tag))
     /\ exists x, In (f, x) (combine fs vals)
          /\ FieldByName v (Name (fst f))
             = Some (MkValue (FieldType f)
                       (ro || negb (String.eqb (PkgPath (fst f)) "")) addr x
                       (ro || (negb (String.eqb (PkgPath (fst f)) "")
                               && negb (Anonymous (fst f)))))).
  { intros f Hin.
    destruct (fieldIndex_In fs f Hnd Hin) as [i [Hi Hnth]].
    destruct (In_combine_l fs vals f Hlen Hin) as [x Hx].
    pose proof (FieldByName_In t ro addr fs vals f x Ht Hnd Hx) as Hval.
    fold v in Hval.
    assert (Hnz : String.eqb (Name (fst f)) "" = false).
    { apply String.eqb_neq. intros E. apply Hne. rewrite <- E.
      apply in_map with (f := fun g : StructField => Name (fst g)). exact Hin. }
    split; [|exists x; split; assumption].
    unfold Struct_FieldOk, Value_FieldByName, Type_FieldByName.
    subst s. cbn [value TagName]. subst v. cbn [Type_].
    rewrite Hk, Hfs, Hnz, Hi, Hnth. cbn [bind FieldByIndex_from].
    unfold FieldByName in Hval. cbn [Type_] in Hval.
    rewrite Hfs, Hi in Hval. rewrite Hval. cbn [bind].
    unfold FieldByName. cbn [Type_]. rewrite Hfs, Hi, Hval. reflexivity. }
  split; [exact Hfind|]. split.
  - exists (map (fun f => mkField (FieldByName v (Name (fst f))) f)
              (filter (fun f => negb (String.eqb (Get (Tag (fst f)) tag) "-"))
                      fs)).
    unfold Fields, Names. subst s. cbn [value TagName].
    rewrite getFields_struct by (subst v; exact Hk).
    subst v. cbn [Type_ bind]. rewrite Hfs.
    split; [reflexivity|]. split; [reflexivity|].
    intros f Hin. apply in_map_iff in Hin. destruct Hin as [g [<- Hg]].
    apply filter_In in Hg. destruct Hg as [Hg _].
    apply (Hfind g Hg).
  - intros name Hn Hemb.
    assert (E : Struct_FieldOk Promoted s name = Ret None).
    { unfold Struct_FieldOk, Type_FieldByName.
      subst s. cbn [value]. subst v. cbn [Type_].
      rewrite Hk, Hfs, Hemb, andb_false_r, (fieldIndex_None fs name Hn).
      destruct (String.eqb name ""); reflexivity. }
    split; [exact E|]. unfold Struct_Field. rewrite E. reflexivity.
Qed.

End FieldOk.

Lemma FieldOk_finds_fields_witness :
  let s := mkStruct (VPtr (TPtr tNode) (Some node1))
             (mkValue tNode false true node1) DefaultTagName in
  Names s = Ret ["Name"; "secret"]
  /\ Struct_FieldOk go_Promoted s "Hidden"
     = Ret (Some (mkTagged
                    (mkField (Some (mkValue tInt false true (int 1)))
                             (exportedField "Hidden" "-" tInt))
                    DefaultTagName))
  /\ Struct_Field go_Promoted s "Other" = Panic "field not found".
Proof.
  cbv zeta.
  assert (Hnd : NoDup (names (TypeFields tNode)))
    by (repeat constructor; simpl; intuition discriminate).
  assert (Hne : ~ In "" (names (TypeFields tNode)))
    by (simpl; intuition discriminate).
  destruct (FieldOk_finds_fields go_Promoted (VPtr (TPtr tNode) (Some node1))
              DefaultTagName tNode false true (TypeFields tNode)
              [str "a"; int 1; int 2] eq_refl Hnd Hne eq_refl)
    as [H1 [_ H3]].
  split; [reflexivity|]. split.
  - apply (H1 (exportedField "Hidden" "-" tInt)). simpl. auto.
  - apply H3; [simpl; intuition discriminate | reflexivity].
Defined.

(** ** Setting a field *)

Lemma Kind_eqb_eq (a b : Kind.t) : Kind_eqb a b = true <-> a = b.
Proof.
  destruct a, b; simpl; try (split; congruence).
  rewrite intkind_eqb_eq. split; congruence.
Qed.

Lemma Kind_eqb_refl (a : Kind.t) : Kind_eqb a a = true.
Proof. apply Kind_eqb_eq. reflexivity. Qed.

Section FieldSet.
Variable AssignableTo : type -> type -> bool.
Variable Convert : any -> type -> any.

Lemma Field_Set_start (fld : StructField) (v : Value) (val : any)
  (vt : type) :
  PkgPath (fst fld) = "" ->
  flagAddr v = true -> flagRO v = false ->
  typeOf val = Some vt ->
  Field_Set AssignableTo Convert (mkField (Some v) fld) val
  = if negb (Kind_eqb (TypeKind (Type_ v)) (TypeKind vt))
    then Ret (mkField (Some v) fld,
              Some (errorString
                      ("wrong kind. got: " ++ Kind_String (TypeKind vt)
                       ++ " want: " ++ Kind_String (TypeKind (Type_ v)))))
    else bind (Set_ AssignableTo Convert v val vt)
           (fun x => Ret (mkField (Some (withData v x)) fld, None)).
Proof.
  intros Hp Haddr Hro Hty.
  unfold Field_Set, IsExported, CanSet, Field_Kind, ValueOf.
  cbn [field fvalue fst]. rewrite Hp, Haddr, Hro, Hty.
  cbn [String.eqb negb andb KindOf Type_]. unfold ValueKind. cbn [Type_].
  reflexivity.
Qed.

Lemma Field_Set_same (fld : StructField) (v : Value) (val : any) :
  PkgPath (fst fld) = "" ->
  flagAddr v = true -> flagRO v = false ->
  typeOf val = Some (Type_ v) ->
  Field_Set AssignableTo Convert (mkField (Some v) fld) val
  = Ret (mkField (Some (withData v val)) fld, None).
Proof.
  intros Hp Haddr Hro Hty.
  rewrite (Field_Set_start fld v val (Type_ v)) by assumption.
  rewrite Kind_eqb_refl. cbn [negb].
  unfold Set_, assignTo. rewrite Hro, Haddr. cbn [negb].
  rewrite type_eqb_refl. reflexivity.
Qed.

(** X17: [Set] on a field that is exported and settable, of a type [ft]
    that is not an interface type, given a value of type [vt].  When [vt]
    is [ft], it returns no error and the field then holds the value.  When
    the kinds of [vt] and [ft] differ, it returns the "wrong kind" error
    and leaves the field as it was.  When the kinds are the same but [vt]
    is neither [ft] nor assignable to it, it panics in [reflect] instead of
    returning an error. *)
Theorem Field_Set_typed (fld : StructField) (v : Value) (val : any)
  (vt : type) :
  PkgPath (fst fld) = "" ->
  flagAddr v = true -> flagRO v = false ->
  typeOf val = Some vt ->
  let f := mkField (Some v) fld in
  (vt = Type_ v ->
   Field_Set AssignableTo Convert f val
   = Ret (mkField (Some (withData v val)) fld, None)
   /\ Field_Value (mkField (Some (withData v val)) fld) = Ret val)
  /\ (TypeKind vt <> TypeKind (Type_ v) ->
      Field_Set AssignableTo Convert f val
      = Ret (f, Some (errorString
                        ("wrong kind. got: " ++ Kind_String (TypeKind vt)
                         ++ " want: " ++ Kind_String (TypeKind (Type_ v))))))
  /\ (TypeKind vt = TypeKind (Type_ v) -> vt <> Type_ v ->
      AssignableTo vt (Type_ v) = false ->
      Field_Set AssignableTo Convert f val
      = Panic "reflect.Set: value is not assignable to type").
Proof.
  intros Hp Haddr Hro Hty f. subst f. split; [|split].
  - intros ->. split; [apply Field_Set_same; assumption|].
    unfold Field_Value, withData. cbn [fvalue InterfaceOf].
    unfold Interface. cbn [flagRO flagStickyRO data]. rewrite Hro. reflexivity.
  - intros Hk. rewrite (Field_Set_start fld v val vt) by assumption.
    destruct (Kind_eqb (TypeKind (Type_ v)) (TypeKind vt)) eqn:E;
      [|reflexivity].
    apply Kind_eqb_eq in E. congruence.
  - intros Hk Hne Has. rewrite (Field_Set_start fld v val vt) by assumption.
    rewrite Hk, Kind_eqb_refl. cbn [negb].
    unfold Set_, assignTo. rewrite Hro, Haddr. cbn [negb].
    apply type_eqb_neq in Hne. rewrite Hne, Has. reflexivity.
Qed.

(** X18: [Set] never succeeds on a field of interface type: the kind of the
    value it is given, taken from its dynamic type, is never the interface
    kind, and [Set] returns the "wrong kind" error, the field left as it
    was; so does [Zero], whose value is nil. *)
Theorem Field_Set_interface (fld : StructField) (v : Value) (val : any) :
  PkgPath (fst fld) = "" ->
  flagAddr v = true -> flagRO v = false ->
  TypeKind (Type_ v) = Kind.Interface ->
  KindOf (ValueOf val) <> Kind.Interface ->
  let f := mkField (Some v) fld in
  Field_Set AssignableTo Convert f val
  = Ret (f, Some (errorString
                    ("wrong kind. got: " ++ Kind_String (KindOf (ValueOf val))
                     ++ " want: interface")))
  /\ Field_Zero AssignableTo Convert f
     = Ret (f, Some (errorString "wrong kind. got: invalid want: interface")).
Proof.
  intros Hp Haddr Hro Hk Hval f.
  assert (Hset : forall x, KindOf (ValueOf x) <> Kind.Interface ->
    Field_Set AssignableTo Convert f x
    = Ret (f, Some (errorString
                      ("wrong kind. got: " ++ Kind_String (KindOf (ValueOf x))
                       ++ " want: interface")))).
  { intros x Hx. unfold Field_Set, IsExported, CanSet, Field_Kind. subst f.
    cbn [field fvalue fst]. rewrite Hp, Haddr, Hro.
    cbn [String.eqb negb andb KindOf]. unfold ValueKind at 1 2. rewrite Hk.
    destruct (Kind_eqb Kind.Interface (KindOf (ValueOf x))) eqn:E;
      [|reflexivity].
    apply Kind_eqb_eq in E. congruence. }
  split; [apply Hset; exact Hval|].
  unfold Field_Zero. subst f. cbn [fvalue TypeOfValue bind].
  assert (Hz : Zero (Type_ v) = VNil).
  { unfold Zero. generalize (Type_ v) at 1. unfold TypeKind in Hk.
    induction (Type_ v); intros full; simpl in *; try discriminate; auto. }
  rewrite Hz. apply (Hset VNil). discriminate.
Qed.

(** X19: [Zero] on a field that is exported and settable, of a type that is
    not an interface type: it returns no error, the field then holds the
    zero value of its type, and [IsZero] then returns true. *)
Theorem Field_Zero_IsZero (fld : StructField) (v : Value) :
  PkgPath (fst fld) = "" ->
  flagAddr v = true -> flagRO v = false ->
  TypeKind (Type_ v) <> Kind.Interface ->
  let f' := mkField (Some (withData v (Zero (Type_ v)))) fld in
  Field_Zero AssignableTo Convert (mkField (Some v) fld) = Ret (f', None)
  /\ Field_IsZero f' = Ret true.
Proof.
  intros Hp Haddr Hro Hk f'. split.
  - unfold Field_Zero. cbn [fvalue TypeOfValue bind].
    apply Field_Set_same; try assumption.
    apply typeOf_Zero. exact Hk.
  - unfold Field_IsZero, Field_Value. subst f'.
    unfold withData. cbn [fvalue TypeOfValue Type_ bind InterfaceOf].
    unfold Interface. cbn [flagRO flagStickyRO data]. rewrite Hro. cbn [bind].
    unfold Zero. rewrite DeepEqual_Zero_at. reflexivity.
Qed.

End FieldSet.

Lemma Field_Set_typed_witness :
  let f := mkField (Some (mkValue tInt false true (int 7))) fID in
  Field_Set go_AssignableTo go_Convert f (int 9)
  = Ret (mkField (Some (mkValue tInt false true (int 9))) fID, None)
  /\ Field_Set go_AssignableTo go_Convert f (str "x")
     = Ret (f, Some (errorString "wrong kind. got: string want: int"))
  /\ Field_Set go_AssignableTo go_Convert f (VInt tMyInt 3)
     = Panic "reflect.Set: value is not assignable to type".
Proof.
  cbv zeta. split; [|split].
  - apply (proj1 (Field_Set_typed go_AssignableTo go_Convert fID
                    (mkValue tInt false true (int 7)) (int 9) tInt
                    eq_refl eq_refl eq_refl eq_refl)).
    reflexivity.
  - apply (proj1 (proj2 (Field_Set_typed go_AssignableTo go_Convert fID
                           (mkValue tInt false true (int 7)) (str "x") TString
                           eq_refl eq_refl eq_refl eq_refl))).
    discriminate.
  - apply (proj2 (proj2 (Field_Set_typed go_AssignableTo go_Convert fID
                           (mkValue tInt false true (int 7)) (VInt tMyInt 3)
                           tMyInt eq_refl eq_refl eq_refl eq_refl)));
      [reflexivity | discriminate | reflexivity].
Defined.

Lemma Field_Set_interface_witness :
  let f := mkField (Some (mkValue TInterface false true VNil))
             (exportedField "V" "" TInterface) in
  Field_Set go_AssignableTo go_Convert f (int 1)
  = Ret (f, Some (errorString "wrong kind. got: int want: interface"))
  /\ Field_Zero go_AssignableTo go_Convert f
     = Ret (f, Some (errorString "wrong kind. got: invalid want: interface")).
Proof.
  cbv zeta.
  apply (Field_Set_interface go_AssignableTo go_Convert
           (exportedField "V" "" TInterface)
           (mkValue TInterface false true VNil) (int 1));
    try reflexivity.
  discriminate.
Defined.

Lemma Field_Zero_IsZero_witness :
  Field_Zero go_AssignableTo go_Convert
    (mkField (Some (mkValue tInt false true (int 7))) fID)
  = Ret (mkField (Some (mkValue tInt false true (int 0))) fID, None)
  /\ Field_IsZero (mkField (Some (mkValue tInt false true (int 0))) fID)
     = Ret true.
Proof.
  apply (Field_Zero_IsZero go_AssignableTo go_Convert fID
           (mkValue tInt false true (int 7)));
    try reflexivity.
  discriminate.
Defined.

(** ** The fields of a record passed by value *)

Section ByValueFields.
Variable AssignableTo : type -> type -> bool.
Variable Convert : any -> type -> any.
Variable Promoted : type -> string -> option (StructField * list nat).

(** X20: the fields [Fields] lists for a record passed by value, not
    through a pointer, cannot be written or entered: on each of them [Set]
    returns an error whatever the value ("field is not exported" or "field
    is not settable") and leaves the field as it was, and [FieldOk] panics
    unless the field is of pointer kind ([reflect] refuses to take the
    address of a value that is not addressable). *)
Theorem Fields_by_value (t : type) (fs : list StructField) (vals : list any) :
  Underlying t = TStruct fs ->
  NoDup (names fs) ->
  List.length fs = List.length vals ->
  exists fields,
    pkg_Fields (VStruct t vals) = Ret (untaggedFields fields)
    /\ List.length fields
       = List.length (filter (fun f => negb (String.eqb (Get (Tag (fst f))
                                                          DefaultTagName) "-"))
                             fs)
    /\ forall f, In f fields ->
         (forall val,
            Field_Set AssignableTo Convert f val
            = Ret (f, Some (if IsExported f then errNotSettable
                            else errNotExported)))
         /\ (Field_Kind f <> Kind.Ptr ->
             forall name,
               Field_FieldOk Promoted f name
               = Panic "reflect.Value.Addr of unaddressable value").
Proof.
  intros Ht Hnd Hlen.
  assert (Hk : TypeKind t = Kind.Struct)
    by (unfold TypeKind; rewrite Ht; reflexivity).
  set (v := mkValue t false false (VStruct t vals)).
  exists (map (fun f => mkField (FieldByName v (Name (fst f))) f)
            (filter (fun f => negb (String.eqb (Get (Tag (fst f))
                                                  DefaultTagName) "-")) fs)).
  split; [|split].
  - unfold pkg_Fields. rewrite New_struct by exact Hk.
    unfold handle, Fields. cbn [bind value TagName].
    rewrite getFields_struct by exact Hk. cbn [Type_ bind].
    unfold TypeFields. rewrite Ht. reflexivity.
  - apply length_map.
  - intros f Hin. apply in_map_iff in Hin. destruct Hin as [g [<- Hg]].
    apply filter_In in Hg. destruct Hg as [Hg _].
    destruct (In_combine_l fs vals g Hlen Hg) as [x Hx].
    unfold v. rewrite (FieldByName_In t false false fs vals g x Ht Hnd Hx).
    cbn [orb]. split.
    + intros val. unfold Field_Set, IsExported, CanSet.
      cbn [field fvalue fst flagAddr flagRO flagStickyRO andb negb].
      destruct (String.eqb (PkgPath (fst g)) ""); reflexivity.
    + intros Hkind name. unfold Field_FieldOk. cbn [fvalue flagAddr negb].
      unfold Field_Kind in Hkind. cbn [fvalue KindOf] in Hkind.
      destruct (ValueKind _); try reflexivity. contradiction.
Qed.

(** X21: [Fields] on a field that [Fields] lists does not leave out the
    fields tagged ["-"]: [getFields] does not set the member [defaultTag] of
    the fields it makes, and no tag has a value under the empty key.  On a
    field that [Struct.FieldOk] returns, whose [defaultTag] is the tag name
    of the handle, it leaves them out. *)
Theorem Field_Fields_defaultTag (s : Struct) (v : Value) :
  ValueKind v = Kind.Struct ->
  (forall g, In g (TypeFields (Type_ v)) -> Get (Tag (fst g)) "" = "") ->
  (forall fields f,
     Fields s = Ret fields -> In f fields ->
     fvalue (untagged f) = Some v ->
     exists inner,
       Field_Fields f = Ret (untaggedFields inner)
       /\ map field inner = TypeFields (Type_ v))
  /\ (forall name f,
        Struct_FieldOk Promoted s name = Ret (Some f) ->
        fvalue (untagged f) = Some v ->
        exists inner,
          Field_Fields f = Ret (untaggedFields inner)
          /\ map field inner
             = filter (fun g => negb (String.eqb (Get (Tag (fst g)) (TagName s))
                                        "-"))
                      (TypeFields (Type_ v))).
Proof.
  intros Hk Htags.
  assert (Hmap : forall (l : list StructField),
            map field (map (fun g => mkField (FieldByName v (Name (fst g))) g) l)
            = l).
  { intros l. rewrite map_map. cbn [field]. apply map_id. }
  split.
  - intros fields f Hfields Hin Hv.
    assert (Hd : defaultTag f = "").
    { unfold Fields in Hfields. apply bind_Ret_inv in Hfields.
      destruct Hfields as [l [_ E]]. inversion E; subst.
      unfold untaggedFields in Hin. apply in_map_iff in Hin.
      destruct Hin as [g [<- _]]. reflexivity. }
    unfold Field_Fields. rewrite Hv, Hd, getFields_struct by exact Hk.
    cbn [bind]. eexists. split; [reflexivity|].
    rewrite Hmap.
    assert (Hall : forall l, incl l (TypeFields (Type_ v)) ->
              filter (fun g => negb (String.eqb (Get (Tag (fst g)) "") "-")) l
              = l).
    { induction l as [|g l IH]; intros Hincl; simpl; [reflexivity|].
      rewrite (Htags g) by (apply Hincl; left; reflexivity).
      cbn [String.eqb negb]. rewrite IH; [reflexivity|].
      intros x Hx. apply Hincl. right. exact Hx. }
    apply Hall. apply incl_refl.
  - intros name f Hok Hv.
    assert (Hd : defaultTag f = TagName s).
    { unfold Struct_FieldOk in Hok. apply bind_Ret_inv in Hok.
      destruct Hok as [[[g idx]|] [_ E]]; [|discriminate E].
      apply bind_Ret_inv in E. destruct E as [w [_ E]].
      inversion E; subst. reflexivity. }
    unfold Field_Fields. rewrite Hv, Hd, getFields_struct by exact Hk.
    cbn [bind]. eexists. split; [reflexivity|]. apply Hmap.
Qed.

End ByValueFields.

Lemma Fields_by_value_witness :
  exists f g,
    pkg_Fields node1 = Ret [mkTagged f ""; mkTagged g ""]
    /\ Field_Set go_AssignableTo go_Convert f (str "b")
       = Ret (f, Some errNotSettable)
    /\ Field_Set go_AssignableTo go_Convert g (int 3)
       = Ret (g, Some errNotExported)
    /\ Field_FieldOk go_Promoted f "X"
       = Panic "reflect.Value.Addr of unaddressable value".
Proof.
  assert (Hnd : NoDup (names (TypeFields tNode)))
    by (repeat constructor; simpl; intuition discriminate).
  destruct (Fields_by_value go_AssignableTo go_Convert go_Promoted tNode
              (TypeFields tNode) [str "a"; int 1; int 2] eq_refl Hnd eq_refl)
    as [fields [E [_ H]]].
  unfold pkg_Fields, node1 in *.
  exists (mkField (Some (mkValue TString false false (str "a")))
            (exportedField "Name" "" TString)),
         (mkField (Some (mkValue tInt true false (int 2)))
            (mkHead "secret" "main" [] false, tInt)).
  split; [reflexivity|].
  assert (Ef : fields =
    [mkField (Some (mkValue TString false false (str "a")))
       (exportedField "Name" "" TString);
     mkField (Some (mkValue tInt true false (int 2)))
       (mkHead "secret" "main" [] false, tInt)]).
  { vm_compute in E. inversion E as [E'].
    unfold untaggedFields in E'.
    destruct fields as [|a [|b [|c l]]]; try discriminate E'.
    inversion E'; subst. reflexivity. }
  subst fields.
  destruct (H _ (or_introl eq_refl)) as [H1 H2].
  destruct (H _ (or_intror (or_introl eq_refl))) as [H3 _].
  split; [apply H1|]. split; [apply H3|].
  apply H2. discriminate.
Defined.

Lemma Field_Fields_defaultTag_witness :
  let s := mkStruct tree1 (mkValue tTree false false tree1) DefaultTagName in
  exists f g,
    Fields s = Ret [mkTagged f ""; mkTagged g ""]
    /\ (exists inner, Field_Fields (mkTagged f "") = Ret inner
                      /\ List.length inner = 3)
    /\ Struct_FieldOk go_Promoted s "Root" = Ret (Some (mkTagged f DefaultTagName))
    /\ (exists inner, Field_Fields (mkTagged f DefaultTagName) = Ret inner
                      /\ List.length inner = 2).
Proof.
  cbv zeta.
  set (s := mkStruct tree1 (mkValue tTree false false tree1) DefaultTagName).
  set (f := mkField (Some (mkValue tNode false false node1))
              (exportedField "Root" "" tNode)).
  exists f, (mkField (Some (mkValue (TPtr tNode) false false
                              (VPtr (TPtr tNode) None)))
               (exportedField "Tip" "" (TPtr tNode))).
  destruct (Field_Fields_defaultTag go_Promoted s
              (mkValue tNode false false node1) eq_refl
              ltac:(intros g [<-|[<-|[<-|[]]]]; reflexivity)) as [H1 H2].
  split; [reflexivity|]. split; [|split; [reflexivity|]].
  - destruct (H1 _ (mkTagged f "") eq_refl (or_introl eq_refl) eq_refl)
      as [inner [E Hm]].
    eexists. split; [exact E|].
    unfold untaggedFields. rewrite length_map.
    rewrite <- (length_map field), Hm. reflexivity.
  - destruct (H2 "Root" (mkTagged f DefaultTagName) eq_refl eq_refl)
      as [inner [E Hm]].
    eexists. split; [exact E|].
    unfold untaggedFields. rewrite length_map.
    rewrite <- (length_map field), Hm. reflexivity.
Defined.

(** ** Maps of scalars *)


Section Maps.
Variable TypeString : type -> string.
Variables AssignableTo ConvertibleTo : type -> type -> bool.
Variable Convert : any -> type -> any.

#[local] Abbreviation fromMap_ :=
  (fromMap TypeString AssignableTo ConvertibleTo Convert).
#[local] Abbreviation fromValue_m :=
  (fromValue TypeString AssignableTo ConvertibleTo Convert).





End Maps.


(** ** Maps of records, by key *)

Section MapKeys.
Variable TypeString : type -> string.
Variable Stringer : any -> option string.

Lemma nested_S (fuel : nat) (s : Struct) (val : option Value) :
  nested TypeString Stringer (S fuel) s val
  = nested_body TypeString (FillMap TypeString Stringer fuel)
      (nested TypeString Stringer fuel) s val.
Proof. reflexivity. Qed.

(** X23: the mapping [nested] makes of a map of records whose keys are not
    of kind string has one key at most, whatever the number of bindings of
    the map: each binding is stored under [k.String()], which for a key that
    is not a string is the text ["<T Value>"], [T] the type of the keys; so
    the bindings replace each other. *)
Theorem nested_map_keys (fuel : nat) (s : Struct) (mt kt et : type)
  (ro addr : bool) (m : mapdata) (r : any) :
  Underlying mt = TMap kt et ->
  TypeKind kt <> Kind.String ->
  TypeKind et = Kind.Struct ->
  nested TypeString Stringer (S fuel) s
    (Some (mkValue mt ro addr (VMap mt (Some m)))) = Ret r ->
  exists m',
    r = VMap tMapStringAny (Some m')
    /\ List.length m' <= 1
    /\ (m <> [] -> List.length m' = 1)
    /\ forall q, hasKey m' q -> q = key ("<" ++ TypeString kt ++ " Value>").
Proof.
  intros Hu Hkk Hek H.
  assert (Hkm : TypeKind mt = Kind.Map)
    by (unfold TypeKind; rewrite Hu; reflexivity).
  rewrite nested_S in H. unfold nested_body in H.
  apply bind_Ret_inv in H. destruct H as [x [Hx H]].
  unfold InterfaceOf, Interface in Hx. cbn [flagRO flagStickyRO data] in Hx.
  destruct ro; [discriminate Hx|]. inversion Hx; subst x. clear Hx.
  unfold ValueOf in H. cbn [typeOf] in H.
  unfold derefOnce in H. unfold ValueKind in H at 1. cbn [Type_] in H.
  rewrite Hkm in H. cbn [KindOf] in H. unfold ValueKind in H. cbn [Type_] in H.
  rewrite Hkm in H. cbn [TypeOfValue bind Type_] in H. rewrite Hkm in H.
  unfold TypeElem in H at 1. rewrite Hu in H. cbn [bind] in H.
  rewrite Hek in H. cbn [bind] in H. rewrite Hek in H. cbn [bind] in H.
  apply bind_Ret_inv in H. destruct H as [m' [Hloop H]].
  injection H as <-.
  exists m'. split; [reflexivity|].
  unfold MapEntries in Hloop. cbn [Type_ data flagRO flagStickyRO] in Hloop.
  rewrite Hu in Hloop.
  set (K := key ("<" ++ TypeString kt ++ " Value>")) in *.
  assert (Hinv : forall (l : mapdata) (acc acc' : mapdata),
    (acc = [] \/ exists y, acc = [(K, y)]) ->
    foldM (fun m0 kv =>
             x <- nested TypeString Stringer fuel s (Some (snd kv)) ;;
             Ret (SetMapIndex m0 (key (ValueString TypeString (fst kv))) x))
          (map (fun kv => (mkValue kt false false (fst kv),
                           mkValue et false false (snd kv))) l)
          acc = Ret acc' ->
    (acc' = [] /\ acc = [] /\ l = []) \/ exists y, acc' = [(K, y)]).
  { induction l as [|[k0 x0] l IH]; intros acc acc' Hacc Hf.
    - cbn [map foldM] in Hf. inversion Hf; subst.
      destruct Hacc as [->|[y ->]]; [left; auto | right; eauto].
    - cbn [map foldM fst snd] in Hf.
      apply bind_Ret_inv in Hf. destruct Hf as [acc1 [Hstep Hf]].
      apply bind_Ret_inv in Hstep. destruct Hstep as [y [_ Hstep]].
      assert (Hks : key (ValueString TypeString (mkValue kt false false k0)) = K).
      { unfold ValueString, ValueKind. cbn [Type_ data].
        destruct (TypeKind kt); try reflexivity. contradiction. }
      rewrite Hks in Hstep. inversion Hstep; subst acc1. clear Hstep.
      assert (Hacc1 : exists y', SetMapIndex acc K y = [(K, y')]).
      { destruct Hacc as [->|[y0 ->]]; cbn [SetMapIndex].
        - eauto.
        - unfold K. rewrite key_eqb, String.eqb_refl. eauto. }
      destruct (IH _ _ (or_intror Hacc1) Hf) as [[_ [E _]]|Hy]; [|right; exact Hy].
      destruct Hacc1 as [y' E']. rewrite E' in E. discriminate E. }
  destruct (Hinv m [] m' (or_introl eq_refl) Hloop) as [[-> [_ ->]]|[y ->]].
  - split; [simpl; lia|]. split; [intros Hne; contradiction|].
    intros q Hq. exfalso. apply Hq. reflexivity.
  - split; [simpl; lia|]. split; [reflexivity|].
    intros q Hq. unfold hasKey in Hq. cbn [MapIndex] in Hq.
    destruct (value_eqb K q) eqn:E; [|contradiction].
    apply value_eqb_key in E. exact E.
Qed.

End MapKeys.

Lemma nested_map_keys_witness :
  let mt := TMap tInt tInner in
  let m := [(int 1, VStruct tInner [int 10]); (int 2, VStruct tInner [int 20])] in
  let s := mkStruct (VStruct tInner [int 0])
             (mkValue tInner false false (VStruct tInner [int 0]))
             DefaultTagName in
  nested go_TypeString go_Stringer 4 s
    (Some (mkValue mt false false (VMap mt (Some m))))
  = Ret (VMap tMapStringAny
           (Some [(key "<int Value>", mapStringAny [("N", int 20)])]))
  /\ exists m', List.length m' = 1
       /\ forall q, hasKey m' q -> q = key "<int Value>".
Proof.
  cbv zeta. split; [reflexivity|].
  destruct (nested_map_keys go_TypeString go_Stringer 3
              (mkStruct (VStruct tInner [int 0])
                 (mkValue tInner false false (VStruct tInner [int 0]))
                 DefaultTagName)
              (TMap tInt tInner) tInt tInner false false
              [(int 1, VStruct tInner [int 10]); (int 2, VStruct tInner [int 20])]
              _ eq_refl ltac:(discriminate) eq_refl eq_refl)
    as [m' [_ [_ [H1 H2]]]].
  exists m'. split; [apply H1; discriminate | exact H2].
Defined.

(** ** A pointer as target *)

Section PointerTarget.
Variable TypeString : type -> string.
Variables AssignableTo ConvertibleTo : type -> type -> bool.
Variable Convert : any -> type -> any.

#[local] Abbreviation toStruct_p :=
  (toStruct TypeString AssignableTo ConvertibleTo Convert).

Lemma toStruct_S (fuel : nat) (in_ : any) (s : Value) :
  toStruct_p (S fuel) in_ s
  = toStruct_body AssignableTo Convert (toStruct_p fuel)
      (fromValue TypeString AssignableTo ConvertibleTo Convert fuel) in_ s.
Proof. reflexivity. Qed.

(** X24: [toStruct] on a settable target of type [*E], [E] not a pointer
    type itself, given a map: it does not read what the pointer holds.  It
    is [toStruct] on a new zero value of [E], and the target is left
    pointing to this new value whatever the outcome, an error included: the
    record the pointer held before is dropped, and a field of it that the
    source does not name is not kept. *)
Theorem toStruct_pointer_target (fuel : nat) (in_ : any) (e : type)
  (p : option any) :
  KindOf (ValueOf in_) = Kind.Map ->
  TypeKind e <> Kind.Ptr ->
  toStruct_p (S fuel) in_ (addressable (TPtr e) (VPtr (TPtr e) p))
  = bind (toStruct_p (S fuel) in_ (addressable e (Zero e)))
      (fun r => Ret (VPtr (TPtr e) (Some (fst r)), snd r)).
Proof.
  intros Hmap Hk. rewrite !toStruct_S. unfold toStruct_body. rewrite Hmap.
  unfold addressable, ValueKind. cbn [Type_ TypeKind Underlying].
  unfold TypeElem. cbn [Underlying bind].
  unfold Set_, assignTo. cbn [flagRO flagStickyRO flagAddr Type_ negb].
  rewrite type_eqb_refl. cbn [bind flagRO flagStickyRO].
  destruct in_; [cbn in Hmap; discriminate Hmap | ..];
    (cbn [Type_]; destruct (TypeKind e) eqn:Ek;
     do 2 (cbn [Type_ bind data fst snd]; rewrite ?Ek); try reflexivity;
     [ exfalso; apply Hk; reflexivity
     | destruct (getFields _ _); cbn [bind]; try reflexivity;
       destruct (foldM _ _ _); cbn [bind]; try reflexivity;
       destruct (err _); cbn [bind fst snd]; try reflexivity;
       destruct (foldM _ _ _); reflexivity ]).
Qed.

End PointerTarget.

Lemma toStruct_pointer_target_witness :
  go_toStruct 3 (mapStringAny [("N", int 7)])
    (addressable (TPtr tInner) (VPtr (TPtr tInner) (Some (VStruct tInner [int 1]))))
  = Ret (VPtr (TPtr tInner) (Some (VStruct tInner [int 7])), None)
  /\ go_toStruct 3 (mapStringAny [])
       (addressable (TPtr tInner) (VPtr (TPtr tInner) (Some (VStruct tInner [int 1]))))
     = Ret (VPtr (TPtr tInner) (Some (VStruct tInner [int 0])), None).
Proof.
  split.
  - unfold go_toStruct.
    rewrite (toStruct_pointer_target go_TypeString go_AssignableTo
               go_ConvertibleTo go_Convert 2 (mapStringAny [("N", int 7)])
               tInner (Some (VStruct tInner [int 1])));
      [reflexivity | reflexivity | discriminate].
  - reflexivity.
Defined.

(** ** Entering a field that holds a record *)

Section NestedField.
Variable Promoted : type -> string -> option (StructField * list nat).

Lemma Type_FieldByName_In (t : type) (fs : list StructField) (g : StructField) :
  Underlying t = TStruct fs ->
  NoDup (names fs) ->
  ~ In "" (names fs) ->
  In g fs ->
  exists i,
    fieldIndex fs (Name (fst g)) = Some i
    /\ Type_FieldByName Promoted t (Name (fst g)) = Ret (Some (g, [i])).
Proof.
  intros Ht Hnd Hne Hin.
  destruct (fieldIndex_In fs g Hnd Hin) as [i [Hi Hnth]].
  exists i. split; [exact Hi|].
  assert (Hnz : String.eqb (Name (fst g)) "" = false).
  { apply String.eqb_neq. intros E. apply Hne. rewrite <- E.
    apply in_map with (f := fun h : StructField => Name (fst h)). exact Hin. }
  unfold Type_FieldByName, TypeKind, TypeFields. rewrite Ht, Hnz, Hi, Hnth.
  reflexivity.
Qed.

(** The record reached from a field: what [FieldOk] finds in it. *)
Lemma FieldOk_in_record (t : type) (fs : list StructField) (vals : list any)
  (g : StructField) (x : any) :
  Underlying t = TStruct fs ->
  NoDup (names fs) ->
  ~ In "" (names fs) ->
  In (g, x) (combine fs vals) ->
  (r <- Type_FieldByName Promoted (Type_ (mkValue t false true (VStruct t vals)))
          (Name (fst g)) ;;
   match r with
   | None => Ret None
   | Some (field, _) =>
       fv <- Value_FieldByName Promoted (mkValue t false true (VStruct t vals))
               (Name (fst g)) ;;
       Ret (Some (mkTagged (mkField fv field) ""))
   end)
  = Ret (Some (mkTagged
                 (mkField
                    (Some (MkValue (FieldType g)
                             (negb (String.eqb (PkgPath (fst g)) "")) true x
                             (negb (String.eqb (PkgPath (fst g)) "")
                              && negb (Anonymous (fst g)))))
                    g) "")).
Proof.
  intros Ht Hnd Hne Hin.
  pose proof (FieldByName_In t false true fs vals g x Ht Hnd Hin) as Hval.
  destruct (Type_FieldByName_In t fs g Ht Hnd Hne (in_combine_l _ _ _ _ Hin))
    as [i [Hi Hty]].
  unfold Value_FieldByName. cbn [Type_]. rewrite Hty. cbn [bind FieldByIndex_from].
  unfold FieldByName, TypeFields in Hval. cbn [Type_] in Hval.
  rewrite Ht, Hi in Hval. rewrite Hval. reflexivity.
Qed.

(** X25: [FieldOk] on a field that holds a record whose type has fields
    with pairwise different names, none empty.  When the field is exported
    and holds the record itself, addressable, or a pointer to it, [FieldOk]
    finds every field of the record by its name, with the value it holds,
    and the field found is addressable.  When the field is not exported,
    embedded or not, [FieldOk] panics, whatever the name.  When the field
    holds a nil pointer, [FieldOk] panics with "not struct". *)
Theorem Field_FieldOk_nested (fld : StructField) (t : type)
  (fs : list StructField) (vals : list any) :
  Underlying t = TStruct fs ->
  NoDup (names fs) ->
  ~ In "" (names fs) ->
  let direct ro sticky :=
    mkField (Some (MkValue t ro true (VStruct t vals) sticky)) fld in
  let through ro sticky addr p :=
    mkField (Some (MkValue (TPtr t) ro addr (VPtr (TPtr t) p) sticky)) fld in
  let unexported :=
    Panic "reflect.Value.Interface: cannot return value obtained from unexported field or method" in
  (forall g x, In (g, x) (combine fs vals) ->
     let found :=
       Ret (Some (mkTagged
                    (mkField
                       (Some (MkValue (FieldType g)
                                (negb (String.eqb (PkgPath (fst g)) ""))
                                true x
                                (negb (String.eqb (PkgPath (fst g)) "")
                                 && negb (Anonymous (fst g)))))
                       g) "")) in
     Field_FieldOk Promoted (direct false false) (Name (fst g)) = found
     /\ forall addr,
          Field_FieldOk Promoted
            (through false false addr (Some (VStruct t vals)))
            (Name (fst g)) = found)
  /\ (forall name sticky,
        Field_FieldOk Promoted (direct true sticky) name = unexported
        /\ forall addr p,
             Field_FieldOk Promoted (through true sticky addr p) name
             = unexported)
  /\ (forall name addr,
        Field_FieldOk Promoted (through false false addr None) name
        = Panic "not struct").
Proof.
  intros Ht Hnd Hne direct through unexported.
  assert (Hk : TypeKind t = Kind.Struct)
    by (unfold TypeKind; rewrite Ht; reflexivity).
  assert (Hsv : structVal (VPtr (TPtr t) (Some (VStruct t vals)))
                = Ret (mkValue t false true (VStruct t vals))).
  { unfold structVal, ValueOf. cbn [typeOf Type_ flagRO flagStickyRO flagAddr data].
    cbn [structVal_loop TypeKind Underlying]. rewrite Hk. reflexivity. }
  split; [|split].
  - intros g x Hin found. split; [|intros addr];
      unfold Field_FieldOk, direct, through, ValueKind;
      cbn [fvalue Type_ flagAddr flagRO flagStickyRO data negb TypeKind Underlying];
      rewrite ?Hk; unfold Interface; cbn [flagRO flagStickyRO data bind];
      rewrite Hsv; cbn [bind];
      apply (FieldOk_in_record t fs vals g x Ht Hnd Hne Hin).
  - intros name sticky. split; [|intros addr p];
      unfold Field_FieldOk, direct, through, ValueKind;
      cbn [fvalue Type_ flagAddr flagRO flagStickyRO data negb TypeKind Underlying];
      rewrite ?Hk; reflexivity.
  - intros name addr.
    unfold Field_FieldOk, through, ValueKind.
    cbn [fvalue Type_ flagAddr flagRO flagStickyRO data negb TypeKind Underlying].
    reflexivity.
Qed.

End NestedField.

Lemma Field_FieldOk_nested_witness :
  let root := mkField (Some (mkValue tNode false true node1))
                (exportedField "Root" "" tNode) in
  let tip := mkField (Some (mkValue (TPtr tNode) false true
                              (VPtr (TPtr tNode) None)))
               (exportedField "Tip" "" (TPtr tNode)) in
  Field_FieldOk go_Promoted root "Name"
  = Ret (Some (mkTagged
                 (mkField (Some (mkValue TString false true (str "a")))
                    (exportedField "Name" "" TString)) ""))
  /\ Field_FieldOk go_Promoted tip "Name" = Panic "not struct".
Proof.
  cbv zeta.
  assert (Hnd : NoDup (names (TypeFields tNode)))
    by (repeat constructor; simpl; intuition discriminate).
  assert (Hne : ~ In "" (names (TypeFields tNode)))
    by (simpl; intuition discriminate).
  split.
  - apply (proj1 (Field_FieldOk_nested go_Promoted
                    (exportedField "Root" "" tNode) tNode (TypeFields tNode)
                    [str "a"; int 1; int 2] eq_refl Hnd Hne)
             (exportedField "Name" "" TString) (str "a")).
    simpl. auto.
  - apply (proj2 (proj2 (Field_FieldOk_nested go_Promoted
                           (exportedField "Tip" "" (TPtr tNode)) tNode
                           (TypeFields tNode) [str "a"; int 1; int 2]
                           eq_refl Hnd Hne))).
Defined.
